(** * Column headers of a Tangerine assessment

    A shallow embedding of [createColumnHeaders] and of the eight
    prototype header generators of the assessment controller
    (controllers/assessment.js), with the properties of the generated
    column sequence.

    Conventions of the embedding.
    - JSON values read from the database are [JsVal]s.  Numbers are the
      integers; strings are sequences of bytes, compared byte-wise.  The
      built-in operations on strings and the printing of numbers are
      those of [JsBuiltins].
    - A document is a record with one field per property the code reads.
      A scalar property is a [JsVal], [JUndefined] when the document has
      no such property; a property the code iterates is a list; the
      [_id] of a stored document is a string.  The [data] of a grid
      entry, its [items] and each item, which [createGrid] reads through,
      are options: [None] for a missing or null value.
    - A promise is a [Result]: [Ok] when it resolves, [Err] when it
      rejects.  [await] and [.then] are the bind of that monad.
    - The database layer (utils/dbQuery) is a [Store] of read-only
      lookups, a parameter of every function that queries it. *)

From stdpp Require Import base list strings pretty sorting.
From Stdlib Require Import Ascii ZArith Lia Permutation Sorted.

Open Scope string_scope.
Open Scope list_scope.

(** ** JavaScript values *)

#[local] Set Warnings "-register-all".

Inductive JsVal : Type :=
| JUndefined
| JNull
| JBool (b : bool)
| JNum (n : Z)
| JStr (s : string)
| JArr (elems : list JsVal)
| JObj (props : list (string * JsVal)).

(** ToBoolean: the test of [if (v)], [v || w] and [c ? a : b]. *)
Definition truthy (v : JsVal) : bool :=
  match v with
  | JUndefined | JNull => false
  | JBool b => b
  | JNum n => negb (n =? 0)%Z
  | JStr s => negb (String.eqb s "")
  | JArr _ | JObj _ => true
  end.

(** [v || w]. *)
Definition jsOr (v w : JsVal) : JsVal := if truthy v then v else w.

(** [v === 'literal']. *)
Definition strictEqStr (v : JsVal) (lit : string) : bool :=
  match v with
  | JStr s => String.eqb s lit
  | _ => false
  end.

(** [v === w]. Two arrays or two objects read from different documents
    are never the same reference. *)
Definition strictEq (v w : JsVal) : bool :=
  match v, w with
  | JUndefined, JUndefined => true
  | JNull, JNull => true
  | JBool a, JBool b => Bool.eqb a b
  | JNum a, JNum b => (a =? b)%Z
  | JStr a, JStr b => String.eqb a b
  | _, _ => false
  end.

(** ** Promises and exceptions *)

Inductive Failure : Type :=
| TypeError (msg : string)
| Rejected (reason : JsVal).

Inductive Result (A : Type) : Type :=
| Ok (a : A)
| Err (e : Failure).
Arguments Ok {A} a.
Arguments Err {A} e.

Definition bind {A B : Type} (m : Result A) (k : A -> Result B) : Result B :=
  match m with
  | Ok a => k a
  | Err e => Err e
  end.

Notation "x <- m ;; k" := (bind m (fun x => k))
  (at level 100, m at next level, right associativity).

Fixpoint mapM {A B : Type} (f : A -> Result B) (l : list A) : Result (list B) :=
  match l with
  | [] => Ok []
  | x :: rest =>
      y <- f x ;;
      ys <- mapM f rest ;;
      Ok (y :: ys)
  end.

(** Reading the property [prop] of [v], where [None] stands for
    [undefined] or [null]: that read throws. *)
Definition propertyOf {A : Type} (v : option A) (prop : string) : Result A :=
  match v with
  | Some a => Ok a
  | None =>
      Err (TypeError ("Cannot read properties of undefined (reading '"
                        +:+ prop +:+ "')"))
  end.

(** ** Built-in operations on strings and numbers *)

(** The methods [toLowerCase] and [replace] are built into the language.
    On a string of ASCII characters they are the two functions below: the
    letters A to Z are lowered, and the blanks of the class [\s] are tab,
    line feed, vertical tab, form feed, carriage return and space. On
    other strings they follow Unicode's case mapping and blank characters,
    which may change the length of the string. *)

Definition lowerAscii (c : ascii) : ascii :=
  let n := nat_of_ascii c in
  if (65 <=? n)%nat && (n <=? 90)%nat then ascii_of_nat (n + 32) else c.

Fixpoint lowerString (s : string) : string :=
  match s with
  | EmptyString => EmptyString
  | String c rest => String (lowerAscii c) (lowerString rest)
  end.

Definition isWhitespace (c : ascii) : bool :=
  let n := nat_of_ascii c in
  ((9 <=? n)%nat && (n <=? 13)%nat) || (n =? 32)%nat.

Fixpoint replaceWhitespace (s : string) : string :=
  match s with
  | EmptyString => EmptyString
  | String c rest =>
      String (if isWhitespace c then "_"%char else c) (replaceWhitespace rest)
  end.

(** Every character of the string is an ASCII character. *)
Fixpoint isAscii (s : string) : bool :=
  match s with
  | EmptyString => true
  | String c rest => (nat_of_ascii c <? 128)%nat && isAscii rest
  end.

(** The built-in operations the generators rely on: [jsToLowerCase s] is
    [s.toLowerCase()], [jsReplaceBlanks s] is [s.replace(/\s/g, '_')], and
    [jsNumberToString n] is the string of the number [n] in a template
    literal. They are fixed on the strings of ASCII characters and on the
    integers that a double holds exactly and prints digit by digit, and
    left open elsewhere, so that what is proved holds of the operations
    as the language defines them. *)
Class JsBuiltins : Type := {
  jsToLowerCase : string -> string;
  jsReplaceBlanks : string -> string;
  jsNumberToString : Z -> string;
  jsToLowerCase_ascii :
    forall s, isAscii s = true -> jsToLowerCase s = lowerString s;
  jsReplaceBlanks_ascii :
    forall s, isAscii s = true -> jsReplaceBlanks s = replaceWhitespace s;
  jsNumberToString_safe :
    forall n, (Z.abs n <= 2 ^ 53)%Z -> jsNumberToString n = pretty n
}.

(** The methods that treat every string as they treat ASCII strings and
    every number as they treat the safe integers; they evaluate the
    scenarios, whose strings are ASCII. *)
Definition asciiBuiltins : JsBuiltins :=
  {| jsToLowerCase := lowerString;
     jsReplaceBlanks := replaceWhitespace;
     jsNumberToString := pretty;
     jsToLowerCase_ascii := fun _ _ => eq_refl;
     jsReplaceBlanks_ascii := fun _ _ => eq_refl;
     jsNumberToString_safe := fun _ _ => eq_refl |}.

(** ** Documents *)

Module Assessment.
Record t : Type := { assessmentId : JsVal }.
End Assessment.

Module Subtest.
Record t : Type := {
  prototype : JsVal;
  _id : string;
  subtestId : JsVal;
  variableName : JsVal;
  assessmentId : JsVal;
  curriculumId : JsVal;
  levels : list JsVal
}.
End Subtest.

Module Question.
(** [others] holds the own properties besides [name], [order] and
    [options]. *)
Record t : Type := {
  name : JsVal;
  order : JsVal;
  options : list JsVal;
  others : list (string * JsVal)
}.
End Question.

Module GridItem.
Record t : Type := { itemLabel : JsVal }.
End GridItem.

(** [items] is [None] when the property is missing or null, and an item
    is [None] when it is null. A value of another kind than the code
    expects is the record of what its properties read as: a [data] that
    is a number has no [variable_name] and no [items]. *)
Module GridData.
Record t : Type := {
  variable_name : JsVal;
  items : option (list (option GridItem.t))
}.
End GridData.

(** An entry of the [subtestData] of a result document; [data] is [None]
    when the entry has no [data] or a null one. *)
Module Entry.
Record t : Type := {
  prototype : JsVal;
  subtestId : JsVal;
  name : JsVal;
  data : option GridData.t
}.
End Entry.

Module ResultDoc.
Record t : Type := { subtestData : list Entry.t }.
End ResultDoc.

Module ResultRow.
Record t : Type := { doc : ResultDoc.t }.
End ResultRow.

(** A row of the assessment view ([getAllAssessment]): [item.doc] is an
    assessment document, under the string id by which the view lists it. *)
Module AssessmentDoc.
Record t : Type := { assessmentId : string }.
End AssessmentDoc.

Module AssessmentRow.
Record t : Type := { doc : AssessmentDoc.t }.
End AssessmentRow.

(** The lookups of utils/dbQuery that the header builder calls, each
    already applied to the database url. *)
Record Store : Type := {
  retrieveDoc : string -> Result Assessment.t;
  getSubtests : string -> Result (list Subtest.t);
  getQuestionBySubtestId : string -> Result (list Question.t);
  getResults : JsVal -> Result (list ResultRow.t)
}.

(** ** Columns and counters *)

Record Column : Type := { header : string; key : string }.

Record SubtestCounts : Type := {
  locationCount : nat;
  datetimeCount : nat;
  idCount : nat;
  consentCount : nat;
  gpsCount : nat;
  cameraCount : nat;
  surveyCount : nat;
  gridCount : nat;
  timestampCount : nat
}.

Definition initialCounts : SubtestCounts :=
  {| locationCount := 0; datetimeCount := 0; idCount := 0; consentCount := 0;
     gpsCount := 0; cameraCount := 0; surveyCount := 0; gridCount := 0;
     timestampCount := 0 |}.

Definition setLocationCount (n : nat) (c : SubtestCounts) : SubtestCounts :=
  {| locationCount := n; datetimeCount := datetimeCount c; idCount := idCount c;
     consentCount := consentCount c; gpsCount := gpsCount c;
     cameraCount := cameraCount c; surveyCount := surveyCount c;
     gridCount := gridCount c; timestampCount := timestampCount c |}.

Definition setDatetimeCount (n : nat) (c : SubtestCounts) : SubtestCounts :=
  {| locationCount := locationCount c; datetimeCount := n; idCount := idCount c;
     consentCount := consentCount c; gpsCount := gpsCount c;
     cameraCount := cameraCount c; surveyCount := surveyCount c;
     gridCount := gridCount c; timestampCount := timestampCount c |}.

Definition setIdCount (n : nat) (c : SubtestCounts) : SubtestCounts :=
  {| locationCount := locationCount c; datetimeCount := datetimeCount c; idCount := n;
     consentCount := consentCount c; gpsCount := gpsCount c;
     cameraCount := cameraCount c; surveyCount := surveyCount c;
     gridCount := gridCount c; timestampCount := timestampCount c |}.

Definition setConsentCount (n : nat) (c : SubtestCounts) : SubtestCounts :=
  {| locationCount := locationCount c; datetimeCount := datetimeCount c;
     idCount := idCount c; consentCount := n; gpsCount := gpsCount c;
     cameraCount := cameraCount c; surveyCount := surveyCount c;
     gridCount := gridCount c; timestampCount := timestampCount c |}.

Definition setGpsCount (n : nat) (c : SubtestCounts) : SubtestCounts :=
  {| locationCount := locationCount c; datetimeCount := datetimeCount c;
     idCount := idCount c; consentCount := consentCount c; gpsCount := n;
     cameraCount := cameraCount c; surveyCount := surveyCount c;
     gridCount := gridCount c; timestampCount := timestampCount c |}.

Definition setCameraCount (n : nat) (c : SubtestCounts) : SubtestCounts :=
  {| locationCount := locationCount c; datetimeCount := datetimeCount c;
     idCount := idCount c; consentCount := consentCount c; gpsCount := gpsCount c;
     cameraCount := n; surveyCount := surveyCount c;
     gridCount := gridCount c; timestampCount := timestampCount c |}.

Definition setSurveyCount (n : nat) (c : SubtestCounts) : SubtestCounts :=
  {| locationCount := locationCount c; datetimeCount := datetimeCount c;
     idCount := idCount c; consentCount := consentCount c; gpsCount := gpsCount c;
     cameraCount := cameraCount c; surveyCount := n;
     gridCount := gridCount c; timestampCount := timestampCount c |}.

Definition setGridCount (n : nat) (c : SubtestCounts) : SubtestCounts :=
  {| locationCount := locationCount c; datetimeCount := datetimeCount c;
     idCount := idCount c; consentCount := consentCount c; gpsCount := gpsCount c;
     cameraCount := cameraCount c; surveyCount := surveyCount c;
     gridCount := n; timestampCount := timestampCount c |}.

Definition setTimestampCount (n : nat) (c : SubtestCounts) : SubtestCounts :=
  {| locationCount := locationCount c; datetimeCount := datetimeCount c;
     idCount := idCount c; consentCount := consentCount c; gpsCount := gpsCount c;
     cameraCount := cameraCount c; surveyCount := surveyCount c;
     gridCount := gridCount c; timestampCount := n |}.

(** What [createGrid] returns. *)
Module GridResult.
Record t : Type := { gridHeader : list Column; timestampCount : nat }.
End GridResult.

(** [count > 0 ? `_${count}` : ''] *)
Definition occurrenceSuffix (count : nat) : string :=
  if (0 <? count)%nat then "_" +:+ pretty count else "".

(** The column every generator pushes last:
    [{ header: `timestamp_${n}`, key: `${id}.timestamp_${n}` }]. *)
Definition timestampColumn (id : string) (n : nat) : Column :=
  {| header := "timestamp_" +:+ pretty n;
     key := id +:+ ".timestamp_" +:+ pretty n |}.

(** ** Printing values *)

Section Model.
Context `{js : JsBuiltins}.

Fixpoint joinWith (sep : string) (parts : list string) : string :=
  match parts with
  | [] => ""
  | [p] => p
  | p :: rest => p +:+ sep +:+ joinWith sep rest
  end.

(** ToString, as a template literal [`${v}`] applies it. An array joins
    its elements with commas, a hole, null or undefined giving the empty
    string. *)
Fixpoint toStr (v : JsVal) : string :=
  match v with
  | JUndefined => "undefined"
  | JNull => "null"
  | JBool true => "true"
  | JBool false => "false"
  | JNum n => jsNumberToString n
  | JStr s => s
  | JArr elems =>
      joinWith ","
        (map (fun e => match e with
                       | JUndefined | JNull => ""
                       | _ => toStr e
                       end) elems)
  | JObj _ => "[object Object]"
  end.

(** ** lodash: [_.sortBy] *)

(** ToPrimitive: an array or an object is compared through its string. *)
Definition toPrimitive (v : JsVal) : JsVal :=
  match v with
  | JArr _ | JObj _ => JStr (toStr v)
  | _ => v
  end.

Definition digitValue (c : ascii) : option Z :=
  let n := nat_of_ascii c in
  if (48 <=? n)%nat && (n <=? 57)%nat then Some (Z.of_nat (n - 48)) else None.

Fixpoint digitsValue (acc : Z) (s : string) : option Z :=
  match s with
  | EmptyString => Some acc
  | String c rest =>
      match digitValue c with
      | Some d => digitsValue (10 * acc + d) rest
      | None => None
      end
  end.

(** ToNumber of a primitive, [None] for NaN. Of the numeric strings only
    the runs of decimal digits are read as numbers here (the empty string
    is 0); a sign, a fraction, an exponent, a radix prefix or surrounding
    blanks give NaN. *)
Definition toNumber (v : JsVal) : option Z :=
  match v with
  | JUndefined => None
  | JNull => Some 0%Z
  | JBool b => Some (if b then 1 else 0)%Z
  | JNum n => Some n
  | JStr s => digitsValue 0 s
  | JArr _ | JObj _ => None
  end.

(** [a < b]: two strings compare by their code units, anything else as
    numbers, and no comparison with NaN holds. *)
Definition jsLess (a b : JsVal) : bool :=
  match toPrimitive a, toPrimitive b with
  | JStr s, JStr t => String.ltb s t
  | pa, pb =>
      match toNumber pa, toNumber pb with
      | Some x, Some y => (x <? y)%Z
      | _, _ => false
      end
  end.

(** [a > b] *)
Definition jsGreater (a b : JsVal) : bool := jsLess b a.

Definition isUndefined (v : JsVal) : bool :=
  match v with JUndefined => true | _ => false end.

Definition isNull (v : JsVal) : bool :=
  match v with JNull => true | _ => false end.

(** lodash's [compareAscending(value, other)]; no value here is NaN or a
    symbol. *)
Definition compareAscending (value other : JsVal) : Z :=
  if strictEq value other then 0%Z
  else
    let valIsDefined := negb (isUndefined value) in
    let valIsNull := isNull value in
    let othIsDefined := negb (isUndefined other) in
    let othIsNull := isNull other in
    if (negb othIsNull && jsGreater value other)
       || (valIsNull && othIsDefined)
       || negb valIsDefined
    then 1%Z
    else if (negb valIsNull && jsLess value other)
            || (othIsNull && valIsDefined)
            || negb othIsDefined
    then (-1)%Z
    else 0%Z.

Section SortBy.
Context {A : Type}.

Record SortEntry : Type := {
  criteria : list JsVal;
  index : nat;
  value : A
}.

Fixpoint compareCriteria (objCriteria othCriteria : list JsVal) : Z :=
  match objCriteria, othCriteria with
  | c :: cs, d :: ds =>
      let result := compareAscending c d in
      if (result =? 0)%Z then compareCriteria cs ds else result
  | _, _ => 0%Z
  end.

(** lodash's [compareMultiple(object, other, [])]: the first criterion
    that differs decides, the position in the collection breaks ties. *)
Definition compareMultiple (object other : SortEntry) : Z :=
  let result := compareCriteria (criteria object) (criteria other) in
  if (result =? 0)%Z
  then (Z.of_nat (index object) - Z.of_nat (index other))%Z
  else result.

Fixpoint insertSorted (comparer : SortEntry -> SortEntry -> Z)
    (x : SortEntry) (sorted : list SortEntry) : list SortEntry :=
  match sorted with
  | [] => [x]
  | y :: rest =>
      if (comparer x y <=? 0)%Z then x :: y :: rest
      else y :: insertSorted comparer x rest
  end.

(** [array.sort(comparer)]: where the comparer is a total order the
    sorted array is unique, and insertion computes it. *)
Definition baseSortBy (array : list SortEntry)
    (comparer : SortEntry -> SortEntry -> Z) : list SortEntry :=
  foldr (insertSorted comparer) [] array.

(** [_.sortBy(collection, iteratees)] *)
Definition sortBy (collection : list A) (iteratees : list (A -> JsVal)) : list A :=
  let result :=
    imap (fun i v => {| criteria := map (fun iteratee => iteratee v) iteratees;
                        index := i; value := v |}) collection in
  map value (baseSortBy result compareMultiple).
End SortBy.
Arguments SortEntry A : clear implicits.

Fixpoint lookupProp (k : string) (props : list (string * JsVal)) : JsVal :=
  match props with
  | [] => JUndefined
  | (k', v) :: rest => if String.eqb k k' then v else lookupProp k rest
  end.

(** [_.property(path)] on a question document, for a path that lodash
    takes for the name of one property: [doc[path]]. A path with a dot or
    a bracket in it lodash walks into nested values; what is stated of the
    sort criterion is stated for the other paths ([isPlainPath]), and the
    rest needs the sort only to be a permutation. *)
Definition property (path : string) (doc : Question.t) : JsVal :=
  if String.eqb path "name" then Question.name doc
  else if String.eqb path "order" then Question.order doc
  else if String.eqb path "options" then JArr (Question.options doc)
  else lookupProp path (Question.others doc).

(** ** The prototype header generators *)

(** [v.toLowerCase()]: only a string has the method. *)
Definition toLowerCase (v : JsVal) : Result string :=
  match v with
  | JStr s => Ok (jsToLowerCase s)
  | JUndefined | JNull => Err (TypeError "Cannot read properties of undefined")
  | _ => Err (TypeError "toLowerCase is not a function")
  end.


Definition createLocation (doc : Subtest.t) (subtestCounts : SubtestCounts)
    : Result (list Column) :=
  let count := locationCount subtestCounts in
  let labels := Subtest.levels doc in
  locationHeader <-
    mapM (fun label =>
            let locSuffix := occurrenceSuffix count in
            lowered <- toLowerCase label ;;
            Ok {| header := toStr label +:+ locSuffix;
                  key := Subtest._id doc +:+ "." +:+ lowered +:+ locSuffix |})
         labels ;;
  Ok (locationHeader
        ++ [timestampColumn (Subtest._id doc) (timestampCount subtestCounts)]).

Definition createDatetime (doc : Subtest.t) (subtestCounts : SubtestCounts)
    : list Column :=
  let count := datetimeCount subtestCounts in
  let suffix := occurrenceSuffix count in
  [ {| header := "year" +:+ suffix; key := Subtest._id doc +:+ ".year" +:+ suffix |};
    {| header := "month" +:+ suffix; key := Subtest._id doc +:+ ".month" +:+ suffix |};
    {| header := "day" +:+ suffix; key := Subtest._id doc +:+ ".day" +:+ suffix |};
    {| header := "assess_time" +:+ suffix;
       key := Subtest._id doc +:+ ".assess_time" +:+ suffix |};
    timestampColumn (Subtest._id doc) (timestampCount subtestCounts) ].

Definition createConsent (doc : Subtest.t) (subtestCounts : SubtestCounts)
    : list Column :=
  let count := consentCount subtestCounts in
  let suffix := occurrenceSuffix count in
  [ {| header := "consent" +:+ suffix;
       key := Subtest._id doc +:+ ".consent" +:+ suffix |};
    timestampColumn (Subtest._id doc) (timestampCount subtestCounts) ].

Definition createId (doc : Subtest.t) (subtestCounts : SubtestCounts)
    : list Column :=
  let count := idCount subtestCounts in
  let suffix := occurrenceSuffix count in
  [ {| header := "id" +:+ suffix; key := Subtest._id doc +:+ ".id" +:+ suffix |};
    timestampColumn (Subtest._id doc) (timestampCount subtestCounts) ].

(** The body of the loop over the sorted questions. *)
Definition questionColumns (id suffix : string) (doc : Question.t) : list Column :=
  let optionsLen := length (Question.options doc) in
  if (optionsLen <=? 2)%nat then
    [ {| header := toStr (Question.name doc) +:+ suffix;
         key := id +:+ "." +:+ toStr (Question.name doc) +:+ suffix |} ]
  else
    map (fun i =>
           {| header := toStr (Question.name doc) +:+ "_" +:+ pretty i +:+ suffix;
              key := id +:+ "." +:+ toStr (Question.name doc) +:+ "."
                       +:+ pretty i +:+ suffix |})
        (seq 1 optionsLen).

Definition createSurvey (id : string) (subtestCounts : SubtestCounts)
    (dbUrl : Store) : Result (list Column) :=
  let count := surveyCount subtestCounts in
  let suffix := occurrenceSuffix count in
  questions <- getQuestionBySubtestId dbUrl id ;;
  let sortedDoc := sortBy questions [property id; property "order"] in
  let surveyHeader := flat_map (questionColumns id suffix) sortedDoc in
  Ok (surveyHeader ++ [timestampColumn id (timestampCount subtestCounts)]).

(** [sub.data.variable_name || sub.name.toLowerCase().replace(/\s/g, '_')],
    as the templates print it; [data] is [sub.data]. *)
Definition gridVariableName (sub : Entry.t) (data : GridData.t) : Result string :=
  let variable_name := GridData.variable_name data in
  if truthy variable_name then Ok (toStr variable_name)
  else
    lowered <- toLowerCase (Entry.name sub) ;;
    Ok (jsReplaceBlanks lowered).

(** The columns pushed for one grid entry before its timestamp column.
    The body reads [sub.data.items], then the variable name, then
    [items.length], then [items[i].itemLabel] of every item; each of
    these reads throws on [undefined] and [null]. *)
Definition gridEntryColumns (sub : Entry.t) (suffix : string)
    : Result (list Column) :=
  data <- propertyOf (Entry.data sub) "items" ;;
  let items := GridData.items data in
  variableName <- gridVariableName sub data ;;
  let subtestId := toStr (Entry.subtestId sub) in
  let fixed (field : string) :=
    {| header := variableName +:+ field +:+ suffix;
       key := subtestId +:+ "." +:+ variableName +:+ field +:+ suffix |} in
  let gridHeader :=
    [ fixed "_auto_stop"; fixed "_time_remain"; fixed "_capture_item_at_time";
      fixed "_attempted"; fixed "_time_intermediate_captured";
      fixed "_time_allowed" ] in
  items <- propertyOf items "length" ;;
  itemColumns <-
    mapM (fun item =>
            item <- propertyOf item "itemLabel" ;;
            let label := toStr (GridItem.itemLabel item) in
            Ok {| header := variableName +:+ "_" +:+ label +:+ suffix;
                  key := subtestId +:+ "." +:+ variableName +:+ "_" +:+ label
                           +:+ suffix |})
         items ;;
  Ok (gridHeader ++ itemColumns).

(** The loop [for (sub of gridData)]: [gridHeader] grows, the shared
    [subtestCounts] and the local [count] are updated in place. *)
Fixpoint gridLoop (gridData : list Entry.t) (gridHeader : list Column)
    (subtestCounts : SubtestCounts) (count : nat)
    : Result (list Column * SubtestCounts) :=
  match gridData with
  | [] => Ok (gridHeader, subtestCounts)
  | sub :: rest =>
      let suffix := occurrenceSuffix count in
      columns <- gridEntryColumns sub suffix ;;
      let gridHeader := gridHeader ++ columns in
      let gridHeader :=
        gridHeader ++ [timestampColumn (toStr (Entry.subtestId sub))
                         (timestampCount subtestCounts)] in
      let subtestCounts :=
        setTimestampCount (S (timestampCount subtestCounts)) subtestCounts in
      gridLoop rest gridHeader subtestCounts (S count)
  end.

(** The grid entries of all result documents, in the order the store
    returned them. *)
Definition collectGridData (resultDocs : list ResultRow.t) : list Entry.t :=
  flat_map (fun item =>
              filter (fun value => strictEqStr (Entry.prototype value) "grid" = true)
                     (ResultDoc.subtestData (ResultRow.doc item)))
           resultDocs.

(** Returns its result object together with the [subtestCounts] object,
    which it has mutated. *)
Definition createGrid (doc : Subtest.t) (subtestCounts : SubtestCounts)
    (dbUrl : Store) : Result (GridResult.t * SubtestCounts) :=
  let count := gridCount subtestCounts in
  let docId := jsOr (Subtest.assessmentId doc) (Subtest.curriculumId doc) in
  resultDocs <- getResults dbUrl docId ;;
  let gridData := collectGridData resultDocs in
  out <- gridLoop gridData [] subtestCounts count ;;
  let gridHeader := fst out in
  let subtestCounts := snd out in
  Ok ({| GridResult.gridHeader := gridHeader;
         GridResult.timestampCount := timestampCount subtestCounts |},
      subtestCounts).

Definition createGps (doc : Subtest.t) (subtestCounts : SubtestCounts)
    : list Column :=
  let count := gpsCount subtestCounts in
  let suffix := occurrenceSuffix count in
  let field (name : string) :=
    {| header := name +:+ suffix;
       key := Subtest._id doc +:+ "." +:+ name +:+ suffix |} in
  [ field "latitude"; field "longitude"; field "accuracy"; field "altitude";
    field "altitudeAccuracy"; field "heading"; field "speed";
    timestampColumn (Subtest._id doc) (timestampCount subtestCounts) ].

Definition createCamera (doc : Subtest.t) (subtestCounts : SubtestCounts)
    : list Column :=
  let count := cameraCount subtestCounts in
  let varName := toStr (Subtest.variableName doc) in
  let suffix := occurrenceSuffix count in
  let subtestId := toStr (Subtest.subtestId doc) in
  [ {| header := varName +:+ "_photo_captured" +:+ suffix;
       key := subtestId +:+ "." +:+ varName +:+ "_photo_captured" +:+ suffix |};
    {| header := varName +:+ "_photo_url" +:+ suffix;
       key := subtestId +:+ "." +:+ varName +:+ "_photo_url" +:+ suffix |};
    timestampColumn subtestId (timestampCount subtestCounts) ].

(** ** The header builder *)

(** [subtestCounts.timestampCount++] *)
Definition incrTimestamp (c : SubtestCounts) : SubtestCounts :=
  setTimestampCount (S (timestampCount c)) c.

(** The state of the loop over the subtests: the [assessments] array and
    the [subtestCounts] object. *)
Definition LoopState : Type := (list Column * SubtestCounts)%type.

(** One iteration of [for (data of subtestData)]: eight [if] statements
    in a row, each testing [data.prototype] anew. The loop variable, which
    the code leaves global, belongs to the one invocation modelled. *)
Definition visitSubtest (dbUrl : Store) (data : Subtest.t) (st : LoopState)
    : Result LoopState :=
  let proto := Subtest.prototype data in
  st <- (let '(assessments, subtestCounts) := st in
         if strictEqStr proto "location" then
           location <- createLocation data subtestCounts ;;
           Ok (assessments ++ location,
               incrTimestamp
                 (setLocationCount (S (locationCount subtestCounts)) subtestCounts))
         else Ok st) ;;
  st <- (let '(assessments, subtestCounts) := st in
         if strictEqStr proto "datetime" then
           let datetime := createDatetime data subtestCounts in
           Ok (assessments ++ datetime,
               incrTimestamp
                 (setDatetimeCount (S (datetimeCount subtestCounts)) subtestCounts))
         else Ok st) ;;
  st <- (let '(assessments, subtestCounts) := st in
         if strictEqStr proto "consent" then
           let consent := createConsent data subtestCounts in
           Ok (assessments ++ consent,
               incrTimestamp
                 (setConsentCount (S (consentCount subtestCounts)) subtestCounts))
         else Ok st) ;;
  st <- (let '(assessments, subtestCounts) := st in
         if strictEqStr proto "id" then
           let id := createId data subtestCounts in
           Ok (assessments ++ id,
               incrTimestamp (setIdCount (S (idCount subtestCounts)) subtestCounts))
         else Ok st) ;;
  st <- (let '(assessments, subtestCounts) := st in
         if strictEqStr proto "survey" then
           surveys <- createSurvey (Subtest._id data) subtestCounts dbUrl ;;
           Ok (assessments ++ surveys,
               incrTimestamp
                 (setSurveyCount (S (surveyCount subtestCounts)) subtestCounts))
         else Ok st) ;;
  st <- (let '(assessments, subtestCounts) := st in
         if strictEqStr proto "grid" && (gridCount subtestCounts =? 0)%nat then
           out <- createGrid data subtestCounts dbUrl ;;
           let grid := fst out in
           let subtestCounts := snd out in
           Ok (assessments ++ GridResult.gridHeader grid,
               setTimestampCount (GridResult.timestampCount grid)
                 (setGridCount (S (gridCount subtestCounts)) subtestCounts))
         else Ok st) ;;
  st <- (let '(assessments, subtestCounts) := st in
         if strictEqStr proto "gps" then
           let gps := createGps data subtestCounts in
           Ok (assessments ++ gps,
               incrTimestamp (setGpsCount (S (gpsCount subtestCounts)) subtestCounts))
         else Ok st) ;;
  (let '(assessments, subtestCounts) := st in
   if strictEqStr proto "camera" then
     let camera := createCamera data subtestCounts in
     Ok (assessments ++ camera,
         incrTimestamp
           (setCameraCount (S (cameraCount subtestCounts)) subtestCounts))
   else Ok st).

Fixpoint visitSubtests (dbUrl : Store) (subtestData : list Subtest.t)
    (st : LoopState) : Result LoopState :=
  match subtestData with
  | [] => Ok st
  | data :: rest =>
      st <- visitSubtest dbUrl data st ;;
      visitSubtests dbUrl rest st
  end.

(** The five leading columns, pushed by the first [then] callback when
    [item.assessmentId] is truthy. *)
Definition assessmentColumns (assessmentId : JsVal) (count : nat) : list Column :=
  let assessmentSuffix := occurrenceSuffix count in
  let id := toStr assessmentId in
  [ {| header := "assessment_id" +:+ assessmentSuffix;
       key := id +:+ ".assessmentId" +:+ assessmentSuffix |};
    {| header := "assessment_name" +:+ assessmentSuffix;
       key := id +:+ ".assessmentName" +:+ assessmentSuffix |};
    {| header := "enumerator" +:+ assessmentSuffix;
       key := id +:+ ".enumerator" +:+ assessmentSuffix |};
    {| header := "start_time" +:+ assessmentSuffix;
       key := id +:+ ".start_time" +:+ assessmentSuffix |};
    {| header := "order_map" +:+ assessmentSuffix;
       key := id +:+ ".order_map" +:+ assessmentSuffix |} ].

(** The second [then] callback: [assessments] is the array the first
    callback has filled. *)
Definition processSubtests (docId : string) (count : nat) (dbUrl : Store)
    (assessments : list Column) (subtestData : list Subtest.t)
    : Result (list Column) :=
  let subtestCounts := initialCounts in
  st <- visitSubtests dbUrl subtestData (assessments, subtestCounts) ;;
  let assessments := fst st in
  let assessmentSuffix := occurrenceSuffix count in
  Ok (assessments
        ++ [ {| header := "end_time" +:+ assessmentSuffix;
                key := docId +:+ ".end_time" +:+ assessmentSuffix |} ]).

Definition createColumnHeaders (docId : string) (count : nat) (dbUrl : Store)
    : Result (list Column) :=
  let assessments := [] in
  item <- retrieveDoc dbUrl docId ;;
  let assessments :=
    if truthy (Assessment.assessmentId item)
    then assessments ++ assessmentColumns (Assessment.assessmentId item) count
    else assessments in
  subtestData <- getSubtests dbUrl docId ;;
  processSubtests docId count dbUrl assessments subtestData.

(** ** Auxiliary definitions of the statements *)

(** The prototypes the loop body knows. *)
Definition recognised : list string :=
  ["location"; "datetime"; "consent"; "id"; "survey"; "grid"; "gps"; "camera"].

(** [prepend acc r]: the outcome [r] of the loop, had the [assessments]
    array held [acc] before. *)
Definition prepend (acc : list Column) (r : Result LoopState) : Result LoopState :=
  match r with
  | Ok st => Ok (acc ++ fst st, snd st)
  | Err e => Err e
  end.

(** A column group is the value columns of one subtest (or of one grid
    entry) and the key prefix of its timestamp column. [numberedGroups n]
    lays groups out in order, closing the [i]-th of them with the
    timestamp column numbered [n + i]. *)
Definition numberedGroups (first : nat) (groups : list (list Column * string))
    : list Column :=
  concat (imap (fun i g => fst g ++ [timestampColumn (snd g) (first + i)]) groups).

(** The timestamp columns that [numberedGroups first groups] contains,
    one per group. *)
Definition timestampColumns (first : nat) (groups : list (list Column * string))
    : list Column :=
  imap (fun i g => timestampColumn (snd g) (first + i)) groups.

(** The last column of the builder's output. *)
Definition endTimeColumn (docId : string) (count : nat) : Column :=
  {| header := "end_time" +:+ occurrenceSuffix count;
     key := docId +:+ ".end_time" +:+ occurrenceSuffix count |}.

(** What the loop of [createGrid] reads of a grid entry: the variable
    name and the labels of the items, as the templates print them. *)
Definition gridEntryView (sub : Entry.t) : Result (string * list string) :=
  data <- propertyOf (Entry.data sub) "items" ;;
  variableName <- gridVariableName sub data ;;
  items <- propertyOf (GridData.items data) "length" ;;
  labels <-
    mapM (fun item =>
            item <- propertyOf item "itemLabel" ;;
            Ok (toStr (GridItem.itemLabel item)))
         items ;;
  Ok (variableName, labels).

(** The same as a relation: the entry has a [data] whose [items] are all
    there, [snd view] lists their labels, and [fst view] is
    [data.variable_name] when that is truthy and otherwise the name of
    the entry, a string, lowercased with its blanks replaced. *)
Definition gridEntryReads (sub : Entry.t) (view : string * list string) : Prop :=
  exists data items,
    Entry.data sub = Some data
    /\ GridData.items data = Some (map Some items)
    /\ snd view = map (fun item => toStr (GridItem.itemLabel item)) items
    /\ ((truthy (GridData.variable_name data) = true
         /\ fst view = toStr (GridData.variable_name data))
        \/ (truthy (GridData.variable_name data) = false
            /\ exists name,
                 Entry.name sub = JStr name
                 /\ fst view = jsReplaceBlanks (jsToLowerCase name))).

(** The value columns of a grid entry: the six fixed columns, then one
    column per item label. *)
Definition gridValueColumns (subtestId variableName suffix : string)
    (labels : list string) : list Column :=
  let col (h : string) :=
    {| header := variableName +:+ h +:+ suffix;
       key := subtestId +:+ "." +:+ variableName +:+ h +:+ suffix |} in
  [ col "_auto_stop"; col "_time_remain"; col "_capture_item_at_time";
    col "_attempted"; col "_time_intermediate_captured"; col "_time_allowed" ]
  ++ map (fun label =>
            {| header := variableName +:+ "_" +:+ label +:+ suffix;
               key := subtestId +:+ "." +:+ variableName +:+ "_" +:+ label
                        +:+ suffix |})
         labels.

(** The groups of the grid entries [gridData], read as [views], the
    first of them at occurrence [count]. *)
Definition gridGroups (count : nat) (gridData : list Entry.t)
    (views : list (string * list string)) : list (list Column * string) :=
  imap (fun i sv =>
          (gridValueColumns (toStr (Entry.subtestId (fst sv))) (fst (snd sv))
             (occurrenceSuffix (count + i)) (snd (snd sv)),
           toStr (Entry.subtestId (fst sv))))
       (zip gridData views).

(** [subtestGroups dbUrl c data groups]: [groups] are the column groups
    the subtest [data] contributes when the counters are [c], each the
    value columns of the layout and the key prefix of the timestamp
    column that closes it. A subtest of a prototype other than grid
    contributes one group; the first grid subtest one group per grid
    entry of its result documents; a later grid subtest and a subtest of
    no known prototype none. The questions of a survey stand in some
    order [sortedDoc], each with one column when it has at most two
    options and with one column per option otherwise. *)
Definition subtestGroups (dbUrl : Store) (c : SubtestCounts) (data : Subtest.t)
    (groups : list (list Column * string)) : Prop :=
  let id := Subtest._id data in
  let proto := Subtest.prototype data in
  let col (h k : string) := {| header := h; key := k |} in
  (proto = JStr "location"
   /\ let suffix := occurrenceSuffix (locationCount c) in
      exists names,
        Subtest.levels data = map JStr names
        /\ groups =
             [ (map (fun name =>
                       col (name +:+ suffix)
                           (id +:+ "." +:+ jsToLowerCase name +:+ suffix))
                    names, id) ])
  \/ (proto = JStr "datetime"
      /\ let suffix := occurrenceSuffix (datetimeCount c) in
         groups =
           [ ([ col ("year" +:+ suffix) (id +:+ ".year" +:+ suffix);
                col ("month" +:+ suffix) (id +:+ ".month" +:+ suffix);
                col ("day" +:+ suffix) (id +:+ ".day" +:+ suffix);
                col ("assess_time" +:+ suffix)
                    (id +:+ ".assess_time" +:+ suffix) ], id) ])
  \/ (proto = JStr "consent"
      /\ let suffix := occurrenceSuffix (consentCount c) in
         groups =
           [ ([ col ("consent" +:+ suffix) (id +:+ ".consent" +:+ suffix) ], id) ])
  \/ (proto = JStr "id"
      /\ let suffix := occurrenceSuffix (idCount c) in
         groups = [ ([ col ("id" +:+ suffix) (id +:+ ".id" +:+ suffix) ], id) ])
  \/ (proto = JStr "survey"
      /\ let suffix := occurrenceSuffix (surveyCount c) in
         let columnsOf (q : Question.t) :=
           let name := toStr (Question.name q) in
           let n := length (Question.options q) in
           if (n <=? 2)%nat
           then [ col (name +:+ suffix) (id +:+ "." +:+ name +:+ suffix) ]
           else map (fun i =>
                       col (name +:+ "_" +:+ pretty i +:+ suffix)
                           (id +:+ "." +:+ name +:+ "." +:+ pretty i +:+ suffix))
                    (seq 1 n) in
         exists questions sortedDoc,
           getQuestionBySubtestId dbUrl id = Ok questions
           /\ Permutation sortedDoc questions
           /\ groups = [ (flat_map columnsOf sortedDoc, id) ])
  \/ (proto = JStr "grid" /\ gridCount c = 0
      /\ exists resultDocs views,
           getResults dbUrl (jsOr (Subtest.assessmentId data)
                                  (Subtest.curriculumId data)) = Ok resultDocs
           /\ Forall2 gridEntryReads (collectGridData resultDocs) views
           /\ groups = gridGroups 0 (collectGridData resultDocs) views)
  \/ (proto = JStr "grid" /\ gridCount c <> 0 /\ groups = [])
  \/ (proto = JStr "gps"
      /\ let suffix := occurrenceSuffix (gpsCount c) in
         groups =
           [ ([ col ("latitude" +:+ suffix) (id +:+ ".latitude" +:+ suffix);
                col ("longitude" +:+ suffix) (id +:+ ".longitude" +:+ suffix);
                col ("accuracy" +:+ suffix) (id +:+ ".accuracy" +:+ suffix);
                col ("altitude" +:+ suffix) (id +:+ ".altitude" +:+ suffix);
                col ("altitudeAccuracy" +:+ suffix)
                    (id +:+ ".altitudeAccuracy" +:+ suffix);
                col ("heading" +:+ suffix) (id +:+ ".heading" +:+ suffix);
                col ("speed" +:+ suffix) (id +:+ ".speed" +:+ suffix) ], id) ])
  \/ (proto = JStr "camera"
      /\ let suffix := occurrenceSuffix (cameraCount c) in
         let varName := toStr (Subtest.variableName data) in
         let subtestId := toStr (Subtest.subtestId data) in
         groups =
           [ ([ col (varName +:+ "_photo_captured" +:+ suffix)
                    (subtestId +:+ "." +:+ varName +:+ "_photo_captured"
                       +:+ suffix);
                col (varName +:+ "_photo_url" +:+ suffix)
                    (subtestId +:+ "." +:+ varName +:+ "_photo_url" +:+ suffix) ],
              subtestId) ])
  \/ ((forall p, In p recognised -> proto <> JStr p) /\ groups = []).

(** [s.endsWith(suffix)] *)
Definition endsWith (suffix s : string) : bool :=
  let n := String.length s in
  let m := String.length suffix in
  (m <=? n)%nat && String.eqb (String.substring (n - m) m s) suffix.

(** Both the header and the key of the column end with [suffix]. *)
Definition carriesSuffix (suffix : string) (c : Column) : bool :=
  endsWith suffix (header c) && endsWith suffix (key c).

(** The document has an [assessmentId] property. *)
Definition hasAssessmentId (item : Assessment.t) : Prop :=
  Assessment.assessmentId item <> JUndefined.

(** What the builder returns for the subtests alone, the [assessments]
    array being empty when the loop starts. *)
Definition subtestColumns (docId : string) (count : nat) (dbUrl : Store)
    : Result (list Column) :=
  subtestData <- getSubtests dbUrl docId ;;
  processSubtests docId count dbUrl [] subtestData.

(** The builder's result opens with the five leading columns, the rest
    being the columns of the subtests. *)
Definition leadingBlockPresent (docId : string) (count : nat) (dbUrl : Store)
    (item : Assessment.t) : Prop :=
  exists rest,
    subtestColumns docId count dbUrl = Ok rest
    /\ createColumnHeaders docId count dbUrl
       = Ok (assessmentColumns (Assessment.assessmentId item) count ++ rest).

(** The same database, every assessment document stripped of its
    [assessmentId] property. *)
Definition withoutAssessmentId (dbUrl : Store) : Store :=
  {| retrieveDoc := fun id =>
       item <- retrieveDoc dbUrl id ;;
       Ok {| Assessment.assessmentId := JUndefined |};
     getSubtests := getSubtests dbUrl;
     getQuestionBySubtestId := getQuestionBySubtestId dbUrl;
     getResults := getResults dbUrl |}.

(** *** The documents of the end-to-end scenario *)

Definition notFound : Failure := Rejected (JStr "not_found").

Definition gpsSubtest : Subtest.t :=
  {| Subtest.prototype := JStr "gps"; Subtest._id := "s1";
     Subtest.subtestId := JUndefined; Subtest.variableName := JUndefined;
     Subtest.assessmentId := JUndefined; Subtest.curriculumId := JUndefined;
     Subtest.levels := [] |}.

(** A database holding the assessment [a1], whose document carries the
    [assessmentId] given, with the single subtest [s1]. *)
Definition scenarioStore (assessmentId : JsVal) : Store :=
  {| retrieveDoc := fun id =>
       if String.eqb id "a1"
       then Ok {| Assessment.assessmentId := assessmentId |}
       else Err notFound;
     getSubtests := fun id =>
       if String.eqb id "a1" then Ok [gpsSubtest] else Err notFound;
     getQuestionBySubtestId := fun _ => Ok [];
     getResults := fun _ => Ok [] |}.

(** *** A grid assessment with two historical grid entries *)

Definition gridSubtest (id : string) : Subtest.t :=
  {| Subtest.prototype := JStr "grid"; Subtest._id := id;
     Subtest.subtestId := JUndefined; Subtest.variableName := JUndefined;
     Subtest.assessmentId := JStr "a2"; Subtest.curriculumId := JUndefined;
     Subtest.levels := [] |}.

(** Grid data whose [variable_name] is present and empty. *)
Definition lettersData : GridData.t :=
  {| GridData.variable_name := JStr "";
     GridData.items := Some [ Some {| GridItem.itemLabel := JStr "a" |};
                              Some {| GridItem.itemLabel := JStr "b" |} ] |}.

Definition lettersEntry : Entry.t :=
  {| Entry.prototype := JStr "grid"; Entry.subtestId := JStr "g1";
     Entry.name := JStr "Letter Sound";
     Entry.data := Some lettersData |}.

Definition wordsEntry : Entry.t :=
  {| Entry.prototype := JStr "grid"; Entry.subtestId := JStr "g2";
     Entry.name := JStr "Familiar Words";
     Entry.data :=
       Some {| GridData.variable_name := JStr "words";
               GridData.items :=
                 Some [ Some {| GridItem.itemLabel := JStr "cat" |} ] |} |}.

Definition gpsEntry : Entry.t :=
  {| Entry.prototype := JStr "gps"; Entry.subtestId := JStr "s1";
     Entry.name := JStr "GPS";
     Entry.data := None |}.

Definition gridResults : list ResultRow.t :=
  [ {| ResultRow.doc := {| ResultDoc.subtestData := [gpsEntry; lettersEntry] |} |};
    {| ResultRow.doc := {| ResultDoc.subtestData := [wordsEntry] |} |} ].

Definition gridStore : Store :=
  {| retrieveDoc := fun _ => Ok {| Assessment.assessmentId := JStr "a2" |};
     getSubtests := fun _ => Ok [gridSubtest "g1"; gridSubtest "g2"; gpsSubtest];
     getQuestionBySubtestId := fun _ => Ok [];
     getResults := fun id =>
       if strictEqStr id "a2" then Ok gridResults else Err notFound |}.

(** The headers of the assessment [a2] of [gridStore]. *)
Definition gridStoreHeaders : list Column :=
  [ {| header := "assessment_id"; key := "a2.assessmentId" |};
    {| header := "assessment_name"; key := "a2.assessmentName" |};
    {| header := "enumerator"; key := "a2.enumerator" |};
    {| header := "start_time"; key := "a2.start_time" |};
    {| header := "order_map"; key := "a2.order_map" |};
    {| header := "letter_sound_auto_stop";
       key := "g1.letter_sound_auto_stop" |};
    {| header := "letter_sound_time_remain";
       key := "g1.letter_sound_time_remain" |};
    {| header := "letter_sound_capture_item_at_time";
       key := "g1.letter_sound_capture_item_at_time" |};
    {| header := "letter_sound_attempted";
       key := "g1.letter_sound_attempted" |};
    {| header := "letter_sound_time_intermediate_captured";
       key := "g1.letter_sound_time_intermediate_captured" |};
    {| header := "letter_sound_time_allowed";
       key := "g1.letter_sound_time_allowed" |};
    {| header := "letter_sound_a"; key := "g1.letter_sound_a" |};
    {| header := "letter_sound_b"; key := "g1.letter_sound_b" |};
    {| header := "timestamp_0"; key := "g1.timestamp_0" |};
    {| header := "words_auto_stop_1"; key := "g2.words_auto_stop_1" |};
    {| header := "words_time_remain_1"; key := "g2.words_time_remain_1" |};
    {| header := "words_capture_item_at_time_1";
       key := "g2.words_capture_item_at_time_1" |};
    {| header := "words_attempted_1"; key := "g2.words_attempted_1" |};
    {| header := "words_time_intermediate_captured_1";
       key := "g2.words_time_intermediate_captured_1" |};
    {| header := "words_time_allowed_1";
       key := "g2.words_time_allowed_1" |};
    {| header := "words_cat_1"; key := "g2.words_cat_1" |};
    {| header := "timestamp_1"; key := "g2.timestamp_1" |};
    {| header := "latitude"; key := "s1.latitude" |};
    {| header := "longitude"; key := "s1.longitude" |};
    {| header := "accuracy"; key := "s1.accuracy" |};
    {| header := "altitude"; key := "s1.altitude" |};
    {| header := "altitudeAccuracy"; key := "s1.altitudeAccuracy" |};
    {| header := "heading"; key := "s1.heading" |};
    {| header := "speed"; key := "s1.speed" |};
    {| header := "timestamp_2"; key := "s1.timestamp_2" |};
    {| header := "end_time"; key := "a2.end_time" |} ].

(** Following the claim's words: [data.variable_name] if the entry has
    the property, otherwise the name lowercased with whitespace replaced
    by underscores. *)
Definition gridVariableNameAsStated (sub : Entry.t) (data : GridData.t)
    : Result string :=
  let variable_name := GridData.variable_name data in
  if isUndefined variable_name then
    lowered <- toLowerCase (Entry.name sub) ;;
    Ok (jsReplaceBlanks lowered)
  else Ok (toStr variable_name).

(** *** A survey whose subtest id names a property of its questions *)

Definition surveySubtest (id : string) : Subtest.t :=
  {| Subtest.prototype := JStr "survey"; Subtest._id := id;
     Subtest.subtestId := JUndefined; Subtest.variableName := JUndefined;
     Subtest.assessmentId := JUndefined; Subtest.curriculumId := JUndefined;
     Subtest.levels := [] |}.

Definition question (name : string) (order : Z) (options : nat) : Question.t :=
  {| Question.name := JStr name; Question.order := JNum order;
     Question.options := replicate options (JObj []);
     Question.others := [] |}.

(** The store returns question [b], of order 1, before question [a], of
    order 2, for every subtest. *)
Definition surveyStore (subtestId : string) : Store :=
  {| retrieveDoc := fun _ => Ok {| Assessment.assessmentId := JUndefined |};
     getSubtests := fun _ => Ok [surveySubtest subtestId];
     getQuestionBySubtestId := fun _ => Ok [question "b" 1 2; question "a" 2 3];
     getResults := fun _ => Ok [] |}.

(** A database whose every lookup is rejected with [e]. *)
Definition failingStore (e : Failure) : Store :=
  {| retrieveDoc := fun _ => Err e;
     getSubtests := fun _ => Err e;
     getQuestionBySubtestId := fun _ => Err e;
     getResults := fun _ => Err e |}.

(** The database [dbUrl] with the lookups of the generators rejected
    with [e]. *)
Definition withFailingLookups (e : Failure) (dbUrl : Store) : Store :=
  {| retrieveDoc := retrieveDoc dbUrl;
     getSubtests := getSubtests dbUrl;
     getQuestionBySubtestId := fun _ => Err e;
     getResults := fun _ => Err e |}.

(** The [assessments] array after the first [then] callback. *)
Definition leadingColumns (item : Assessment.t) (count : nat) : list Column :=
  if truthy (Assessment.assessmentId item)
  then assessmentColumns (Assessment.assessmentId item) count
  else [].

(** *** Sorting by [order] *)

(** The [order] of a question, when it is a number. *)
Definition orderNumber (q : Question.t) : Z :=
  match Question.order q with
  | JNum z => z
  | _ => 0%Z
  end.

(** The entries that [sortBy] builds for [createSurvey]. *)
Definition surveyEntries (id : string) (questions : list Question.t)
    : list (SortEntry Question.t) :=
  imap (fun i v =>
          {| criteria := map (fun iteratee => iteratee v) [property id; property "order"];
             index := i; value := v |})
       questions.

(** Ascending [order], the earlier position first among equal [order]s. *)
Definition orderedBefore (e1 e2 : SortEntry Question.t) : Prop :=
  (orderNumber (value e1) < orderNumber (value e2))%Z
  \/ (orderNumber (value e1) = orderNumber (value e2) /\ index e1 <= index e2).

(** The subtest id names no property of the question, and the [order]
    of the question is a number. *)
Definition plainQuestion (id : string) (q : Question.t) : Prop :=
  property id q = JUndefined /\ exists z, Question.order q = JNum z.

(** ** Callers: saving the headers of every assessment *)

Section Saving.
(** The result database is a state [DB] that [dbQuery.saveHeaders]
    updates, answering with CouchDB's response or rejecting; it is not the
    database the headers are read from. *)
Context {DB : Type}.
Variable saveHeaders : list Column -> string -> DB -> Result JsVal * DB.

(** The loop [for (item of data)] of [generateAssessmentHeaders] (cli.js)
    and of [generateAll] (the controller), [response] being the variable
    the loop assigns. The state comes back also when the loop throws. *)
Fixpoint saveHeadersLoop (base_db : Store) (data : list AssessmentRow.t)
    (response : JsVal) (result_db : DB) : Result JsVal * DB :=
  match data with
  | [] => (Ok response, result_db)
  | item :: rest =>
      let assessmentId := AssessmentDoc.assessmentId (AssessmentRow.doc item) in
      match createColumnHeaders assessmentId 0 base_db with
      | Err e => (Err e, result_db)
      | Ok generatedHeaders =>
          match saveHeaders generatedHeaders assessmentId result_db with
          | (Err e, result_db) => (Err e, result_db)
          | (Ok response, result_db) =>
              saveHeadersLoop base_db rest response result_db
          end
      end
  end.

(** cli.js: [let response; for (...) {...} return response;] *)
Definition generateAssessmentHeaders (base_db : Store) (data : list AssessmentRow.t)
    (result_db : DB) : Result JsVal * DB :=
  saveHeadersLoop base_db data JUndefined result_db.

(** cli.js: the same body, under another name. *)
Definition generateworkflowHeaders (base_db : Store) (data : list AssessmentRow.t)
    (result_db : DB) : Result JsVal * DB :=
  saveHeadersLoop base_db data JUndefined result_db.
End Saving.

(** What a handler hands to the response object: [res.json(body)] or
    [res.send(Error(err))]. *)
Inductive HttpResponse : Type :=
| Json (body : JsVal)
| SendError (err : Failure).

Section Handlers.
Context {DB : Type}.
Variable getAllAssessment : Result (list AssessmentRow.t).
Variable saveHeaders : list Column -> string -> DB -> Result JsVal * DB.

(** [exports.generateHeader]: build, save, answer with the save response;
    [catch] answers with the error. *)
Definition generateHeader (assessmentId : string) (dbUrl : Store)
    (resultDbUrl : DB) : HttpResponse * DB :=
  match createColumnHeaders assessmentId 0 dbUrl with
  | Err err => (SendError err, resultDbUrl)
  | Ok colHeaders =>
      match saveHeaders colHeaders assessmentId resultDbUrl with
      | (Ok saveResponse, resultDbUrl) => (Json saveResponse, resultDbUrl)
      | (Err err, resultDbUrl) => (SendError err, resultDbUrl)
      end
  end.

(** [exports.generateAll] *)
Definition generateAll (dbUrl : Store) (resultDbUrl : DB) : HttpResponse * DB :=
  match getAllAssessment with
  | Err err => (SendError err, resultDbUrl)
  | Ok data =>
      match saveHeadersLoop saveHeaders dbUrl data JUndefined resultDbUrl with
      | (Ok saveResponse, resultDbUrl) => (Json saveResponse, resultDbUrl)
      | (Err err, resultDbUrl) => (SendError err, resultDbUrl)
      end
  end.
End Handlers.

(** The result database as the list of the documents saved, latest
    last, every save accepted. *)
Definition logSave (headers : list Column) (id : string)
    (db : list (string * list Column)) : Result JsVal * list (string * list Column) :=
  (Ok (JStr id), db ++ [(id, headers)]).

(** ** Auxiliary definitions of the further properties *)

(** The number of subtests of prototype [p] in a list. *)
Definition countPrototype (p : string) (subtestData : list Subtest.t) : nat :=
  length (List.filter (fun d => strictEqStr (Subtest.prototype d) p) subtestData).

(** The prototype of the subtest is one the loop body knows. *)
Definition isRecognised (data : Subtest.t) : bool :=
  existsb (strictEqStr (Subtest.prototype data)) recognised.

(** The sum of the counters of the prototypes whose generator pushes
    one timestamp column. *)
Definition singleGroupTotal (c : SubtestCounts) : nat :=
  locationCount c + datetimeCount c + consentCount c + idCount c
  + surveyCount c + gpsCount c + cameraCount c.

(** [v] is a string. *)
Definition isString (v : JsVal) : bool :=
  match v with JStr _ => true | _ => false end.

(** The grid entry lacks something the loop of [createGrid] reads: its
    [data]; a name that is a string, the [variable_name] being falsy; the
    [items] of its data; or one of the items. *)
Definition defectiveEntry (sub : Entry.t) : Prop :=
  Entry.data sub = None
  \/ exists data,
       Entry.data sub = Some data
       /\ ((truthy (GridData.variable_name data) = false
            /\ isString (Entry.name sub) = false)
           \/ GridData.items data = None
           \/ exists items, GridData.items data = Some items /\ In None items).

(** The number of columns the loop of [createSurvey] pushes for a
    question. *)
Definition questionWidth (q : Question.t) : nat :=
  let n := length (Question.options q) in
  if (n <=? 2)%nat then 1 else n.

Definition isUpper (c : ascii) : bool :=
  let n := nat_of_ascii c in (65 <=? n)%nat && (n <=? 90)%nat.

Fixpoint stringChars (s : string) : list ascii :=
  match s with
  | EmptyString => []
  | String c rest => c :: stringChars rest
  end.

(** The path holds no dot and no bracket: lodash takes it for the name
    of one property, and does not walk it. *)
Definition isPlainPath (path : string) : bool :=
  forallb (fun ch => negb (Ascii.eqb ch "."%char || Ascii.eqb ch "["%char))
          (stringChars path).

(** *** Further documents for the witnesses *)

Definition locationSubtest (id : string) (levels : list JsVal) : Subtest.t :=
  {| Subtest.prototype := JStr "location"; Subtest._id := id;
     Subtest.subtestId := JUndefined; Subtest.variableName := JUndefined;
     Subtest.assessmentId := JUndefined; Subtest.curriculumId := JUndefined;
     Subtest.levels := levels |}.

Definition otherSubtest (proto : JsVal) (id : string) : Subtest.t :=
  {| Subtest.prototype := proto; Subtest._id := id;
     Subtest.subtestId := JUndefined; Subtest.variableName := JUndefined;
     Subtest.assessmentId := JUndefined; Subtest.curriculumId := JUndefined;
     Subtest.levels := [] |}.

(** A database whose assessments all have the subtests [subtestData]. *)
Definition storeOf (subtestData : list Subtest.t) : Store :=
  {| retrieveDoc := fun id => Ok {| Assessment.assessmentId := JStr id |};
     getSubtests := fun _ => Ok subtestData;
     getQuestionBySubtestId := fun _ => Ok [question "b" 1 2; question "a" 2 3];
     getResults := fun _ => Ok gridResults |}.

(** An entry with neither a [variable_name] nor a name. *)
Definition namelessEntry : Entry.t :=
  {| Entry.prototype := JStr "grid"; Entry.subtestId := JStr "g3";
     Entry.name := JUndefined;
     Entry.data := Some {| GridData.variable_name := JUndefined;
                           GridData.items := Some [] |} |}.

(** A named entry whose [data] has no [items]. *)
Definition itemlessEntry : Entry.t :=
  {| Entry.prototype := JStr "grid"; Entry.subtestId := JStr "g4";
     Entry.name := JStr "Numbers";
     Entry.data := Some {| GridData.variable_name := JStr "numbers";
                           GridData.items := None |} |}.

Definition itemlessStore : Store :=
  {| retrieveDoc := fun id => Ok {| Assessment.assessmentId := JStr id |};
     getSubtests := fun _ => Ok [gridSubtest "g1"];
     getQuestionBySubtestId := fun _ => Ok [];
     getResults := fun _ =>
       Ok [ {| ResultRow.doc :=
                 {| ResultDoc.subtestData := [itemlessEntry] |} |} ] |}.

Definition namelessResults : list ResultRow.t :=
  [ {| ResultRow.doc :=
         {| ResultDoc.subtestData := [wordsEntry; namelessEntry] |} |} ].

Definition namelessStore : Store :=
  {| retrieveDoc := fun id => Ok {| Assessment.assessmentId := JStr id |};
     getSubtests := fun _ => Ok [gpsSubtest; gridSubtest "g1"];
     getQuestionBySubtestId := fun _ => Ok [];
     getResults := fun _ => Ok namelessResults |}.

(** A store that returns two questions of order 2 around one of
    order 1. *)
Definition tiedQuestions : list Question.t :=
  [question "c" 2 1; question "b" 1 2; question "a" 2 3].

Definition tiedStore : Store :=
  {| retrieveDoc := fun id => Ok {| Assessment.assessmentId := JStr id |};
     getSubtests := fun _ => Ok [surveySubtest "s1"];
     getQuestionBySubtestId := fun _ => Ok tiedQuestions;
     getResults := fun _ => Ok [] |}.

Definition row (assessmentId : string) : AssessmentRow.t :=
  {| AssessmentRow.doc := {| AssessmentDoc.assessmentId := assessmentId |} |}.

(** ** Reading the loop body by prototype *)

Arguments gridEntryColumns : simpl never.
Arguments gridValueColumns : simpl never.
Arguments timestampColumn : simpl never.
Arguments occurrenceSuffix : simpl never.
Arguments createDatetime : simpl never.
Arguments createConsent : simpl never.
Arguments createId : simpl never.
Arguments createGps : simpl never.
Arguments createCamera : simpl never.
Arguments assessmentColumns : simpl never.
Arguments questionColumns : simpl never.

Lemma strictEqStr_true (v : JsVal) (lit : string) :
  strictEqStr v lit = true -> v = JStr lit.
Proof.
  destruct v; simpl; try discriminate.
  intros H. apply String.eqb_eq in H. now subst.
Qed.

Lemma visitSubtest_location dbUrl data a c :
  Subtest.prototype data = JStr "location" ->
  visitSubtest dbUrl data (a, c) =
    (location <- createLocation data c ;;
     Ok (a ++ location, incrTimestamp (setLocationCount (S (locationCount c)) c))).
Proof.
  intros H. unfold visitSubtest. rewrite H. simpl.
  destruct (createLocation data c); reflexivity.
Qed.

Lemma visitSubtest_datetime dbUrl data a c :
  Subtest.prototype data = JStr "datetime" ->
  visitSubtest dbUrl data (a, c) =
    Ok (a ++ createDatetime data c,
        incrTimestamp (setDatetimeCount (S (datetimeCount c)) c)).
Proof. intros H. unfold visitSubtest. rewrite H. reflexivity. Qed.

Lemma visitSubtest_consent dbUrl data a c :
  Subtest.prototype data = JStr "consent" ->
  visitSubtest dbUrl data (a, c) =
    Ok (a ++ createConsent data c,
        incrTimestamp (setConsentCount (S (consentCount c)) c)).
Proof. intros H. unfold visitSubtest. rewrite H. reflexivity. Qed.

Lemma visitSubtest_id dbUrl data a c :
  Subtest.prototype data = JStr "id" ->
  visitSubtest dbUrl data (a, c) =
    Ok (a ++ createId data c, incrTimestamp (setIdCount (S (idCount c)) c)).
Proof. intros H. unfold visitSubtest. rewrite H. reflexivity. Qed.

Lemma visitSubtest_survey dbUrl data a c :
  Subtest.prototype data = JStr "survey" ->
  visitSubtest dbUrl data (a, c) =
    (surveys <- createSurvey (Subtest._id data) c dbUrl ;;
     Ok (a ++ surveys, incrTimestamp (setSurveyCount (S (surveyCount c)) c))).
Proof.
  intros H. unfold visitSubtest. rewrite H. simpl.
  destruct (createSurvey (Subtest._id data) c dbUrl); reflexivity.
Qed.

Lemma visitSubtest_first_grid dbUrl data a c :
  Subtest.prototype data = JStr "grid" ->
  gridCount c = 0 ->
  visitSubtest dbUrl data (a, c) =
    (out <- createGrid data c dbUrl ;;
     Ok (a ++ GridResult.gridHeader (fst out),
         setTimestampCount (GridResult.timestampCount (fst out))
           (setGridCount (S (gridCount (snd out))) (snd out)))).
Proof.
  intros H H0. unfold visitSubtest. rewrite H. simpl. rewrite H0. simpl.
  destruct (createGrid data c dbUrl); reflexivity.
Qed.

Lemma visitSubtest_later_grid dbUrl data a c :
  Subtest.prototype data = JStr "grid" ->
  gridCount c <> 0 ->
  visitSubtest dbUrl data (a, c) = Ok (a, c).
Proof.
  intros H H0. unfold visitSubtest. rewrite H. simpl.
  destruct (gridCount c) as [|n] eqn:E; [congruence|]. reflexivity.
Qed.

Lemma visitSubtest_gps dbUrl data a c :
  Subtest.prototype data = JStr "gps" ->
  visitSubtest dbUrl data (a, c) =
    Ok (a ++ createGps data c, incrTimestamp (setGpsCount (S (gpsCount c)) c)).
Proof. intros H. unfold visitSubtest. rewrite H. reflexivity. Qed.

Lemma visitSubtest_camera dbUrl data a c :
  Subtest.prototype data = JStr "camera" ->
  visitSubtest dbUrl data (a, c) =
    Ok (a ++ createCamera data c,
        incrTimestamp (setCameraCount (S (cameraCount c)) c)).
Proof. intros H. unfold visitSubtest. rewrite H. reflexivity. Qed.

Lemma visitSubtest_unrecognised dbUrl data st :
  (forall p, In p recognised -> Subtest.prototype data <> JStr p) ->
  visitSubtest dbUrl data st = Ok st.
Proof.
  intros H. destruct st as [a c]. unfold visitSubtest.
  assert (E : forall p, In p recognised ->
                strictEqStr (Subtest.prototype data) p = false).
  { intros p Hp. destruct (strictEqStr (Subtest.prototype data) p) eqn:E; [|easy].
    apply strictEqStr_true in E. now apply H in Hp. }
  rewrite !E by (simpl; tauto). reflexivity.
Qed.

Lemma prototype_cases (data : Subtest.t) :
  (exists p, In p recognised /\ Subtest.prototype data = JStr p)
  \/ (forall p, In p recognised -> Subtest.prototype data <> JStr p).
Proof.
  destruct (Subtest.prototype data) as [| |b|n|s|l|o];
    try (right; intros p _; discriminate).
  destruct (decide (In s recognised)) as [Hin|Hout].
  - left. eauto.
  - right. intros p Hp E. injection E as ->. contradiction.
Qed.

(** ** The accumulator only grows *)

Lemma gridLoop_header gridData : forall hdr c count,
  gridLoop gridData hdr c count =
    (out <- gridLoop gridData [] c count ;; Ok (hdr ++ fst out, snd out)).
Proof.
  induction gridData as [|sub rest IH]; intros hdr c count; cbn [gridLoop bind].
  - cbn. now rewrite app_nil_r.
  - destruct (gridEntryColumns sub _) as [v|e]; cbn [bind]; [|reflexivity].
    rewrite IH. symmetry. rewrite IH. symmetry.
    destruct (gridLoop rest [] _ (S count)) as [[h c']|e]; cbn; [|reflexivity].
    now rewrite !app_assoc.
Qed.

Lemma visitSubtest_prepend dbUrl data acc a c :
  visitSubtest dbUrl data (acc ++ a, c)
  = prepend acc (visitSubtest dbUrl data (a, c)).
Proof.
  destruct (prototype_cases data) as [(p & Hp & E)|H].
  - simpl in Hp.
    destruct Hp as [<-|[<-|[<-|[<-|[<-|[<-|[<-|[<-|[]]]]]]]]].
    + rewrite !visitSubtest_location by assumption.
      destruct (createLocation data c); simpl; [|reflexivity].
      now rewrite app_assoc.
    + rewrite !visitSubtest_datetime by assumption. simpl. now rewrite app_assoc.
    + rewrite !visitSubtest_consent by assumption. simpl. now rewrite app_assoc.
    + rewrite !visitSubtest_id by assumption. simpl. now rewrite app_assoc.
    + rewrite !visitSubtest_survey by assumption.
      destruct (createSurvey _ c dbUrl); simpl; [|reflexivity].
      now rewrite app_assoc.
    + destruct (Nat.eq_dec (gridCount c) 0) as [Z|NZ].
      * rewrite !visitSubtest_first_grid by assumption.
        destruct (createGrid data c dbUrl); simpl; [|reflexivity].
        now rewrite app_assoc.
      * now rewrite !visitSubtest_later_grid by assumption.
    + rewrite !visitSubtest_gps by assumption. simpl. now rewrite app_assoc.
    + rewrite !visitSubtest_camera by assumption. simpl. now rewrite app_assoc.
  - now rewrite !visitSubtest_unrecognised by assumption.
Qed.

Lemma visitSubtests_prepend dbUrl subtestData : forall acc a c,
  visitSubtests dbUrl subtestData (acc ++ a, c)
  = prepend acc (visitSubtests dbUrl subtestData (a, c)).
Proof.
  induction subtestData as [|data rest IH]; intros acc a c; simpl; [reflexivity|].
  rewrite visitSubtest_prepend.
  destruct (visitSubtest dbUrl data (a, c)) as [[a' c']|e]; simpl; [|reflexivity].
  apply IH.
Qed.

Lemma visitSubtests_app dbUrl pre : forall post st,
  visitSubtests dbUrl (pre ++ post) st =
    (mid <- visitSubtests dbUrl pre st ;; visitSubtests dbUrl post mid).
Proof.
  induction pre as [|data rest IH]; intros post st; simpl; [reflexivity|].
  destruct (visitSubtest dbUrl data st); simpl; [apply IH | reflexivity].
Qed.

Lemma processSubtests_prepend docId count dbUrl acc subtestData :
  processSubtests docId count dbUrl acc subtestData =
    (rest <- processSubtests docId count dbUrl [] subtestData ;; Ok (acc ++ rest)).
Proof.
  unfold processSubtests.
  rewrite <- (app_nil_r acc) at 1. rewrite visitSubtests_prepend.
  destruct (visitSubtests dbUrl subtestData ([], initialCounts)) as [[a c]|e];
    simpl; [|reflexivity].
  now rewrite app_assoc.
Qed.

(** ** Sorting permutes *)

Lemma insertSorted_Permutation {A : Type} (comparer : SortEntry A -> SortEntry A -> Z)
    (x : SortEntry A) (sorted : list (SortEntry A)) :
  Permutation (insertSorted comparer x sorted) (x :: sorted).
Proof.
  induction sorted as [|y rest IH]; cbn; [reflexivity|].
  destruct (comparer x y <=? 0)%Z; [reflexivity|].
  rewrite IH. apply perm_swap.
Qed.

Lemma baseSortBy_Permutation {A : Type} (array : list (SortEntry A)) comparer :
  Permutation (baseSortBy array comparer) array.
Proof.
  unfold baseSortBy. induction array as [|x rest IH]; cbn; [reflexivity|].
  rewrite insertSorted_Permutation. now constructor.
Qed.

Lemma sortBy_Permutation {A : Type} (collection : list A) iteratees :
  Permutation (sortBy collection iteratees) collection.
Proof.
  unfold sortBy.
  change (Permutation
            (value <$> baseSortBy
               (imap (fun i v =>
                        {| criteria := map (fun iteratee => iteratee v) iteratees;
                           index := i; value := v |}) collection)
               compareMultiple)
            collection).
  rewrite baseSortBy_Permutation, fmap_imap.
  rewrite (imap_ext _ (const id) collection) by reflexivity.
  now rewrite imap_const, list_fmap_id.
Qed.

(** ** Lists of results *)

Lemma imap_imap {A B C : Type} (l : list A) :
  forall (g : nat -> B -> C) (f : nat -> A -> B),
  imap g (imap f l) = imap (fun i x => g i (f i x)) l.
Proof.
  induction l as [|x rest IH]; intros g f; [reflexivity|].
  rewrite !imap_cons. f_equal. apply IH.
Qed.

Lemma mapM_Forall2 {A B : Type} (f : A -> Result B) (l : list A) : forall ys,
  mapM f l = Ok ys -> Forall2 (fun x y => f x = Ok y) l ys.
Proof.
  induction l as [|x rest IH]; cbn; intros ys H.
  - inversion H. constructor.
  - destruct (f x) eqn:E; cbn in H; [|discriminate].
    destruct (mapM f rest); cbn in H; [|discriminate].
    inversion H. constructor; auto.
Qed.

Lemma Forall2_mapM {A B : Type} (f : A -> Result B) (l : list A) (ys : list B) :
  Forall2 (fun x y => f x = Ok y) l ys -> mapM f l = Ok ys.
Proof.
  induction 1 as [|x y l ys E _ IH]; [reflexivity|].
  cbn [mapM]. now rewrite E, IH.
Qed.

(** ** Column groups and their timestamp columns *)

Lemma numberedGroups_cons first g groups :
  numberedGroups first (g :: groups) =
    fst g ++ [timestampColumn (snd g) first] ++ numberedGroups (S first) groups.
Proof.
  unfold numberedGroups. rewrite imap_cons. cbn [concat].
  rewrite Nat.add_0_r, <- app_assoc. do 3 f_equal.
  apply imap_ext. intros i x _. cbn. do 3 f_equal. lia.
Qed.

Lemma numberedGroups_app first g1 g2 :
  numberedGroups first (g1 ++ g2) =
    numberedGroups first g1 ++ numberedGroups (first + length g1) g2.
Proof.
  unfold numberedGroups. rewrite imap_app, concat_app. do 2 f_equal.
  apply imap_ext. intros i x _. do 3 f_equal. lia.
Qed.

Lemma numberedGroups_one first body id :
  numberedGroups first [(body, id)] = body ++ [timestampColumn id first].
Proof.
  unfold numberedGroups. cbn. now rewrite Nat.add_0_r, app_nil_r.
Qed.

Lemma gridGroups_cons count sub rest v views :
  gridGroups count (sub :: rest) (v :: views) =
    (gridValueColumns (toStr (Entry.subtestId sub)) (fst v)
       (occurrenceSuffix count) (snd v),
     toStr (Entry.subtestId sub))
      :: gridGroups (S count) rest views.
Proof.
  unfold gridGroups. cbn [zip zip_with]. rewrite imap_cons. cbn [fst snd].
  rewrite Nat.add_0_r. f_equal.
  apply imap_ext. intros i x _. cbn. do 3 f_equal; lia.
Qed.

Lemma mapM_length {A B : Type} (f : A -> Result B) (l : list A) : forall ys,
  mapM f l = Ok ys -> length ys = length l.
Proof.
  induction l as [|x rest IH]; cbn; intros ys H.
  - now inversion H.
  - destruct (f x); cbn in H; [|discriminate].
    destruct (mapM f rest); cbn in H; [|discriminate].
    inversion H. cbn. f_equal. now apply IH.
Qed.

Lemma gridGroups_length count gridData views :
  length views = length gridData ->
  length (gridGroups count gridData views) = length gridData.
Proof.
  intros H. unfold gridGroups. rewrite length_imap, length_zip_with. lia.
Qed.

Lemma setTimestampCount_twice m n c :
  setTimestampCount m (setTimestampCount n c) = setTimestampCount m c.
Proof. reflexivity. Qed.

Lemma setTimestampCount_same c : setTimestampCount (timestampCount c) c = c.
Proof. now destruct c. Qed.

(** ** What the grid loop reads of an entry *)

Lemma mapM_items {B : Type} (f : GridItem.t -> B) (items : list (option GridItem.t)) :
  mapM (fun item => item <- propertyOf item "itemLabel" ;; Ok (f item)) items
  = (present <- mapM (fun item => propertyOf item "itemLabel") items ;;
     Ok (map f present)).
Proof.
  induction items as [|[item|] rest IH]; cbn [mapM propertyOf bind];
    [reflexivity | | reflexivity].
  rewrite IH.
  destruct (mapM (fun item : option GridItem.t => propertyOf item "itemLabel") rest);
    reflexivity.
Qed.

Lemma mapM_present (items : list (option GridItem.t)) present :
  mapM (fun item => propertyOf item "itemLabel") items = Ok present
  <-> items = map Some present.
Proof.
  revert present. induction items as [|[item|] rest IH]; intros present;
    cbn [mapM propertyOf bind].
  - split; intros E.
    + injection E as <-. reflexivity.
    + destruct present; [reflexivity | discriminate].
  - split; intros E.
    + destruct (mapM _ rest) as [ys|e] eqn:M; cbn [bind] in E; [|discriminate].
      injection E as <-. cbn [map]. f_equal. now apply IH.
    + destruct present as [|y ys]; [discriminate|]. cbn [map] in E.
      injection E as -> E. apply IH in E. now rewrite E.
  - split; intros E; [discriminate|]. destruct present; discriminate.
Qed.

(** The columns of an entry are those of what the loop reads of it. *)
Lemma gridEntryColumns_view sub suffix :
  gridEntryColumns sub suffix =
    (view <- gridEntryView sub ;;
     Ok (gridValueColumns (toStr (Entry.subtestId sub)) (fst view) suffix
           (snd view))).
Proof.
  unfold gridEntryColumns, gridEntryView.
  destruct (Entry.data sub) as [data|]; cbn [propertyOf bind]; [|reflexivity].
  destruct (gridVariableName sub data) as [v|e]; cbn [bind]; [|reflexivity].
  destruct (GridData.items data) as [items|]; cbn [propertyOf bind]; [|reflexivity].
  cbn zeta.
  rewrite (mapM_items
             (fun item =>
                {| header := v +:+ "_" +:+ toStr (GridItem.itemLabel item) +:+ suffix;
                   key := toStr (Entry.subtestId sub) +:+ "." +:+ v +:+ "_"
                            +:+ toStr (GridItem.itemLabel item) +:+ suffix |})).
  rewrite (mapM_items (fun item => toStr (GridItem.itemLabel item))).
  destruct (mapM _ items) as [present|e]; cbn [bind fst snd]; [|reflexivity].
  unfold gridValueColumns. now rewrite map_map.
Qed.

Lemma gridEntryView_reads sub view :
  gridEntryView sub = Ok view <-> gridEntryReads sub view.
Proof.
  unfold gridEntryView, gridEntryReads, gridVariableName. split.
  - intros E.
    destruct (Entry.data sub) as [data|]; cbn [propertyOf bind] in E;
      [|discriminate].
    exists data.
    assert (V : exists v,
              (if truthy (GridData.variable_name data)
               then Ok (toStr (GridData.variable_name data))
               else lowered <- toLowerCase (Entry.name sub) ;;
                    Ok (jsReplaceBlanks lowered)) = Ok v
              /\ (items <- propertyOf (GridData.items data) "length" ;;
                  labels <-
                    mapM (fun item =>
                            item <- propertyOf item "itemLabel" ;;
                            Ok (toStr (GridItem.itemLabel item))) items ;;
                  Ok (v, labels)) = Ok view).
    { destruct (if truthy _ then _ else _) as [v|e]; cbn [bind] in E;
        [eauto | discriminate]. }
    destruct V as (v & Ev & Ei). clear E.
    destruct (GridData.items data) as [items|]; cbn [propertyOf bind] in Ei;
      [|discriminate].
    rewrite (mapM_items (fun item => toStr (GridItem.itemLabel item))) in Ei.
    destruct (mapM _ items) as [present|e] eqn:M; cbn [bind] in Ei;
      [|discriminate].
    injection Ei as <-. apply mapM_present in M. exists present.
    split; [reflexivity|]. split; [now rewrite M|]. split; [reflexivity|].
    cbn [fst].
    destruct (truthy (GridData.variable_name data)).
    + left. split; [reflexivity|]. now injection Ev.
    + right. split; [reflexivity|].
      destruct (Entry.name sub) as [| | | |name| |]; cbn [toLowerCase bind] in Ev;
        try discriminate.
      exists name. split; [reflexivity|]. now injection Ev.
  - intros (data & present & D & I & L & V). destruct view as [v labels].
    cbn [fst snd] in L, V. rewrite D. cbn [propertyOf bind].
    assert (Ev : (if truthy (GridData.variable_name data)
                  then Ok (toStr (GridData.variable_name data))
                  else lowered <- toLowerCase (Entry.name sub) ;;
                       Ok (jsReplaceBlanks lowered)) = Ok v).
    { destruct V as [[T ->]|(T & name & N & ->)]; rewrite T; [reflexivity|].
      now rewrite N. }
    rewrite Ev, I. cbn [propertyOf bind].
    rewrite (mapM_items (fun item => toStr (GridItem.itemLabel item))).
    rewrite (proj2 (mapM_present _ present) eq_refl). cbn [bind].
    now rewrite L.
Qed.

Lemma mapM_views gridData views :
  mapM gridEntryView gridData = Ok views
  <-> Forall2 gridEntryReads gridData views.
Proof.
  split.
  - intros M. apply mapM_Forall2 in M.
    eapply Forall2_impl; [exact M|]. intros sub view. apply gridEntryView_reads.
  - intros F. apply Forall2_mapM.
    eapply Forall2_impl; [exact F|]. intros sub view. apply gridEntryView_reads.
Qed.

(** The loop of [createGrid], entry by entry. *)
Lemma gridLoop_groups gridData : forall c count,
  gridLoop gridData [] c count =
    (views <- mapM gridEntryView gridData ;;
     Ok (numberedGroups (timestampCount c) (gridGroups count gridData views),
         setTimestampCount (timestampCount c + length gridData) c)).
Proof.
  induction gridData as [|sub rest IH]; intros c count; cbn [gridLoop mapM bind].
  - cbn. now rewrite Nat.add_0_r, setTimestampCount_same.
  - rewrite gridEntryColumns_view.
    destruct (gridEntryView sub) as [v|e]; cbn [bind]; [|reflexivity].
    rewrite gridLoop_header, IH.
    destruct (mapM gridEntryView rest) as [views|e]; cbn [bind]; [|reflexivity].
    cbn [fst snd]. rewrite gridGroups_cons, numberedGroups_cons. cbn [fst snd].
    rewrite setTimestampCount_twice. cbn [timestampCount setTimestampCount].
    rewrite app_nil_l, <- app_assoc. do 3 f_equal. cbn [length]. lia.
Qed.

(** What [createGrid] returns, when it returns. *)
Lemma createGrid_views doc c dbUrl out :
  createGrid doc c dbUrl = Ok out ->
  exists resultDocs views,
    getResults dbUrl (jsOr (Subtest.assessmentId doc) (Subtest.curriculumId doc))
      = Ok resultDocs
    /\ Forall2 gridEntryReads (collectGridData resultDocs) views
    /\ GridResult.gridHeader (fst out)
       = numberedGroups (timestampCount c)
           (gridGroups (gridCount c) (collectGridData resultDocs) views)
    /\ GridResult.timestampCount (fst out)
       = timestampCount c + length (collectGridData resultDocs)
    /\ snd out
       = setTimestampCount (timestampCount c + length (collectGridData resultDocs)) c.
Proof.
  unfold createGrid. intros H.
  destruct (getResults dbUrl _) as [resultDocs|e]; cbn [bind] in H; [|discriminate].
  rewrite gridLoop_groups in H.
  destruct (mapM gridEntryView _) as [views|e] eqn:E; cbn [bind] in H;
    [|discriminate].
  inversion H; subst out; clear H. cbn [fst snd GridResult.gridHeader
    GridResult.timestampCount timestampCount setTimestampCount].
  exists resultDocs, views. apply mapM_views in E. auto.
Qed.

Lemma createGrid_groups doc c dbUrl out :
  createGrid doc c dbUrl = Ok out ->
  exists groups resultDocs,
    getResults dbUrl (jsOr (Subtest.assessmentId doc) (Subtest.curriculumId doc))
      = Ok resultDocs
    /\ length groups = length (collectGridData resultDocs)
    /\ GridResult.gridHeader (fst out) = numberedGroups (timestampCount c) groups
    /\ GridResult.timestampCount (fst out) = timestampCount c + length groups
    /\ snd out = setTimestampCount (timestampCount c + length groups) c.
Proof.
  intros H.
  destruct (createGrid_views _ _ _ _ H) as (resultDocs & views & Hr & F & Hh & Ht & Hc).
  exists (gridGroups (gridCount c) (collectGridData resultDocs) views), resultDocs.
  apply Forall2_length in F.
  rewrite (gridGroups_length _ _ _ (eq_sym F)). auto.
Qed.

(** ** What one iteration appends *)

Lemma createLocation_strings doc c names :
  Subtest.levels doc = map JStr names ->
  createLocation doc c =
    Ok (map (fun name =>
               {| header := name +:+ occurrenceSuffix (locationCount c);
                  key := Subtest._id doc +:+ "." +:+ jsToLowerCase name
                           +:+ occurrenceSuffix (locationCount c) |})
            names
        ++ [timestampColumn (Subtest._id doc) (timestampCount c)]).
Proof.
  intros H. unfold createLocation. rewrite H. clear H.
  set (f := fun label : JsVal => _).
  assert (E : mapM f (map JStr names)
              = Ok (map (fun name =>
                           {| header := name +:+ occurrenceSuffix (locationCount c);
                              key := Subtest._id doc +:+ "." +:+ jsToLowerCase name
                                       +:+ occurrenceSuffix (locationCount c) |})
                        names)).
  { induction names as [|name rest IH]; [reflexivity|].
    cbn [map mapM]. rewrite IH. reflexivity. }
  now rewrite E.
Qed.

Lemma createLocation_labels doc c cols :
  createLocation doc c = Ok cols ->
  exists names, Subtest.levels doc = map JStr names.
Proof.
  unfold createLocation. set (f := fun label : JsVal => _).
  destruct (mapM f (Subtest.levels doc)) as [body|e] eqn:M; cbn [bind];
    [intros _ | discriminate].
  revert body M. induction (Subtest.levels doc) as [|label rest IH];
    intros body M.
  - now exists [].
  - cbn [mapM] in M. unfold f at 1 in M.
    destruct label as [| | | |name| |]; cbn [toLowerCase bind] in M;
      try discriminate.
    destruct (mapM f rest) as [ys|e]; cbn [bind] in M; [|discriminate].
    destruct (IH ys eq_refl) as (names & ->). now exists (name :: names).
Qed.

(** One iteration of the loop appends the column groups of the subtest,
    numbered from the current [timestampCount], and leaves the counter
    past them. *)
Lemma visitSubtest_values dbUrl data a c a' c' :
  visitSubtest dbUrl data (a, c) = Ok (a', c') ->
  exists groups,
    subtestGroups dbUrl c data groups
    /\ a' = a ++ numberedGroups (timestampCount c) groups
    /\ timestampCount c' = timestampCount c + length groups.
Proof.
  intros H. unfold subtestGroups.
  destruct (prototype_cases data) as [(p & Hp & E)|U].
  - cbn in Hp.
    destruct Hp as [<-|[<-|[<-|[<-|[<-|[<-|[<-|[<-|[]]]]]]]]].
    + rewrite visitSubtest_location in H by assumption.
      destruct (createLocation data c) as [cols|e] eqn:L; cbn [bind] in H;
        [|discriminate].
      destruct (createLocation_labels _ _ _ L) as (names & N).
      rewrite (createLocation_strings _ _ _ N) in L. injection L as <-.
      inversion H; subst. eexists. split; [left; split; [exact E|]; eauto|].
      rewrite numberedGroups_one. cbn. split; [reflexivity | lia].
    + rewrite visitSubtest_datetime in H by assumption. inversion H; subst.
      eexists. split; [do 1 right; left; split; [exact E | reflexivity]|].
      rewrite numberedGroups_one. cbn. split; [reflexivity | lia].
    + rewrite visitSubtest_consent in H by assumption. inversion H; subst.
      eexists. split; [do 2 right; left; split; [exact E | reflexivity]|].
      rewrite numberedGroups_one. cbn. split; [reflexivity | lia].
    + rewrite visitSubtest_id in H by assumption. inversion H; subst.
      eexists. split; [do 3 right; left; split; [exact E | reflexivity]|].
      rewrite numberedGroups_one. cbn. split; [reflexivity | lia].
    + rewrite visitSubtest_survey in H by assumption.
      unfold createSurvey in H.
      destruct (getQuestionBySubtestId dbUrl _) as [questions|e] eqn:Q;
        cbn [bind] in H; [|discriminate].
      inversion H; subst.
      eexists. split.
      { do 4 right; left. split; [exact E|]. cbn zeta.
        exists questions, (sortBy questions [property (Subtest._id data);
                                             property "order"]).
        split; [reflexivity|]. split; [apply sortBy_Permutation | reflexivity]. }
      rewrite numberedGroups_one. cbn. split; [reflexivity | lia].
    + destruct (Nat.eq_dec (gridCount c) 0) as [Z|NZ].
      * rewrite visitSubtest_first_grid in H by assumption.
        destruct (createGrid data c dbUrl) as [out|e] eqn:G; cbn [bind] in H;
          [|discriminate].
        destruct (createGrid_views _ _ _ _ G)
          as (resultDocs & views & Hr & F & Hh & Ht & Hc).
        inversion H; subst. rewrite Z in Hh.
        exists (gridGroups 0 (collectGridData resultDocs) views). split.
        { do 5 right; left. split; [exact E|]. split; [exact Z|]. eauto. }
        rewrite Hh, Ht. cbn. split; [reflexivity|].
        apply Forall2_length in F.
        now rewrite (gridGroups_length _ _ _ (eq_sym F)).
      * rewrite visitSubtest_later_grid in H by assumption. inversion H; subst.
        exists []. split; [do 6 right; left; auto|].
        cbn. rewrite app_nil_r. split; [reflexivity | lia].
    + rewrite visitSubtest_gps in H by assumption. inversion H; subst.
      eexists. split; [do 7 right; left; split; [exact E | reflexivity]|].
      rewrite numberedGroups_one. cbn. split; [reflexivity | lia].
    + rewrite visitSubtest_camera in H by assumption. inversion H; subst.
      eexists. split; [do 8 right; left; split; [exact E | reflexivity]|].
      rewrite numberedGroups_one. cbn. split; [reflexivity | lia].
  - rewrite visitSubtest_unrecognised in H by assumption. inversion H; subst.
    exists []. split; [do 9 right; auto|].
    cbn. rewrite app_nil_r. split; [reflexivity | lia].
Qed.

(** The headers [timestamp_0], [timestamp_1], ... are pairwise distinct. *)
Lemma timestamp_headers_NoDup (first n : nat) :
  NoDup (map (fun i => header (timestampColumn "" i)) (seq first n)).
Proof.
  apply NoDup_fmap_2; [|apply NoDup_seq].
  intros i j H. unfold timestampColumn in H. cbn [header] in H.
  injection H as H. change (pretty i = pretty j) in H.
  now apply (inj pretty) in H.
Qed.

(** ** The end-to-end scenario *)

(** C2. The assessment document [{assessmentId: "a1"}] with the single
    subtest [{prototype: "gps", _id: "s1"}], built with count 0, yields
    the five assessment columns keyed under [a1], the seven gps columns
    keyed under [s1], [timestamp_0] keyed [s1.timestamp_0] and [end_time]
    keyed [a1.end_time], in this order and with no suffix anywhere. *)
Theorem gps_scenario_count_0 (dbUrl : Store) (s : Subtest.t) :
  retrieveDoc dbUrl "a1" = Ok {| Assessment.assessmentId := JStr "a1" |} ->
  getSubtests dbUrl "a1" = Ok [s] ->
  Subtest.prototype s = JStr "gps" ->
  Subtest._id s = "s1" ->
  createColumnHeaders "a1" 0 dbUrl =
    Ok [ {| header := "assessment_id"; key := "a1.assessmentId" |};
         {| header := "assessment_name"; key := "a1.assessmentName" |};
         {| header := "enumerator"; key := "a1.enumerator" |};
         {| header := "start_time"; key := "a1.start_time" |};
         {| header := "order_map"; key := "a1.order_map" |};
         {| header := "latitude"; key := "s1.latitude" |};
         {| header := "longitude"; key := "s1.longitude" |};
         {| header := "accuracy"; key := "s1.accuracy" |};
         {| header := "altitude"; key := "s1.altitude" |};
         {| header := "altitudeAccuracy"; key := "s1.altitudeAccuracy" |};
         {| header := "heading"; key := "s1.heading" |};
         {| header := "speed"; key := "s1.speed" |};
         {| header := "timestamp_0"; key := "s1.timestamp_0" |};
         {| header := "end_time"; key := "a1.end_time" |} ].
Proof.
  intros Hdoc Hsub Hproto Hid.
  unfold createColumnHeaders. rewrite Hdoc, Hsub. cbn [bind].
  unfold processSubtests. cbn [visitSubtests Assessment.assessmentId truthy].
  cbn [String.eqb negb Ascii.eqb]. rewrite visitSubtest_gps by assumption.
  unfold createGps. rewrite Hid. reflexivity.
Qed.

(** C3, amended. With count 2 the five assessment columns and [end_time]
    carry [_2]; the seven gps columns carry no suffix, [gpsCount] being 0
    for the first gps subtest; the timestamp column is [timestamp_0]. *)
Theorem gps_scenario_count_2 (dbUrl : Store) (s : Subtest.t) :
  retrieveDoc dbUrl "a1" = Ok {| Assessment.assessmentId := JStr "a1" |} ->
  getSubtests dbUrl "a1" = Ok [s] ->
  Subtest.prototype s = JStr "gps" ->
  Subtest._id s = "s1" ->
  createColumnHeaders "a1" 2 dbUrl =
    Ok [ {| header := "assessment_id_2"; key := "a1.assessmentId_2" |};
         {| header := "assessment_name_2"; key := "a1.assessmentName_2" |};
         {| header := "enumerator_2"; key := "a1.enumerator_2" |};
         {| header := "start_time_2"; key := "a1.start_time_2" |};
         {| header := "order_map_2"; key := "a1.order_map_2" |};
         {| header := "latitude"; key := "s1.latitude" |};
         {| header := "longitude"; key := "s1.longitude" |};
         {| header := "accuracy"; key := "s1.accuracy" |};
         {| header := "altitude"; key := "s1.altitude" |};
         {| header := "altitudeAccuracy"; key := "s1.altitudeAccuracy" |};
         {| header := "heading"; key := "s1.heading" |};
         {| header := "speed"; key := "s1.speed" |};
         {| header := "timestamp_0"; key := "s1.timestamp_0" |};
         {| header := "end_time_2"; key := "a1.end_time_2" |} ].
Proof.
  intros Hdoc Hsub Hproto Hid.
  unfold createColumnHeaders. rewrite Hdoc, Hsub. cbn [bind].
  unfold processSubtests. cbn [visitSubtests Assessment.assessmentId truthy].
  cbn [String.eqb negb Ascii.eqb]. rewrite visitSubtest_gps by assumption.
  unfold createGps. rewrite Hid. reflexivity.
Qed.

(** ** The leading block *)

Lemma createColumnHeaders_leading docId count dbUrl item :
  retrieveDoc dbUrl docId = Ok item ->
  createColumnHeaders docId count dbUrl =
    (rest <- subtestColumns docId count dbUrl ;;
     Ok ((if truthy (Assessment.assessmentId item)
          then assessmentColumns (Assessment.assessmentId item) count
          else []) ++ rest)).
Proof.
  intros Hdoc. unfold createColumnHeaders, subtestColumns. rewrite Hdoc.
  cbn [bind]. destruct (getSubtests dbUrl docId) as [subtestData|e]; cbn [bind];
    [|reflexivity].
  rewrite processSubtests_prepend.
  destruct (processSubtests docId count dbUrl [] subtestData); cbn [bind];
    [|reflexivity].
  now destruct (truthy (Assessment.assessmentId item)).
Qed.

Lemma visitSubtests_withoutAssessmentId dbUrl subtestData : forall st,
  visitSubtests (withoutAssessmentId dbUrl) subtestData st
  = visitSubtests dbUrl subtestData st.
Proof.
  induction subtestData as [|data rest IH]; intros st; cbn [visitSubtests];
    [reflexivity|].
  change (visitSubtest (withoutAssessmentId dbUrl) data st)
    with (visitSubtest dbUrl data st).
  destruct (visitSubtest dbUrl data st); cbn [bind]; [apply IH | reflexivity].
Qed.

(** C7, amended. The five leading columns, keyed under the loaded
    document's [assessmentId] with the suffix of [count], are prepended if
    and only if that [assessmentId] is truthy; otherwise the block is
    skipped and the builder goes on to the subtests, so that it fails only
    where the subtests make it fail. *)
Theorem leading_block_iff_truthy docId count dbUrl item :
  retrieveDoc dbUrl docId = Ok item ->
  createColumnHeaders docId count dbUrl =
    (rest <- subtestColumns docId count dbUrl ;;
     Ok ((if truthy (Assessment.assessmentId item)
          then assessmentColumns (Assessment.assessmentId item) count
          else []) ++ rest))
  /\ (forall cols, createColumnHeaders docId count dbUrl = Ok cols ->
        (leadingBlockPresent docId count dbUrl item
         <-> truthy (Assessment.assessmentId item) = true)).
Proof.
  intros Hdoc. pose proof (createColumnHeaders_leading _ count _ _ Hdoc) as E.
  split; [exact E|].
  intros cols Hcols. rewrite Hcols in E.
  destruct (subtestColumns docId count dbUrl) as [rest|e] eqn:R; cbn [bind] in E;
    [|discriminate].
  injection E as ->. split.
  - intros (rest' & Hr & Hall). rewrite R in Hr. injection Hr as <-.
    rewrite Hcols in Hall. injection Hall as Hall.
    destruct (truthy (Assessment.assessmentId item)); [reflexivity|].
    apply (f_equal length) in Hall. rewrite length_app in Hall.
    unfold assessmentColumns in Hall. cbn in Hall. lia.
  - intros T. exists rest. rewrite R, Hcols, T. auto.
Qed.

(** C10. When the loaded document's [assessmentId] is falsy, present or
    not, the builder emits no leading block: its result is that of the
    subtests alone, the same as for the document without the property. *)
Theorem falsy_assessmentId_as_absent docId count dbUrl item :
  retrieveDoc dbUrl docId = Ok item ->
  truthy (Assessment.assessmentId item) = false ->
  createColumnHeaders docId count dbUrl = subtestColumns docId count dbUrl
  /\ createColumnHeaders docId count dbUrl
     = createColumnHeaders docId count (withoutAssessmentId dbUrl).
Proof.
  intros Hdoc F.
  assert (E : createColumnHeaders docId count dbUrl
              = subtestColumns docId count dbUrl).
  { rewrite (createColumnHeaders_leading _ _ _ _ Hdoc), F.
    now destruct (subtestColumns docId count dbUrl). }
  split; [exact E|]. rewrite E.
  unfold createColumnHeaders, subtestColumns.
  cbn [withoutAssessmentId retrieveDoc getSubtests]. rewrite Hdoc. cbn [bind].
  cbn [Assessment.assessmentId truthy].
  destruct (getSubtests dbUrl docId) as [subtestData|e]; cbn [bind]; [|reflexivity].
  unfold processSubtests. now rewrite visitSubtests_withoutAssessmentId.
Qed.

(** ** Numbering of the timestamp columns *)

Lemma timestampColumns_headers first groups :
  map header (timestampColumns first groups)
  = map (fun i => header (timestampColumn "" i)) (seq first (length groups)).
Proof.
  unfold timestampColumns.
  change (header <$> imap (fun i g => timestampColumn (snd g) (first + i)) groups
          = (fun i => header (timestampColumn "" i)) <$> seq first (length groups)).
  rewrite fmap_imap.
  rewrite <- (imap_seq groups (fun i => header (timestampColumn "" i)) first).
  apply imap_ext. reflexivity.
Qed.

Lemma timestampColumns_cons first g groups :
  timestampColumns first (g :: groups)
  = timestampColumn (snd g) first :: timestampColumns (S first) groups.
Proof.
  unfold timestampColumns. rewrite imap_cons, Nat.add_0_r. f_equal.
  apply imap_ext. intros i x _. cbn. f_equal. lia.
Qed.

(** The timestamp columns of the groups stand in their layout. *)
Lemma timestampColumns_In groups : forall first t,
  In t (timestampColumns first groups) -> In t (numberedGroups first groups).
Proof.
  induction groups as [|g rest IH]; intros first t; [cbn; tauto|].
  rewrite timestampColumns_cons, numberedGroups_cons.
  intros [<-|Hin]; apply in_or_app; right; apply in_or_app.
  - left. now left.
  - right. now apply IH.
Qed.

(** The loop, subtest by subtest: [per] lists the column groups each
    subtest has contributed. After any number [k] of subtests the array
    holds the groups of the first [k] subtests, numbered in a row from
    the initial counter, and the counter has advanced by their number;
    the groups of the next subtest are those of the layout for the
    counters reached. *)
Lemma visitSubtests_values dbUrl subtestData : forall a c a' c',
  visitSubtests dbUrl subtestData (a, c) = Ok (a', c') ->
  exists per,
    length per = length subtestData
    /\ a' = a ++ numberedGroups (timestampCount c) (concat per)
    /\ timestampCount c' = timestampCount c + length (concat per)
    /\ forall k data, subtestData !! k = Some data ->
         exists counts groups,
           visitSubtests dbUrl (take k subtestData) (a, c)
           = Ok (a ++ numberedGroups (timestampCount c) (concat (take k per)),
                 counts)
           /\ timestampCount counts
              = timestampCount c + length (concat (take k per))
           /\ per !! k = Some groups
           /\ subtestGroups dbUrl counts data groups.
Proof.
  induction subtestData as [|data rest IH]; intros a c a' c' H; cbn in H.
  - inversion H; subst. exists []. cbn. rewrite app_nil_r.
    split; [reflexivity|]. split; [reflexivity|]. split; [lia|].
    intros k data L. discriminate L.
  - destruct (visitSubtest dbUrl data (a, c)) as [[a1 c1]|e] eqn:E;
      cbn [bind] in H; [|discriminate].
    destruct (visitSubtest_values _ _ _ _ _ _ E) as (g1 & S1 & -> & T1).
    destruct (IH _ _ _ _ H) as (per & L & -> & T & P).
    exists (g1 :: per). cbn [length concat].
    split; [now rewrite L|]. split.
    { now rewrite numberedGroups_app, <- T1, app_assoc. }
    split; [rewrite length_app; lia|].
    intros [|k] d Hd.
    + cbn in Hd. injection Hd as <-. exists c, g1. cbn. rewrite app_nil_r.
      split; [reflexivity|]. split; [lia|]. split; [reflexivity | exact S1].
    + cbn in Hd. destruct (P k d Hd) as (ck & gk & V & Tk & Lk & Sk).
      exists ck, gk. cbn [take visitSubtests concat]. rewrite E. cbn [bind].
      rewrite V, numberedGroups_app, <- T1, app_assoc, length_app.
      split; [reflexivity|]. split; [lia|]. split; [exact Lk | exact Sk].
Qed.

(** C1. In one invocation of [createColumnHeaders] the output is the
    leading block, then the column groups of the subtests in order, each
    closed by one timestamp column, then [end_time]. The groups of a
    subtest are those of [subtestGroups] for the counters the loop has
    reached: its value columns, with no further timestamp column among
    the pushes. The timestamp column of the [i]-th group is numbered [i]:
    the value of [timestampCount] when it is pushed, the counter being
    at every point of the loop the number of timestamp columns pushed so
    far. Hence the timestamp columns of the output have the headers
    [timestamp_0], [timestamp_1], ..., pairwise distinct. *)
Theorem timestamp_columns_numbered docId count dbUrl cols :
  createColumnHeaders docId count dbUrl = Ok cols ->
  exists item subtestData per,
    retrieveDoc dbUrl docId = Ok item
    /\ getSubtests dbUrl docId = Ok subtestData
    /\ length per = length subtestData
    /\ cols = leadingColumns item count
              ++ numberedGroups 0 (concat per) ++ [endTimeColumn docId count]
    /\ (forall k data, subtestData !! k = Some data ->
          exists counts groups,
            visitSubtests dbUrl (take k subtestData)
              (leadingColumns item count, initialCounts)
            = Ok (leadingColumns item count
                    ++ numberedGroups 0 (concat (take k per)), counts)
            /\ timestampCount counts = length (concat (take k per))
            /\ per !! k = Some groups
            /\ subtestGroups dbUrl counts data groups)
    /\ (exists counts,
          visitSubtests dbUrl subtestData (leadingColumns item count, initialCounts)
          = Ok (leadingColumns item count ++ numberedGroups 0 (concat per), counts)
          /\ timestampCount counts = length (concat per))
    /\ Forall (fun t => In t cols) (timestampColumns 0 (concat per))
    /\ map header (timestampColumns 0 (concat per))
       = map (fun i => header (timestampColumn "" i))
             (seq 0 (length (concat per)))
    /\ NoDup (map header (timestampColumns 0 (concat per))).
Proof.
  unfold createColumnHeaders. intros H.
  destruct (retrieveDoc dbUrl docId) as [item|e]; cbn [bind] in H; [|discriminate].
  destruct (getSubtests dbUrl docId) as [subtestData|e]; cbn [bind] in H;
    [|discriminate].
  unfold processSubtests in H. rewrite app_nil_l in H.
  fold (leadingColumns item count) in H.
  destruct (visitSubtests dbUrl subtestData (leadingColumns item count, initialCounts))
    as [[a' c']|e] eqn:V; cbn [bind] in H; [|discriminate].
  destruct (visitSubtests_values _ _ _ _ _ _ V) as (per & L & -> & T & P).
  exists item, subtestData, per.
  split; [reflexivity|]. split; [reflexivity|]. split; [exact L|]. split.
  { injection H as <-. cbn [fst]. now rewrite <- app_assoc. }
  split; [exact P|]. split; [exists c'; split; [exact V | exact T]|].
  split.
  { apply Forall_forall. intros t Ht. apply list_elem_of_In in Ht.
    apply timestampColumns_In in Ht. injection H as <-. cbn [fst].
    apply in_or_app. left. apply in_or_app. now right. }
  rewrite timestampColumns_headers. split; [reflexivity|].
  apply timestamp_headers_NoDup.
Qed.

(** ** The grid guard *)

Lemma visitSubtest_gridCount dbUrl data a c a' c' :
  visitSubtest dbUrl data (a, c) = Ok (a', c') ->
  (Subtest.prototype data = JStr "grid" -> gridCount c' <> 0)
  /\ (Subtest.prototype data <> JStr "grid" -> gridCount c' = gridCount c)
  /\ gridCount c <= gridCount c'.
Proof.
  intros H.
  destruct (prototype_cases data) as [(p & Hp & E)|U].
  - cbn in Hp.
    destruct Hp as [<-|[<-|[<-|[<-|[<-|[<-|[<-|[<-|[]]]]]]]]].
    + rewrite visitSubtest_location in H by assumption.
      destruct (createLocation data c); cbn [bind] in H; [|discriminate].
      inversion H; subst. rewrite E. cbn. repeat split; (discriminate || lia).
    + rewrite visitSubtest_datetime in H by assumption.
      inversion H; subst. rewrite E. cbn. repeat split; (discriminate || lia).
    + rewrite visitSubtest_consent in H by assumption.
      inversion H; subst. rewrite E. cbn. repeat split; (discriminate || lia).
    + rewrite visitSubtest_id in H by assumption.
      inversion H; subst. rewrite E. cbn. repeat split; (discriminate || lia).
    + rewrite visitSubtest_survey in H by assumption.
      destruct (createSurvey _ c dbUrl); cbn [bind] in H; [|discriminate].
      inversion H; subst. rewrite E. cbn. repeat split; (discriminate || lia).
    + destruct (Nat.eq_dec (gridCount c) 0) as [Z|NZ].
      * rewrite visitSubtest_first_grid in H by assumption.
        destruct (createGrid data c dbUrl) as [out|e] eqn:G; cbn [bind] in H;
          [|discriminate].
        destruct (createGrid_groups _ _ _ _ G) as (groups & ? & _ & _ & _ & _ & Hc).
        inversion H; subst. rewrite Hc. cbn.
        repeat split; (congruence || lia).
      * rewrite visitSubtest_later_grid in H by assumption. inversion H; subst.
        repeat split; (congruence || lia).
    + rewrite visitSubtest_gps in H by assumption.
      inversion H; subst. rewrite E. cbn. repeat split; (discriminate || lia).
    + rewrite visitSubtest_camera in H by assumption.
      inversion H; subst. rewrite E. cbn. repeat split; (discriminate || lia).
  - rewrite visitSubtest_unrecognised in H by assumption. inversion H; subst.
    repeat split; (lia || idtac).
    intros E. exfalso. apply (U "grid"); [cbn; tauto | exact E].
Qed.

Lemma visitSubtests_gridCount dbUrl subtestData : forall a c a' c',
  visitSubtests dbUrl subtestData (a, c) = Ok (a', c') ->
  (Exists (fun d => Subtest.prototype d = JStr "grid") subtestData ->
     gridCount c' <> 0)
  /\ (Forall (fun d => Subtest.prototype d <> JStr "grid") subtestData ->
        gridCount c' = gridCount c)
  /\ gridCount c <= gridCount c'.
Proof.
  induction subtestData as [|data rest IH]; intros a c a' c' H; cbn in H.
  - inversion H; subst. repeat split; auto. intros X. inversion X.
  - destruct (visitSubtest dbUrl data (a, c)) as [[a1 c1]|e] eqn:E;
      cbn [bind] in H; [|discriminate].
    destruct (visitSubtest_gridCount _ _ _ _ _ _ E) as (G1 & N1 & M1).
    destruct (IH _ _ _ _ H) as (G2 & N2 & M2).
    repeat split.
    + intros X. inversion X as [? ? Hd|? ? Hr]; subst.
      * specialize (G1 Hd). lia.
      * auto.
    + intros F. inversion F; subst. rewrite N2, N1; auto.
    + lia.
Qed.

(** C6. Of the grid subtests of one list only the first reaches
    [createGrid]: before it [gridCount] is 0. Any grid subtest after it
    changes neither the columns nor any counter: the loop gives the same
    result with that subtest and without it. *)
Theorem only_first_grid_generates dbUrl pre g post a :
  Subtest.prototype g = JStr "grid" ->
  (Forall (fun d => Subtest.prototype d <> JStr "grid") pre ->
   forall a1 c1,
     visitSubtests dbUrl pre (a, initialCounts) = Ok (a1, c1) ->
     gridCount c1 = 0
     /\ visitSubtest dbUrl g (a1, c1) =
          (out <- createGrid g c1 dbUrl ;;
           Ok (a1 ++ GridResult.gridHeader (fst out),
               setTimestampCount (GridResult.timestampCount (fst out))
                 (setGridCount (S (gridCount (snd out))) (snd out)))))
  /\ (Exists (fun d => Subtest.prototype d = JStr "grid") pre ->
      (forall a1 c1,
         visitSubtests dbUrl pre (a, initialCounts) = Ok (a1, c1) ->
         visitSubtest dbUrl g (a1, c1) = Ok (a1, c1))
      /\ visitSubtests dbUrl (pre ++ g :: post) (a, initialCounts)
         = visitSubtests dbUrl (pre ++ post) (a, initialCounts)).
Proof.
  intros Hg. split.
  - intros F a1 c1 V.
    destruct (visitSubtests_gridCount _ _ _ _ _ _ V) as (_ & N & _).
    specialize (N F). cbn in N. split; [exact N|].
    now apply visitSubtest_first_grid.
  - intros X.
    assert (L : forall a1 c1,
               visitSubtests dbUrl pre (a, initialCounts) = Ok (a1, c1) ->
               visitSubtest dbUrl g (a1, c1) = Ok (a1, c1)).
    { intros a1 c1 V.
      destruct (visitSubtests_gridCount _ _ _ _ _ _ V) as (G & _ & _).
      now apply visitSubtest_later_grid; [|apply G]. }
    split; [exact L|].
    rewrite !visitSubtests_app.
    destruct (visitSubtests dbUrl pre (a, initialCounts)) as [[a1 c1]|e] eqn:V;
      cbn [bind visitSubtests]; [|reflexivity].
    now rewrite (L _ _ eq_refl).
Qed.

(** ** Failures of the store *)

(** C8. A failure of the document lookup, of the subtest lookup, or of
    the lookup of a generator that the loop reaches (the questions of a
    survey subtest, the results of the first grid subtest) is the failure
    [createColumnHeaders] rejects with; the result is then that failure
    and no column sequence. *)
Theorem store_failure_propagates docId count dbUrl e :
  (retrieveDoc dbUrl docId = Err e ->
   createColumnHeaders docId count dbUrl = Err e)
  /\ (forall item,
        retrieveDoc dbUrl docId = Ok item ->
        getSubtests dbUrl docId = Err e ->
        createColumnHeaders docId count dbUrl = Err e)
  /\ (forall item pre data post st,
        retrieveDoc dbUrl docId = Ok item ->
        getSubtests dbUrl docId = Ok (pre ++ data :: post) ->
        visitSubtests dbUrl pre (leadingColumns item count, initialCounts) = Ok st ->
        (Subtest.prototype data = JStr "survey"
         /\ getQuestionBySubtestId dbUrl (Subtest._id data) = Err e)
        \/ (Subtest.prototype data = JStr "grid"
            /\ gridCount (snd st) = 0
            /\ getResults dbUrl (jsOr (Subtest.assessmentId data)
                                      (Subtest.curriculumId data)) = Err e) ->
        createColumnHeaders docId count dbUrl = Err e).
Proof.
  unfold createColumnHeaders. repeat split.
  - intros H. now rewrite H.
  - intros item H1 H2. now rewrite H1, H2.
  - intros item pre data post [a c] H1 H2 V L.
    rewrite H1, H2. cbn [bind]. unfold processSubtests.
    rewrite app_nil_l. fold (leadingColumns item count).
    rewrite visitSubtests_app, V. cbn [bind visitSubtests].
    destruct L as [[P Q]|(P & Z & R)].
    + rewrite visitSubtest_survey by assumption.
      unfold createSurvey. now rewrite Q.
    + rewrite visitSubtest_first_grid by assumption.
      unfold createGrid. now rewrite R.
Qed.

(** ** The survey generator *)

Lemma createSurvey_columns id subtestCounts dbUrl questions :
  getQuestionBySubtestId dbUrl id = Ok questions ->
  createSurvey id subtestCounts dbUrl =
    Ok (flat_map (questionColumns id (occurrenceSuffix (surveyCount subtestCounts)))
                 (sortBy questions [property id; property "order"])
        ++ [timestampColumn id (timestampCount subtestCounts)]).
Proof. intros H. unfold createSurvey. rewrite H. reflexivity. Qed.


(** C4 fails for a subtest whose id names a property of its questions.
    [createSurvey] sorts by the pair (property named by the subtest id,
    [order]): for the subtest [name] question [a], of order 2, comes
    before question [b], of order 1, so its columns do not stand in
    ascending [order]. For the subtest [s1], which names no property, the
    same questions come out in ascending [order]. *)
Theorem survey_sorted_by_id_named_property_first :
  sortBy [question "b" 1 2; question "a" 2 3] [property "name"; property "order"]
    = [question "a" 2 3; question "b" 1 2]
  /\ createSurvey "name" initialCounts (surveyStore "name") =
       Ok [ {| header := "a_1"; key := "name.a.1" |};
            {| header := "a_2"; key := "name.a.2" |};
            {| header := "a_3"; key := "name.a.3" |};
            {| header := "b"; key := "name.b" |};
            {| header := "timestamp_0"; key := "name.timestamp_0" |} ]
  /\ createSurvey "s1" initialCounts (surveyStore "s1") =
       Ok [ {| header := "b"; key := "s1.b" |};
            {| header := "a_1"; key := "s1.a.1" |};
            {| header := "a_2"; key := "s1.a.2" |};
            {| header := "a_3"; key := "s1.a.3" |};
            {| header := "timestamp_0"; key := "s1.timestamp_0" |} ]
  /\ createColumnHeaders "a3" 0 (surveyStore "name") =
       Ok [ {| header := "a_1"; key := "name.a.1" |};
            {| header := "a_2"; key := "name.a.2" |};
            {| header := "a_3"; key := "name.a.3" |};
            {| header := "b"; key := "name.b" |};
            {| header := "timestamp_0"; key := "name.timestamp_0" |};
            {| header := "end_time"; key := "a3.end_time" |} ].
Proof. repeat split; vm_compute; reflexivity. Qed.

(** *** Where the subtest id names no property

    The questions then compare by [order] alone, and [sortBy] is the
    stable sort by [order]. *)

Lemma compareMultiple_plain (e1 e2 : SortEntry Question.t) :
  criteria e1 = [JUndefined; JNum (orderNumber (value e1))] ->
  criteria e2 = [JUndefined; JNum (orderNumber (value e2))] ->
  (compareMultiple e1 e2 <=? 0)%Z = true <-> orderedBefore e1 e2.
Proof.
  intros C1 C2. unfold compareMultiple, orderedBefore. rewrite C1, C2.
  cbn [compareCriteria]. unfold compareAscending at 1. cbn [strictEq Z.eqb].
  cbn [compareCriteria]. unfold compareAscending.
  cbn [strictEq isUndefined isNull negb andb orb].
  unfold jsGreater, jsLess. cbn [toPrimitive toNumber].
  rewrite Z.leb_le.
  destruct (Z.eqb_spec (orderNumber (value e1)) (orderNumber (value e2))) as [E|N];
    cbn [Z.eqb].
  - lia.
  - rewrite !orb_false_r.
    destruct (Z.ltb_spec (orderNumber (value e2)) (orderNumber (value e1)));
      cbn [Z.eqb]; [lia|].
    destruct (Z.ltb_spec (orderNumber (value e1)) (orderNumber (value e2)));
      cbn [Z.eqb]; lia.
Qed.

Lemma surveyEntries_elem id questions e :
  Forall (plainQuestion id) questions ->
  e ∈ surveyEntries id questions ->
  criteria e = [JUndefined; JNum (orderNumber (value e))]
  /\ questions !! index e = Some (value e).
Proof.
  intros F Hin. unfold surveyEntries in Hin.
  apply elem_of_lookup_imap_1 in Hin. destruct Hin as (i & q & -> & L).
  cbn [criteria index value map]. split; [|exact L].
  rewrite Forall_lookup in F. destruct (F _ _ L) as (U & z & O).
  rewrite U. unfold property at 1. cbn [String.eqb Ascii.eqb Bool.eqb].
  unfold orderNumber. now rewrite O.
Qed.

Lemma surveyEntries_index_inj id questions e1 e2 :
  Forall (plainQuestion id) questions ->
  e1 ∈ surveyEntries id questions -> e2 ∈ surveyEntries id questions ->
  index e1 = index e2 -> e1 = e2.
Proof.
  intros F H1 H2 E.
  destruct (surveyEntries_elem _ _ _ F H1) as (C1 & L1).
  destruct (surveyEntries_elem _ _ _ F H2) as (C2 & L2).
  rewrite E, L2 in L1. injection L1 as V.
  destruct e1, e2; cbn in *; subst. reflexivity.
Qed.

Lemma orderedBefore_total e1 e2 : orderedBefore e1 e2 \/ orderedBefore e2 e1.
Proof. unfold orderedBefore. lia. Qed.

Lemma orderedBefore_trans e1 e2 e3 :
  orderedBefore e1 e2 -> orderedBefore e2 e3 -> orderedBefore e1 e3.
Proof. unfold orderedBefore. lia. Qed.

Lemma insertSorted_sorted (P : SortEntry Question.t -> Prop) x sorted :
  (forall a b, P a -> P b ->
     (compareMultiple a b <=? 0)%Z = true <-> orderedBefore a b) ->
  P x -> Forall P sorted ->
  StronglySorted orderedBefore sorted ->
  StronglySorted orderedBefore (insertSorted compareMultiple x sorted).
Proof.
  intros Hc Px. induction sorted as [|y rest IH]; intros F S; cbn [insertSorted].
  - repeat constructor.
  - inversion F as [|? ? Py Fr]; subst. inversion S as [|? ? Sr Hy]; subst.
    destruct (compareMultiple x y <=? 0)%Z eqn:E.
    + apply Hc in E; [|assumption..]. constructor; [assumption|].
      constructor; [exact E|].
      eapply Forall_impl; [exact Hy|]. intros z. now apply orderedBefore_trans.
    + assert (Hyx : orderedBefore y x).
      { destruct (orderedBefore_total x y) as [B|B]; [|exact B].
        apply Hc in B; [congruence | assumption..]. }
      constructor; [now apply IH|].
      rewrite (insertSorted_Permutation compareMultiple x rest).
      now constructor.
Qed.

Lemma baseSortBy_sorted (P : SortEntry Question.t -> Prop) array :
  (forall a b, P a -> P b ->
     (compareMultiple a b <=? 0)%Z = true <-> orderedBefore a b) ->
  Forall P array ->
  StronglySorted orderedBefore (baseSortBy array compareMultiple).
Proof.
  intros Hc. unfold baseSortBy.
  induction array as [|x rest IH]; intros F; cbn [foldr]; [constructor|].
  inversion F; subst.
  apply (insertSorted_sorted P); auto.
  fold (baseSortBy rest compareMultiple).
  now rewrite baseSortBy_Permutation.
Qed.

Lemma StronglySorted_filter {A : Type} (R : relation A) (P : A -> Prop)
    `{forall x, Decision (P x)} (l : list A) :
  StronglySorted R l -> StronglySorted R (filter P l).
Proof.
  induction 1 as [|x l S IH F]; [constructor|].
  rewrite filter_cons. destruct (decide (P x)); [|exact IH].
  constructor; [exact IH|].
  rewrite Forall_forall in *. intros y Hy.
  apply list_elem_of_filter in Hy. destruct Hy as [_ Hy]. auto.
Qed.

Lemma filter_fmap_value {A B : Type} (f : A -> B) (P : B -> Prop)
    `{forall y, Decision (P y)} (l : list A) :
  filter P (f <$> l) = f <$> filter (fun x => P (f x)) l.
Proof.
  induction l as [|x rest IH]; [reflexivity|].
  rewrite fmap_cons, !filter_cons, IH.
  now destruct (decide (P (f x))).
Qed.

Lemma StronglySorted_weaken {A : Type} (R R' : relation A) (P : A -> Prop)
    (l : list A) :
  (forall x y, P x -> P y -> R x y -> R' x y) ->
  Forall P l -> StronglySorted R l -> StronglySorted R' l.
Proof.
  intros W F S. induction S as [|x l S IH Hx]; [constructor|].
  inversion F as [|? ? Px Fl]; subst.
  constructor; [now apply IH|].
  rewrite Forall_forall in *. intros y Hy. apply W; auto.
Qed.

Lemma imap_index_sorted {A B : Type} (idx : B -> nat) (l : list A) :
  forall (f : nat -> A -> B),
  (forall i j x y, i <= j -> idx (f i x) <= idx (f j y)) ->
  StronglySorted (fun a b => idx a <= idx b) (imap f l).
Proof.
  induction l as [|x rest IH]; intros f Hf; [constructor|].
  rewrite imap_cons. constructor.
  - apply IH. intros i j y y' Hij. apply Hf. lia.
  - rewrite Forall_forall. intros b Hb.
    apply elem_of_lookup_imap_1 in Hb. destruct Hb as (i & y & -> & _).
    apply Hf. lia.
Qed.

(** For a subtest whose id is a plain path that names no property of its
    questions, the questions' [order]s being numbers,
    [_.sortBy(questions, [id, 'order'])]
    is a permutation of the questions in ascending [order], and the
    questions of any one [order] keep the order of the store. *)
Lemma sortBy_order_stable id questions :
  isPlainPath id = true ->
  Forall (plainQuestion id) questions ->
  let sortedDoc := sortBy questions [property id; property "order"] in
  Permutation sortedDoc questions
  /\ StronglySorted (fun a b => (orderNumber a <= orderNumber b)%Z) sortedDoc
  /\ forall z,
       filter (fun q => orderNumber q = z) sortedDoc
       = filter (fun q => orderNumber q = z) questions.
Proof.
  intros _ F sortedDoc. subst sortedDoc.
  split; [apply sortBy_Permutation|].
  set (es := surveyEntries id questions).
  set (P := fun e : SortEntry Question.t => e ∈ es).
  assert (Hc : forall a b, P a -> P b ->
                 (compareMultiple a b <=? 0)%Z = true <-> orderedBefore a b).
  { intros a b Ha Hb. apply compareMultiple_plain.
    - now apply (surveyEntries_elem id questions).
    - now apply (surveyEntries_elem id questions). }
  assert (FP : Forall P es) by now apply Forall_forall.
  pose proof (baseSortBy_sorted P es Hc FP) as S.
  assert (Hperm : baseSortBy es compareMultiple ≡ₚ es)
    by apply baseSortBy_Permutation.
  assert (Hv : value <$> es = questions).
  { unfold es, surveyEntries. rewrite fmap_imap.
    rewrite (imap_ext _ (const (fun q => q)) questions) by reflexivity.
    rewrite imap_const. apply list_fmap_id. }
  change (sortBy questions [property id; property "order"])
    with (value <$> baseSortBy es compareMultiple).
  split.
  - eapply StronglySorted_fmap; [|exact S].
    intros x y. unfold orderedBefore. lia.
  - intros z.
    transitivity (filter (fun q => orderNumber q = z) (value <$> es));
      [|now rewrite Hv].
    rewrite !filter_fmap_value. f_equal.
    apply (StronglySorted_unique_strong (fun a b => index a <= index b)).
    + intros x1 x2 H1 H2 L1 L2.
      apply (surveyEntries_index_inj id questions); auto; [| |lia].
      * apply list_elem_of_filter in H1. destruct H1 as [_ H1].
        now rewrite Hperm in H1.
      * apply list_elem_of_filter in H2. now destruct H2.
    + apply (StronglySorted_weaken orderedBefore _
               (fun e => orderNumber (value e) = z)).
      * intros x y Hx Hy. cbn in Hx, Hy. unfold orderedBefore. lia.
      * apply Forall_forall. intros e He.
        apply list_elem_of_filter in He. now destruct He.
      * now apply StronglySorted_filter.
    + apply StronglySorted_filter. unfold es, surveyEntries.
      apply (imap_index_sorted index). intros i j x y Hij. exact Hij.
    + now rewrite Hperm.
Qed.

(** ** The grid generator *)

(** C5, amended. The grid entries are the entries of prototype [grid] of
    the result documents of [doc.assessmentId || doc.curriculumId], in the
    order of the store. When each of them has a [data] with all its
    [items], the [i]-th of them yields, under the variable name [<var>]
    and the suffix of the occurrence [gridCount + i]: the six fixed
    columns, one column [<var>_<itemLabel>] per item, and the timestamp
    column numbered [timestampCount + i]. [<var>] is [data.variable_name]
    when that is truthy, and otherwise the name lowercased with its blanks
    replaced by underscores ([gridEntryReads]). The result holds these
    columns and the final [timestampCount], which the shared counters
    hold as well. *)
Theorem createGrid_columns doc subtestCounts dbUrl resultDocs views :
  getResults dbUrl (jsOr (Subtest.assessmentId doc) (Subtest.curriculumId doc))
    = Ok resultDocs ->
  Forall2 gridEntryReads (collectGridData resultDocs) views ->
  let gridData := collectGridData resultDocs in
  let first := timestampCount subtestCounts in
  createGrid doc subtestCounts dbUrl =
    Ok ({| GridResult.gridHeader :=
             concat
               (imap (fun i sv =>
                        let sub := fst sv in
                        let var := fst (snd sv) in
                        let labels := snd (snd sv) in
                        let suffix := occurrenceSuffix (gridCount subtestCounts + i) in
                        let id := toStr (Entry.subtestId sub) in
                        [ {| header := var +:+ "_auto_stop" +:+ suffix;
                             key := id +:+ "." +:+ var +:+ "_auto_stop" +:+ suffix |};
                          {| header := var +:+ "_time_remain" +:+ suffix;
                             key := id +:+ "." +:+ var +:+ "_time_remain" +:+ suffix |};
                          {| header := var +:+ "_capture_item_at_time" +:+ suffix;
                             key := id +:+ "." +:+ var +:+ "_capture_item_at_time"
                                      +:+ suffix |};
                          {| header := var +:+ "_attempted" +:+ suffix;
                             key := id +:+ "." +:+ var +:+ "_attempted" +:+ suffix |};
                          {| header := var +:+ "_time_intermediate_captured" +:+ suffix;
                             key := id +:+ "." +:+ var
                                      +:+ "_time_intermediate_captured" +:+ suffix |};
                          {| header := var +:+ "_time_allowed" +:+ suffix;
                             key := id +:+ "." +:+ var +:+ "_time_allowed" +:+ suffix |} ]
                        ++ map (fun label =>
                                  {| header := var +:+ "_" +:+ label +:+ suffix;
                                     key := id +:+ "." +:+ var +:+ "_" +:+ label
                                              +:+ suffix |})
                               labels
                        ++ [ {| header := "timestamp_" +:+ pretty (first + i);
                                key := id +:+ ".timestamp_" +:+ pretty (first + i) |} ])
                     (zip gridData views));
           GridResult.timestampCount := first + length gridData |},
        setTimestampCount (first + length gridData) subtestCounts).
Proof.
  intros Hres Hviews gridData first. subst gridData first.
  apply mapM_views in Hviews.
  unfold createGrid. rewrite Hres. cbn [bind].
  rewrite gridLoop_groups, Hviews. cbn [bind fst snd].
  cbn [timestampCount setTimestampCount].
  f_equal. f_equal. f_equal.
  unfold numberedGroups, gridGroups. rewrite imap_imap.
  reflexivity.
Qed.

(** ** Further properties of the loop over the subtests *)

Lemma countPrototype_cons p data rest :
  countPrototype p (data :: rest)
  = (if strictEqStr (Subtest.prototype data) p then 1 else 0)
    + countPrototype p rest.
Proof.
  unfold countPrototype. cbn [List.filter].
  now destruct (strictEqStr (Subtest.prototype data) p).
Qed.

(** What one iteration does to the eight prototype counters. *)
Lemma visitSubtest_counters dbUrl data a c a' c' :
  visitSubtest dbUrl data (a, c) = Ok (a', c') ->
  let bump p := if strictEqStr (Subtest.prototype data) p then 1 else 0 in
  locationCount c' = locationCount c + bump "location"
  /\ datetimeCount c' = datetimeCount c + bump "datetime"
  /\ consentCount c' = consentCount c + bump "consent"
  /\ idCount c' = idCount c + bump "id"
  /\ surveyCount c' = surveyCount c + bump "survey"
  /\ gpsCount c' = gpsCount c + bump "gps"
  /\ cameraCount c' = cameraCount c + bump "camera"
  /\ gridCount c' = (if (gridCount c =? 0)%nat then bump "grid" else gridCount c).
Proof.
  intros H bump. subst bump.
  destruct (prototype_cases data) as [(p & Hp & E)|U].
  - cbn in Hp.
    destruct Hp as [<-|[<-|[<-|[<-|[<-|[<-|[<-|[<-|[]]]]]]]]].
    + rewrite visitSubtest_location in H by assumption.
      destruct (createLocation data c); cbn [bind] in H; [|discriminate].
      inversion H; subst; rewrite E; cbn.
      destruct (gridCount c); cbn; repeat split; lia.
    + rewrite visitSubtest_datetime in H by assumption.
      inversion H; subst; rewrite E; cbn.
      destruct (gridCount c); cbn; repeat split; lia.
    + rewrite visitSubtest_consent in H by assumption.
      inversion H; subst; rewrite E; cbn.
      destruct (gridCount c); cbn; repeat split; lia.
    + rewrite visitSubtest_id in H by assumption.
      inversion H; subst; rewrite E; cbn.
      destruct (gridCount c); cbn; repeat split; lia.
    + rewrite visitSubtest_survey in H by assumption.
      destruct (createSurvey _ c dbUrl); cbn [bind] in H; [|discriminate].
      inversion H; subst; rewrite E; cbn.
      destruct (gridCount c); cbn; repeat split; lia.
    + destruct (Nat.eq_dec (gridCount c) 0) as [Z|NZ].
      * rewrite visitSubtest_first_grid in H by assumption.
        destruct (createGrid data c dbUrl) as [out|e] eqn:G; cbn [bind] in H;
          [|discriminate].
        destruct (createGrid_groups _ _ _ _ G) as (groups & ? & _ & _ & _ & _ & Hc).
        inversion H; subst. rewrite Hc, E, Z. cbn. repeat split; lia.
      * rewrite visitSubtest_later_grid in H by assumption. inversion H; subst.
        rewrite E. cbn. destruct (gridCount c'); [congruence|].
        cbn. repeat split; lia.
    + rewrite visitSubtest_gps in H by assumption.
      inversion H; subst; rewrite E; cbn.
      destruct (gridCount c); cbn; repeat split; lia.
    + rewrite visitSubtest_camera in H by assumption.
      inversion H; subst; rewrite E; cbn.
      destruct (gridCount c); cbn; repeat split; lia.
  - rewrite visitSubtest_unrecognised in H by assumption. inversion H; subst.
    assert (F : forall p, In p recognised ->
                  strictEqStr (Subtest.prototype data) p = false).
    { intros p Hp. destruct (strictEqStr (Subtest.prototype data) p) eqn:E; [|easy].
      apply strictEqStr_true in E. now apply U in Hp. }
    rewrite !F by (cbn; tauto).
    destruct (gridCount c'); cbn; repeat split; lia.
Qed.

Lemma visitSubtests_counters dbUrl subtestData : forall a c a' c',
  visitSubtests dbUrl subtestData (a, c) = Ok (a', c') ->
  locationCount c' = locationCount c + countPrototype "location" subtestData
  /\ datetimeCount c' = datetimeCount c + countPrototype "datetime" subtestData
  /\ consentCount c' = consentCount c + countPrototype "consent" subtestData
  /\ idCount c' = idCount c + countPrototype "id" subtestData
  /\ surveyCount c' = surveyCount c + countPrototype "survey" subtestData
  /\ gpsCount c' = gpsCount c + countPrototype "gps" subtestData
  /\ cameraCount c' = cameraCount c + countPrototype "camera" subtestData
  /\ gridCount c'
     = (if (gridCount c =? 0)%nat
        then Nat.min 1 (countPrototype "grid" subtestData)
        else gridCount c).
Proof.
  induction subtestData as [|data rest IH]; intros a c a' c' H; cbn in H.
  - inversion H; subst. cbn. destruct (gridCount c'); cbn; repeat split; lia.
  - destruct (visitSubtest dbUrl data (a, c)) as [[a1 c1]|e] eqn:E;
      cbn [bind] in H; [|discriminate].
    pose proof (visitSubtest_counters _ _ _ _ _ _ E) as S. cbn zeta in S.
    pose proof (IH _ _ _ _ H) as R.
    rewrite !countPrototype_cons.
    destruct S as (S1 & S2 & S3 & S4 & S5 & S6 & S7 & S8).
    destruct R as (R1 & R2 & R3 & R4 & R5 & R6 & R7 & R8).
    repeat split; try lia.
    rewrite R8, S8.
    destruct (gridCount c) as [|n]; cbn [Nat.eqb].
    + destruct (strictEqStr (Subtest.prototype data) "grid"); cbn; lia.
    + reflexivity.
Qed.

(** X1. When the loop over the subtests ends, each counter of a prototype
    holds the number of subtests of that prototype in the list, whatever
    stands between them; [gridCount] is 1 if the list has a grid subtest
    and 0 otherwise. *)
Theorem counters_count_occurrences dbUrl subtestData a a' c' :
  visitSubtests dbUrl subtestData (a, initialCounts) = Ok (a', c') ->
  locationCount c' = countPrototype "location" subtestData
  /\ datetimeCount c' = countPrototype "datetime" subtestData
  /\ consentCount c' = countPrototype "consent" subtestData
  /\ idCount c' = countPrototype "id" subtestData
  /\ surveyCount c' = countPrototype "survey" subtestData
  /\ gpsCount c' = countPrototype "gps" subtestData
  /\ cameraCount c' = countPrototype "camera" subtestData
  /\ gridCount c' = Nat.min 1 (countPrototype "grid" subtestData).
Proof. intros H. exact (visitSubtests_counters _ _ _ _ _ _ H). Qed.

(** X2. A subtest of a fixed-shape prototype (datetime, consent, id, gps,
    camera) that comes after the subtests [pre] gets the occurrence suffix
    of the number of subtests of its own prototype in [pre]: none for the
    first, [_1] for the second, and so on, whatever other prototypes
    stand in between. Its columns are keyed under [_id], those of a camera
    under [subtestId], and its timestamp column carries the current
    [timestampCount]. *)
Theorem repeated_subtest_suffix dbUrl pre data a a1 c1 :
  visitSubtests dbUrl pre (a, initialCounts) = Ok (a1, c1) ->
  let nth p := occurrenceSuffix (countPrototype p pre) in
  let id := Subtest._id data in
  let col h k := {| header := h; key := k |} in
  let pushes cols :=
    exists c2, visitSubtest dbUrl data (a1, c1) = Ok (a1 ++ cols, c2)
               /\ timestampCount c2 = S (timestampCount c1) in
  (Subtest.prototype data = JStr "datetime" ->
   pushes [ col ("year" +:+ nth "datetime") (id +:+ ".year" +:+ nth "datetime");
            col ("month" +:+ nth "datetime") (id +:+ ".month" +:+ nth "datetime");
            col ("day" +:+ nth "datetime") (id +:+ ".day" +:+ nth "datetime");
            col ("assess_time" +:+ nth "datetime")
                (id +:+ ".assess_time" +:+ nth "datetime");
            timestampColumn id (timestampCount c1) ])
  /\ (Subtest.prototype data = JStr "consent" ->
      pushes [ col ("consent" +:+ nth "consent") (id +:+ ".consent" +:+ nth "consent");
               timestampColumn id (timestampCount c1) ])
  /\ (Subtest.prototype data = JStr "id" ->
      pushes [ col ("id" +:+ nth "id") (id +:+ ".id" +:+ nth "id");
               timestampColumn id (timestampCount c1) ])
  /\ (Subtest.prototype data = JStr "gps" ->
      pushes [ col ("latitude" +:+ nth "gps") (id +:+ ".latitude" +:+ nth "gps");
               col ("longitude" +:+ nth "gps") (id +:+ ".longitude" +:+ nth "gps");
               col ("accuracy" +:+ nth "gps") (id +:+ ".accuracy" +:+ nth "gps");
               col ("altitude" +:+ nth "gps") (id +:+ ".altitude" +:+ nth "gps");
               col ("altitudeAccuracy" +:+ nth "gps")
                   (id +:+ ".altitudeAccuracy" +:+ nth "gps");
               col ("heading" +:+ nth "gps") (id +:+ ".heading" +:+ nth "gps");
               col ("speed" +:+ nth "gps") (id +:+ ".speed" +:+ nth "gps");
               timestampColumn id (timestampCount c1) ])
  /\ (Subtest.prototype data = JStr "camera" ->
      let varName := toStr (Subtest.variableName data) in
      let subtestId := toStr (Subtest.subtestId data) in
      pushes [ col (varName +:+ "_photo_captured" +:+ nth "camera")
                   (subtestId +:+ "." +:+ varName +:+ "_photo_captured"
                      +:+ nth "camera");
               col (varName +:+ "_photo_url" +:+ nth "camera")
                   (subtestId +:+ "." +:+ varName +:+ "_photo_url"
                      +:+ nth "camera");
               timestampColumn subtestId (timestampCount c1) ]).
Proof.
  intros V nth id col pushes. subst nth id col pushes.
  destruct (visitSubtests_counters _ _ _ _ _ _ V)
    as (_ & S2 & S3 & S4 & _ & S6 & S7 & _).
  cbn in S2, S3, S4, S6, S7.
  repeat split; intros E.
  - rewrite visitSubtest_datetime by assumption. eexists. split; [unfold createDatetime; now rewrite S2 | reflexivity].
  - rewrite visitSubtest_consent by assumption. eexists. split; [unfold createConsent; now rewrite S3 | reflexivity].
  - rewrite visitSubtest_id by assumption. eexists. split; [unfold createId; now rewrite S4 | reflexivity].
  - rewrite visitSubtest_gps by assumption. eexists. split; [unfold createGps; now rewrite S6 | reflexivity].
  - cbn zeta. rewrite visitSubtest_camera by assumption.
    eexists. split; [unfold createCamera; now rewrite S7 | reflexivity].
Qed.

Lemma isRecognised_false data :
  isRecognised data = false ->
  forall p, In p recognised -> Subtest.prototype data <> JStr p.
Proof.
  unfold isRecognised. intros H p Hp E.
  assert (T : existsb (strictEqStr (Subtest.prototype data)) recognised = true).
  { apply existsb_exists. exists p. split; [exact Hp|].
    rewrite E. cbn. apply String.eqb_refl. }
  congruence.
Qed.

(** X3. A subtest whose prototype is none of the eight known ones, is
    not a string or is missing, is passed over: it adds no column,
    touches no counter and raises nothing. The loop gives the same
    outcome, failures included, on the list with these subtests removed,
    and so does the builder. *)
Theorem unrecognised_subtests_skipped dbUrl subtestData :
  (forall data, isString (Subtest.prototype data) = false ->
                isRecognised data = false)
  /\ (forall data st, isRecognised data = false ->
                      visitSubtest dbUrl data st = Ok st)
  /\ (forall st,
        visitSubtests dbUrl subtestData st
        = visitSubtests dbUrl (List.filter isRecognised subtestData) st)
  /\ (forall docId count acc,
        processSubtests docId count dbUrl acc subtestData
        = processSubtests docId count dbUrl acc
            (List.filter isRecognised subtestData)).
Proof.
  assert (V : forall l st,
            visitSubtests dbUrl l st
            = visitSubtests dbUrl (List.filter isRecognised l) st).
  { induction l as [|data rest IH]; intros st; [reflexivity|].
    cbn [List.filter visitSubtests].
    destruct (isRecognised data) eqn:R; cbn [visitSubtests].
    - destruct (visitSubtest dbUrl data st); cbn [bind]; [apply IH | reflexivity].
    - rewrite visitSubtest_unrecognised by now apply isRecognised_false.
      cbn [bind]. apply IH. }
  repeat split.
  - intros data H. unfold isRecognised.
    destruct (Subtest.prototype data); try discriminate; reflexivity.
  - intros data st R. apply visitSubtest_unrecognised.
    now apply isRecognised_false.
  - apply V.
  - intros docId count acc. unfold processSubtests. now rewrite <- V.
Qed.

(** X4. The occurrence count reaches only the five leading columns and
    [end_time]: the columns of the subtests, and whether the build fails,
    are the same for every [count]. *)
Theorem count_reaches_only_assessment_columns docId dbUrl item subtestData :
  retrieveDoc dbUrl docId = Ok item ->
  getSubtests dbUrl docId = Ok subtestData ->
  forall count,
    createColumnHeaders docId count dbUrl =
      (st <- visitSubtests dbUrl subtestData ([], initialCounts) ;;
       Ok (leadingColumns item count ++ fst st ++ [endTimeColumn docId count])).
Proof.
  intros Hdoc Hsub count.
  rewrite (createColumnHeaders_leading _ _ _ _ Hdoc).
  unfold subtestColumns, processSubtests. rewrite Hsub. cbn [bind].
  destruct (visitSubtests dbUrl subtestData ([], initialCounts)); reflexivity.
Qed.

(** ** The timestamp counter against the other counters *)

Lemma visitSubtest_total dbUrl data a c a' c' :
  visitSubtest dbUrl data (a, c) = Ok (a', c') ->
  (Subtest.prototype data <> JStr "grid" \/ gridCount c <> 0 ->
   timestampCount c' + singleGroupTotal c = timestampCount c + singleGroupTotal c')
  /\ (Subtest.prototype data = JStr "grid" -> gridCount c = 0 ->
      forall resultDocs,
        getResults dbUrl (jsOr (Subtest.assessmentId data)
                               (Subtest.curriculumId data)) = Ok resultDocs ->
        singleGroupTotal c' = singleGroupTotal c
        /\ timestampCount c'
           = timestampCount c + length (collectGridData resultDocs)).
Proof.
  intros H. unfold singleGroupTotal.
  destruct (prototype_cases data) as [(p & Hp & E)|U].
  - cbn in Hp.
    destruct Hp as [<-|[<-|[<-|[<-|[<-|[<-|[<-|[<-|[]]]]]]]]].
    + rewrite visitSubtest_location in H by assumption.
      destruct (createLocation data c); cbn [bind] in H; [|discriminate].
      inversion H; subst. cbn. split; [lia | congruence].
    + rewrite visitSubtest_datetime in H by assumption.
      inversion H; subst. cbn. split; [lia | congruence].
    + rewrite visitSubtest_consent in H by assumption.
      inversion H; subst. cbn. split; [lia | congruence].
    + rewrite visitSubtest_id in H by assumption.
      inversion H; subst. cbn. split; [lia | congruence].
    + rewrite visitSubtest_survey in H by assumption.
      destruct (createSurvey _ c dbUrl); cbn [bind] in H; [|discriminate].
      inversion H; subst. cbn. split; [lia | congruence].
    + destruct (Nat.eq_dec (gridCount c) 0) as [Z|NZ].
      * rewrite visitSubtest_first_grid in H by assumption.
        destruct (createGrid data c dbUrl) as [out|e] eqn:G; cbn [bind] in H;
          [|discriminate].
        destruct (createGrid_groups _ _ _ _ G)
          as (groups & rs & Hr & Hl & _ & Ht & Hc).
        inversion H; subst. rewrite Hc, Ht. cbn. split.
        -- intros [N|N]; congruence.
        -- intros _ _ resultDocs R. rewrite Hr in R. injection R as <-.
           split; [reflexivity | lia].
      * rewrite visitSubtest_later_grid in H by assumption. inversion H; subst.
        split; [lia | congruence].
    + rewrite visitSubtest_gps in H by assumption.
      inversion H; subst. cbn. split; [lia | congruence].
    + rewrite visitSubtest_camera in H by assumption.
      inversion H; subst. cbn. split; [lia | congruence].
  - rewrite visitSubtest_unrecognised in H by assumption. inversion H; subst.
    split; [lia|]. intros E. exfalso. apply (U "grid"); [cbn; tauto | exact E].
Qed.

Lemma visitSubtests_total dbUrl subtestData : forall a c a' c',
  visitSubtests dbUrl subtestData (a, c) = Ok (a', c') ->
  Forall (fun d => Subtest.prototype d <> JStr "grid") subtestData
    \/ gridCount c <> 0 ->
  timestampCount c' + singleGroupTotal c = timestampCount c + singleGroupTotal c'.
Proof.
  induction subtestData as [|data rest IH]; intros a c a' c' H G; cbn in H.
  - inversion H; subst. lia.
  - destruct (visitSubtest dbUrl data (a, c)) as [[a1 c1]|e] eqn:E;
      cbn [bind] in H; [|discriminate].
    destruct (visitSubtest_total _ _ _ _ _ _ E) as (T & _).
    destruct (visitSubtest_gridCount _ _ _ _ _ _ E) as (_ & _ & M).
    assert (T1 : timestampCount c1 + singleGroupTotal c
                 = timestampCount c + singleGroupTotal c1).
    { apply T. destruct G as [F|N]; [left; now inversion F | now right]. }
    assert (T2 : timestampCount c' + singleGroupTotal c1
                 = timestampCount c1 + singleGroupTotal c').
    { apply (IH _ _ _ _ H). destruct G as [F|N]; [left; now inversion F | right; lia]. }
    lia.
Qed.

(** X5. When the loop over the subtests ends, [timestampCount] is the sum
    of the counters of location, datetime, consent, id, survey, gps and
    camera, plus the number of grid entries of the result documents of
    the first grid subtest, if the list has one. *)
Theorem timestampCount_is_total dbUrl subtestData a a' c' :
  visitSubtests dbUrl subtestData (a, initialCounts) = Ok (a', c') ->
  (Forall (fun d => Subtest.prototype d <> JStr "grid") subtestData ->
   timestampCount c' = singleGroupTotal c')
  /\ (forall pre g post resultDocs,
        subtestData = pre ++ g :: post ->
        Forall (fun d => Subtest.prototype d <> JStr "grid") pre ->
        Subtest.prototype g = JStr "grid" ->
        getResults dbUrl (jsOr (Subtest.assessmentId g) (Subtest.curriculumId g))
          = Ok resultDocs ->
        timestampCount c'
        = singleGroupTotal c' + length (collectGridData resultDocs)).
Proof.
  intros H. split.
  - intros F. pose proof (visitSubtests_total _ _ _ _ _ _ H (or_introl F)) as T.
    cbn in T. lia.
  - intros pre g post rs -> F Hg Hr.
    rewrite visitSubtests_app in H.
    destruct (visitSubtests dbUrl pre (a, initialCounts)) as [[a1 c1]|e] eqn:V1;
      cbn [bind visitSubtests] in H; [|discriminate].
    destruct (visitSubtest dbUrl g (a1, c1)) as [[a2 c2]|e] eqn:V2;
      cbn [bind] in H; [|discriminate].
    pose proof (visitSubtests_total _ _ _ _ _ _ V1 (or_introl F)) as T1.
    destruct (visitSubtests_gridCount _ _ _ _ _ _ V1) as (_ & Z & _).
    specialize (Z F). cbn in Z, T1.
    destruct (visitSubtest_total _ _ _ _ _ _ V2) as (_ & T2).
    destruct (T2 Hg Z _ Hr) as (T2a & T2b).
    destruct (visitSubtest_gridCount _ _ _ _ _ _ V2) as (NZ & _ & _).
    pose proof (visitSubtests_total _ _ _ _ _ _ H (or_intror (NZ Hg))) as T3.
    lia.
Qed.

Lemma collectGridData_no_grid resultDocs :
  Forall (fun item =>
            Forall (fun value => Entry.prototype value <> JStr "grid")
                   (ResultDoc.subtestData (ResultRow.doc item)))
         resultDocs ->
  collectGridData resultDocs = [].
Proof.
  unfold collectGridData. induction 1 as [|item rest Hi _ IH]; [reflexivity|].
  cbn [flat_map]. rewrite IH, app_nil_r.
  induction Hi as [|value l Hv _ IHl]; [reflexivity|].
  rewrite filter_cons. destruct (decide _) as [T|_]; [|exact IHl].
  apply strictEqStr_true in T. contradiction.
Qed.

(** X6. A grid subtest whose result documents hold no grid entry (for
    one, when there is no result document) adds no column and leaves
    [timestampCount] as it is, yet it sets [gridCount] to 1, so that the
    grid subtests after it are skipped as well. *)
Theorem grid_without_entries dbUrl g a c resultDocs :
  Subtest.prototype g = JStr "grid" ->
  gridCount c = 0 ->
  getResults dbUrl (jsOr (Subtest.assessmentId g) (Subtest.curriculumId g))
    = Ok resultDocs ->
  Forall (fun item =>
            Forall (fun value => Entry.prototype value <> JStr "grid")
                   (ResultDoc.subtestData (ResultRow.doc item)))
         resultDocs ->
  visitSubtest dbUrl g (a, c) = Ok (a, setGridCount 1 c)
  /\ forall g' a', Subtest.prototype g' = JStr "grid" ->
       visitSubtest dbUrl g' (a', setGridCount 1 c) = Ok (a', setGridCount 1 c).
Proof.
  intros Hg Z Hr F. split.
  - rewrite visitSubtest_first_grid by assumption.
    unfold createGrid. rewrite Hr. cbn [bind].
    rewrite (collectGridData_no_grid _ F). cbn. rewrite app_nil_r, Z.
    now destruct c.
  - intros g' a' Hg'. now apply visitSubtest_later_grid.
Qed.

(** ** The location generator *)

Lemma toLowerCase_not_string v :
  isString v = false -> exists msg, toLowerCase v = Err (TypeError msg).
Proof. destruct v; cbn; intros H; try discriminate; eauto. Qed.

Lemma createLocation_not_string doc c :
  Exists (fun label => isString label = false) (Subtest.levels doc) ->
  exists msg, createLocation doc c = Err (TypeError msg).
Proof.
  intros X. unfold createLocation.
  set (f := fun label : JsVal => _).
  assert (E : exists msg, mapM f (Subtest.levels doc) = Err (TypeError msg)).
  { induction (Subtest.levels doc) as [|label rest IH]; [inversion X|].
    cbn [mapM]. unfold f at 1.
    destruct (isString label) eqn:S.
    - destruct label; try discriminate. cbn [toLowerCase bind].
      inversion X as [? ? Hx|? ? Hx]; subst; [cbn in Hx; discriminate|].
      destruct (IH Hx) as (msg & ->). eauto.
    - destruct (toLowerCase_not_string _ S) as (msg & ->). eauto. }
  destruct E as (msg & ->). eauto.
Qed.

(** X7. [createLocation] yields, for string labels, one column per label
    in the order of [levels]: the header is the label as written, the key
    is what [toLowerCase] makes of the label, under the subtest's [_id],
    both with the suffix of [locationCount]; the timestamp column follows
    (alone, when there is no label). A label that is not a string makes
    it throw a TypeError, and the build of an assessment that reaches
    such a location subtest rejects with it. *)
Theorem createLocation_columns doc c :
  (forall names,
     Subtest.levels doc = map JStr names ->
     createLocation doc c =
       Ok (map (fun name =>
                  {| header := name +:+ occurrenceSuffix (locationCount c);
                     key := Subtest._id doc +:+ "." +:+ jsToLowerCase name
                              +:+ occurrenceSuffix (locationCount c) |})
               names
           ++ [timestampColumn (Subtest._id doc) (timestampCount c)]))
  /\ (Exists (fun label => isString label = false) (Subtest.levels doc) ->
      exists msg,
        createLocation doc c = Err (TypeError msg)
        /\ forall dbUrl docId count item pre post st,
             Subtest.prototype doc = JStr "location" ->
             retrieveDoc dbUrl docId = Ok item ->
             getSubtests dbUrl docId = Ok (pre ++ doc :: post) ->
             visitSubtests dbUrl pre (leadingColumns item count, initialCounts)
               = Ok (st, c) ->
             createColumnHeaders docId count dbUrl = Err (TypeError msg)).
Proof.
  split; [apply createLocation_strings|].
  intros X. destruct (createLocation_not_string doc c X) as (msg & E).
  exists msg. split; [exact E|].
  intros dbUrl docId count item pre post st P Hdoc Hsub V.
  unfold createColumnHeaders. rewrite Hdoc, Hsub. cbn [bind].
  unfold processSubtests. rewrite app_nil_l. fold (leadingColumns item count).
  rewrite visitSubtests_app, V. cbn [bind visitSubtests].
  rewrite visitSubtest_location by assumption. now rewrite E.
Qed.

(** ** Failures of the grid generator *)

Lemma mapM_Err_In {A B : Type} (f : A -> Result B) (l : list A) e :
  mapM f l = Err e -> exists x, In x l /\ f x = Err e.
Proof.
  induction l as [|x rest IH]; cbn [mapM]; intros E; [discriminate|].
  destruct (f x) as [y|e'] eqn:F; cbn [bind] in E.
  - destruct (mapM f rest) as [ys|e'] eqn:M; cbn [bind] in E; [discriminate|].
    injection E as ->. destruct (IH eq_refl) as (x' & Hin & Hx).
    exists x'. split; [now right | exact Hx].
  - injection E as ->. exists x. split; [now left | exact F].
Qed.

Lemma mapM_In_Err {A B : Type} (f : A -> Result B) (l : list A) x e :
  In x l -> f x = Err e -> exists e', mapM f l = Err e'.
Proof.
  induction l as [|y rest IH]; intros Hin F; [contradiction|].
  cbn [mapM]. destruct (f y) as [z|e'] eqn:Fy; cbn [bind]; [|eauto].
  destruct Hin as [->|Hin]; [congruence|].
  destruct (IH Hin F) as (e' & ->). cbn [bind]. eauto.
Qed.

Lemma toLowerCase_TypeError v e :
  toLowerCase v = Err e -> exists msg, e = TypeError msg.
Proof. destruct v; cbn; intros E; inversion E; eauto. Qed.

(** Whatever makes the loop of [createGrid] throw on an entry, it is a
    TypeError. *)
Lemma gridEntryView_TypeError sub e :
  gridEntryView sub = Err e -> exists msg, e = TypeError msg.
Proof.
  unfold gridEntryView, gridVariableName. intros E.
  destruct (Entry.data sub) as [data|]; cbn [propertyOf bind] in E;
    [|inversion E; eauto].
  destruct (truthy (GridData.variable_name data)); cbn [bind] in E.
  - destruct (GridData.items data) as [items|]; cbn [propertyOf bind] in E;
      [|inversion E; eauto].
    destruct (mapM _ items) as [labels|e'] eqn:M; cbn [bind] in E; [discriminate|].
    injection E as ->. apply mapM_Err_In in M. destruct M as ([item|] & _ & F);
      cbn [propertyOf bind] in F; inversion F; eauto.
  - destruct (toLowerCase (Entry.name sub)) as [lowered|e'] eqn:N; cbn [bind] in E.
    + destruct (GridData.items data) as [items|]; cbn [propertyOf bind] in E;
        [|inversion E; eauto].
      destruct (mapM _ items) as [labels|e''] eqn:M; cbn [bind] in E;
        [discriminate|].
      injection E as ->. apply mapM_Err_In in M.
      destruct M as ([item|] & _ & F); cbn [propertyOf bind] in F;
        inversion F; eauto.
    + injection E as ->. now apply toLowerCase_TypeError in N.
Qed.

Lemma gridEntryView_defective sub :
  defectiveEntry sub -> exists msg, gridEntryView sub = Err (TypeError msg).
Proof.
  intros D.
  assert (F : exists e, gridEntryView sub = Err e).
  { unfold gridEntryView, gridVariableName.
    destruct D as [D|(data & D & [[T N]|[I|(items & I & Hin)]])]; rewrite D;
      cbn [propertyOf bind]; [eauto | | |].
    - rewrite T. destruct (toLowerCase_not_string _ N) as (msg & ->). eauto.
    - destruct (if truthy _ then _ else _); cbn [bind]; [|eauto].
      rewrite I. cbn [propertyOf bind]. eauto.
    - destruct (if truthy _ then _ else _); cbn [bind]; [|eauto].
      rewrite I. cbn [propertyOf bind].
      destruct (mapM_In_Err
                  (fun item : option GridItem.t =>
                     item <- propertyOf item "itemLabel" ;;
                     Ok (toStr (GridItem.itemLabel item)))
                  items None _ Hin eq_refl) as (e' & ->).
      cbn [bind]. eauto. }
  destruct F as (e & F). destruct (gridEntryView_TypeError _ _ F) as (msg & ->).
  eauto.
Qed.

Lemma mapM_gridEntryView_defective gridData :
  Exists defectiveEntry gridData ->
  exists msg, mapM gridEntryView gridData = Err (TypeError msg).
Proof.
  induction 1 as [sub rest D|sub rest _ IH]; cbn [mapM].
  - destruct (gridEntryView_defective _ D) as (msg & ->). eauto.
  - destruct (gridEntryView sub) as [view|e] eqn:V; cbn [bind].
    + destruct IH as (msg & ->). eauto.
    + destruct (gridEntryView_TypeError _ _ V) as (msg & ->). eauto.
Qed.

(** X8. Once the result documents are retrieved, a single grid entry
    that lacks its [data], a printable variable name (a truthy
    [data.variable_name], or else a [name] that is a string), the [items]
    of its data or one of the items, in any result document, makes
    [createGrid] throw a TypeError, and with it the build of the
    assessment that holds the first grid subtest. *)
Theorem createGrid_defective_entry_throws doc c dbUrl resultDocs :
  getResults dbUrl (jsOr (Subtest.assessmentId doc) (Subtest.curriculumId doc))
    = Ok resultDocs ->
  Exists defectiveEntry (collectGridData resultDocs) ->
  exists msg,
    createGrid doc c dbUrl = Err (TypeError msg)
    /\ forall docId count item pre post st,
         Subtest.prototype doc = JStr "grid" ->
         gridCount c = 0 ->
         retrieveDoc dbUrl docId = Ok item ->
         getSubtests dbUrl docId = Ok (pre ++ doc :: post) ->
         visitSubtests dbUrl pre (leadingColumns item count, initialCounts)
           = Ok (st, c) ->
         createColumnHeaders docId count dbUrl = Err (TypeError msg).
Proof.
  intros Hr X.
  assert (G : createGrid doc c dbUrl =
              (out <- gridLoop (collectGridData resultDocs) [] c (gridCount c) ;;
               Ok ({| GridResult.gridHeader := fst out;
                      GridResult.timestampCount := timestampCount (snd out) |},
                   snd out))).
  { unfold createGrid. now rewrite Hr. }
  rewrite gridLoop_groups in G.
  destruct (mapM_gridEntryView_defective _ X) as (msg & Em).
  rewrite Em in G. cbn [bind] in G.
  exists msg. split; [exact G|].
  intros docId count item pre post st P Z Hdoc Hsub V.
  unfold createColumnHeaders. rewrite Hdoc, Hsub. cbn [bind].
  unfold processSubtests. rewrite app_nil_l. fold (leadingColumns item count).
  rewrite visitSubtests_app, V. cbn [bind visitSubtests].
  rewrite visitSubtest_first_grid by assumption. now rewrite G.
Qed.

Lemma sanitised_char (c : ascii) :
  let r := if isWhitespace (lowerAscii c) then "_"%char else lowerAscii c in
  isWhitespace r = false /\ isUpper r = false.
Proof.
  destruct c as [[] [] [] [] [] [] [] []]; vm_compute; split; reflexivity.
Qed.

Lemma sanitised_string (s : string) :
  String.length (replaceWhitespace (lowerString s)) = String.length s
  /\ Forall (fun ch => isWhitespace ch = false /\ isUpper ch = false)
            (stringChars (replaceWhitespace (lowerString s))).
Proof.
  induction s as [|c rest [IHl IHf]]; cbn [lowerString replaceWhitespace
    stringChars String.length].
  - split; [reflexivity | constructor].
  - split; [now rewrite IHl|]. constructor; [apply sanitised_char | exact IHf].
Qed.

Lemma isAscii_lowerAscii (c : ascii) :
  (nat_of_ascii (lowerAscii c) <? 128)%nat = (nat_of_ascii c <? 128)%nat.
Proof. destruct c as [[] [] [] [] [] [] [] []]; vm_compute; reflexivity. Qed.

Lemma isAscii_lowerString (s : string) : isAscii (lowerString s) = isAscii s.
Proof.
  induction s as [|c rest IH]; cbn [lowerString isAscii]; [reflexivity|].
  now rewrite isAscii_lowerAscii, IH.
Qed.

(** X9. The variable name that [createGrid] derives from the name of a
    grid entry (when [data.variable_name] is falsy), for a name of ASCII
    characters, has the length of the name and holds neither a capital
    letter nor one of the blanks tab, line feed, vertical tab, form feed,
    carriage return and space. *)
Theorem derived_variable_name_sanitised sub data name :
  truthy (GridData.variable_name data) = false ->
  Entry.name sub = JStr name ->
  isAscii name = true ->
  exists var,
    gridVariableName sub data = Ok var
    /\ String.length var = String.length name
    /\ Forall (fun ch => isWhitespace ch = false /\ isUpper ch = false)
              (stringChars var).
Proof.
  intros F N A. unfold gridVariableName. rewrite F, N. cbn [toLowerCase bind].
  rewrite (jsToLowerCase_ascii _ A).
  rewrite jsReplaceBlanks_ascii by now rewrite isAscii_lowerString.
  eexists. split; [reflexivity|]. apply sanitised_string.
Qed.

(** ** Further properties of the survey generator *)

Lemma questionColumns_length id suffix q :
  length (questionColumns id suffix q) = questionWidth q.
Proof.
  unfold questionColumns, questionWidth.
  destruct (length (Question.options q) <=? 2)%nat; [reflexivity|].
  now rewrite length_map, length_seq.
Qed.

(** X10. The columns [createSurvey] returns before the timestamp column
    are, up to their order, the columns of the questions as the store
    returned them: sorting loses no question and repeats none. Their
    number is the sum over the questions of 1, for at most two options,
    or of the number of options. Hence two stores that return the same
    questions in different orders yield the same columns up to order. *)
Theorem createSurvey_same_columns dbUrl id subtestCounts questions :
  getQuestionBySubtestId dbUrl id = Ok questions ->
  let suffix := occurrenceSuffix (surveyCount subtestCounts) in
  exists cols,
    createSurvey id subtestCounts dbUrl
      = Ok (cols ++ [timestampColumn id (timestampCount subtestCounts)])
    /\ Permutation cols (flat_map (questionColumns id suffix) questions)
    /\ length cols = list_sum (map questionWidth questions)
    /\ forall dbUrl' questions',
         getQuestionBySubtestId dbUrl' id = Ok questions' ->
         Permutation questions questions' ->
         exists cols',
           createSurvey id subtestCounts dbUrl'
             = Ok (cols' ++ [timestampColumn id (timestampCount subtestCounts)])
           /\ Permutation cols cols'.
Proof.
  intros Hq suffix.
  rewrite (createSurvey_columns _ _ _ _ Hq). fold suffix.
  eexists. split; [reflexivity|].
  assert (P : forall qs,
            Permutation
              (flat_map (questionColumns id suffix)
                 (sortBy qs [property id; property "order"]))
              (flat_map (questionColumns id suffix) qs)).
  { intros qs. apply Permutation_flat_map. apply sortBy_Permutation. }
  split; [apply P|]. split.
  - rewrite (Permutation_length (P questions)), length_flat_map.
    f_equal. apply map_ext. intros q. apply questionColumns_length.
  - intros dbUrl' questions' Hq' Pq.
    rewrite (createSurvey_columns _ _ _ _ Hq'). fold suffix.
    eexists. split; [reflexivity|].
    rewrite (P questions), (P questions'). now apply Permutation_flat_map.
Qed.

(** X11. A question with at most two options (none included) gets
    exactly one column, named after the question with the suffix of
    [surveyCount] and keyed [<subtestId>.<name><suffix>]: what
    [createSurvey] returns is, for some order of the questions, the columns
    of the questions before it, that one column, the columns of the
    questions after it, and the timestamp column. When no question has
    more than two options the output is one such column per question and
    the timestamp column; a survey without questions gets the timestamp
    column alone. *)
Theorem survey_single_column dbUrl id subtestCounts questions :
  getQuestionBySubtestId dbUrl id = Ok questions ->
  let suffix := occurrenceSuffix (surveyCount subtestCounts) in
  let single q :=
    {| header := toStr (Question.name q) +:+ suffix;
       key := id +:+ "." +:+ toStr (Question.name q) +:+ suffix |} in
  let timestamp := timestampColumn id (timestampCount subtestCounts) in
  (forall q, In q questions -> length (Question.options q) <= 2 ->
     exists before after,
       Permutation (before ++ q :: after) questions
       /\ createSurvey id subtestCounts dbUrl
          = Ok (flat_map (questionColumns id suffix) before
                ++ [single q]
                ++ flat_map (questionColumns id suffix) after
                ++ [timestamp]))
  /\ (Forall (fun q => length (Question.options q) <= 2) questions ->
      exists sortedDoc,
        Permutation sortedDoc questions
        /\ createSurvey id subtestCounts dbUrl
           = Ok (map single sortedDoc ++ [timestamp])
        /\ length (map single sortedDoc ++ [timestamp]) = S (length questions))
  /\ (questions = [] -> createSurvey id subtestCounts dbUrl = Ok [timestamp]).
Proof.
  intros Hq suffix single timestamp.
  rewrite (createSurvey_columns _ _ _ _ Hq). fold suffix. fold timestamp.
  assert (One : forall q, length (Question.options q) <= 2 ->
                  questionColumns id suffix q = [single q]).
  { intros q Hlen. unfold questionColumns.
    destruct (Nat.leb_spec (length (Question.options q)) 2) as [_|L]; [|lia].
    reflexivity. }
  split; [|split].
  - intros q Hin Hlen.
    assert (Hs : In q (sortBy questions [property id; property "order"])).
    { eapply Permutation_in; [symmetry; apply sortBy_Permutation | exact Hin]. }
    apply in_split in Hs. destruct Hs as (l1 & l2 & E).
    exists l1, l2. split.
    + rewrite <- E. apply sortBy_Permutation.
    + rewrite E, flat_map_app. cbn [flat_map]. rewrite (One q Hlen).
      now rewrite <- !app_assoc.
  - intros F. exists (sortBy questions [property id; property "order"]).
    pose proof (sortBy_Permutation questions [property id; property "order"]) as P.
    split; [exact P|]. split.
    + do 2 f_equal.
      assert (F' : Forall (fun q => length (Question.options q) <= 2)
                          (sortBy questions [property id; property "order"])).
      { apply Forall_forall. intros q Hq'. rewrite Forall_forall in F.
        apply F. apply list_elem_of_In. eapply Permutation_in; [exact P|].
        now apply list_elem_of_In. }
      clear P. induction F' as [|q l Hlen _ IH]; [reflexivity|].
      cbn [flat_map map]. rewrite (One q Hlen), IH. reflexivity.
    + rewrite length_app, length_map.
      rewrite (Permutation_length
                 (sortBy_Permutation questions [property id; property "order"])).
      cbn. lia.
  - intros ->. reflexivity.
Qed.

(** X12. For a subtest whose id holds no dot and no bracket and names no
    property of its questions, the [order] of every question being a
    number, [createSurvey] lays the questions out in ascending [order],
    the questions of equal [order] in the order of the store, none lost
    and none repeated. *)
Theorem createSurvey_sorted_by_order dbUrl id subtestCounts questions :
  getQuestionBySubtestId dbUrl id = Ok questions ->
  isPlainPath id = true ->
  Forall (plainQuestion id) questions ->
  exists sortedDoc,
    createSurvey id subtestCounts dbUrl
    = Ok (flat_map (questionColumns id (occurrenceSuffix (surveyCount subtestCounts)))
                   sortedDoc
          ++ [timestampColumn id (timestampCount subtestCounts)])
    /\ Permutation sortedDoc questions
    /\ StronglySorted (fun a b => (orderNumber a <= orderNumber b)%Z) sortedDoc
    /\ forall z,
         filter (fun q => orderNumber q = z) sortedDoc
         = filter (fun q => orderNumber q = z) questions.
Proof.
  intros Hq Hid F. rewrite (createSurvey_columns _ _ _ _ Hq).
  eexists. split; [reflexivity|]. now apply sortBy_order_stable.
Qed.

(** ** Saving the headers of every assessment *)

Section SavingProperties.
Context {DB : Type}.
Variable saveHeaders : list Column -> string -> DB -> Result JsVal * DB.

Lemma saveHeadersLoop_app base_db pre : forall post response result_db,
  saveHeadersLoop saveHeaders base_db (pre ++ post) response result_db =
    match saveHeadersLoop saveHeaders base_db pre response result_db with
    | (Ok response, result_db) =>
        saveHeadersLoop saveHeaders base_db post response result_db
    | (Err e, result_db) => (Err e, result_db)
    end.
Proof.
  induction pre as [|item rest IH]; intros post response result_db;
    [reflexivity|].
  cbn [app saveHeadersLoop].
  destruct (createColumnHeaders _ 0 base_db) as [headers|e]; [|reflexivity].
  destruct (saveHeaders headers _ result_db) as [[r|e] db']; [|reflexivity].
  apply IH.
Qed.

(** X13. [generateAssessmentHeaders] goes through the assessments in
    order and stops at the first one whose headers cannot be built or
    saved: it then throws that failure, the assessments after it are not
    looked at, and what was saved for the assessments before it stays
    saved. When the build fails nothing is saved for that assessment.
    [generateworkflowHeaders] is the same function. *)
Theorem generateAssessmentHeaders_stops_at_first_failure
    base_db pre item post result_db response saved :
  generateAssessmentHeaders saveHeaders base_db pre result_db
    = (Ok response, saved) ->
  let assessmentId := AssessmentDoc.assessmentId (AssessmentRow.doc item) in
  (forall e,
     createColumnHeaders assessmentId 0 base_db = Err e ->
     generateAssessmentHeaders saveHeaders base_db (pre ++ item :: post) result_db
       = (Err e, saved))
  /\ (forall headers e saved',
        createColumnHeaders assessmentId 0 base_db = Ok headers ->
        saveHeaders headers assessmentId saved = (Err e, saved') ->
        generateAssessmentHeaders saveHeaders base_db (pre ++ item :: post)
          result_db = (Err e, saved'))
  /\ generateworkflowHeaders saveHeaders base_db (pre ++ item :: post) result_db
     = generateAssessmentHeaders saveHeaders base_db (pre ++ item :: post)
         result_db.
Proof.
  intros Hpre assessmentId. subst assessmentId.
  unfold generateAssessmentHeaders, generateworkflowHeaders in *.
  split; [|split].
  - intros e He. rewrite saveHeadersLoop_app, Hpre. cbn [saveHeadersLoop].
    now rewrite He.
  - intros headers e saved' Hh Hs.
    rewrite saveHeadersLoop_app, Hpre. cbn [saveHeadersLoop].
    now rewrite Hh, Hs.
  - reflexivity.
Qed.

(** X14. When the headers of every assessment can be built, and the
    result database accepts every save, [generateAssessmentHeaders] saves
    one header document per assessment, in the order of the list, each
    under the [assessmentId] of its assessment and built with count 0. It
    returns the response of the last save, and [undefined] when there is
    no assessment. *)
Theorem generateAssessmentHeaders_saves_each
    base_db data result_db (headers : list (list Column)) :
  (forall h id db, exists r, fst (saveHeaders h id db) = Ok r) ->
  Forall2 (fun item h =>
             createColumnHeaders
               (AssessmentDoc.assessmentId (AssessmentRow.doc item)) 0 base_db
             = Ok h)
          data headers ->
  let save db (ih : AssessmentRow.t * list Column) :=
    saveHeaders (snd ih)
      (AssessmentDoc.assessmentId (AssessmentRow.doc (fst ih))) db in
  let saved := fold_left (fun db ih => snd (save db ih)) (zip data headers) result_db in
  exists response,
    generateAssessmentHeaders saveHeaders base_db data result_db
      = (Ok response, saved)
    /\ (data = [] -> response = JUndefined)
    /\ (forall pre item h,
          zip data headers = pre ++ [(item, h)] ->
          fst (save (fold_left (fun db ih => snd (save db ih)) pre result_db)
                    (item, h))
          = Ok response).
Proof.
  intros Hsave F save saved. subst saved. unfold generateAssessmentHeaders.
  generalize JUndefined as r0. revert result_db.
  induction F as [|item h data headers Hh F IH]; intros result_db r0.
  - exists r0. cbn. repeat split; auto.
    intros pre item h E. destruct pre; discriminate E.
  - cbn [saveHeadersLoop zip zip_with fold_left]. rewrite Hh.
    destruct (Hsave h (AssessmentDoc.assessmentId (AssessmentRow.doc item))
                result_db) as (r & Hr).
    unfold save at 1 2. cbn [fst snd].
    destruct (saveHeaders h _ result_db) as [res db'] eqn:S.
    cbn [fst] in Hr. subst res. cbn [snd].
    destruct (IH db' r) as (response & E & Hnil & Hlast).
    exists response. split; [exact E|]. split; [discriminate|].
    intros pre item' h' Z.
    destruct pre as [|p pre'].
    + cbn in Z. injection Z as -> -> Z0.
      assert (data = []).
      { destruct F; [reflexivity | discriminate Z0]. }
      subst data. cbn [fold_left]. unfold save. cbn [fst snd]. rewrite S.
      cbn [fst]. f_equal. symmetry. inversion F; subst. cbn in E.
      now injection E.
    + cbn in Z. injection Z as <- Z0. cbn [fold_left].
      unfold save at 3. cbn [fst snd]. rewrite S. cbn [snd].
      now apply Hlast.
Qed.
End SavingProperties.

(** X15. [generateAll] answers with the error when the assessments
    cannot be listed, and then saves nothing. When the headers of an
    assessment cannot be built it answers with that error too, although
    the headers of the assessments before it have been saved and stay so.
    [generateHeader] saves nothing when the headers cannot be built, and
    answers with the response of the save otherwise. *)
Theorem handlers_answer_with_the_failure {DB : Type}
    (getAllAssessment : Result (list AssessmentRow.t))
    (saveHeaders : list Column -> string -> DB -> Result JsVal * DB)
    (dbUrl : Store) (resultDbUrl : DB) :
  (forall e,
     getAllAssessment = Err e ->
     generateAll getAllAssessment saveHeaders dbUrl resultDbUrl
       = (SendError e, resultDbUrl))
  /\ (forall pre item post response saved e,
        getAllAssessment = Ok (pre ++ item :: post) ->
        generateAssessmentHeaders saveHeaders dbUrl pre resultDbUrl
          = (Ok response, saved) ->
        createColumnHeaders
          (AssessmentDoc.assessmentId (AssessmentRow.doc item)) 0 dbUrl = Err e ->
        generateAll getAllAssessment saveHeaders dbUrl resultDbUrl
          = (SendError e, saved))
  /\ (forall data response saved,
        getAllAssessment = Ok data ->
        generateAssessmentHeaders saveHeaders dbUrl data resultDbUrl
          = (Ok response, saved) ->
        generateAll getAllAssessment saveHeaders dbUrl resultDbUrl
          = (Json response, saved))
  /\ (forall assessmentId e,
        createColumnHeaders assessmentId 0 dbUrl = Err e ->
        generateHeader saveHeaders assessmentId dbUrl resultDbUrl
          = (SendError e, resultDbUrl))
  /\ (forall assessmentId colHeaders saveResponse saved,
        createColumnHeaders assessmentId 0 dbUrl = Ok colHeaders ->
        saveHeaders colHeaders assessmentId resultDbUrl = (Ok saveResponse, saved) ->
        generateHeader saveHeaders assessmentId dbUrl resultDbUrl
          = (Json saveResponse, saved)).
Proof.
  unfold generateAll, generateHeader, generateAssessmentHeaders.
  split; [|split; [|split; [|split]]].
  - intros e ->. reflexivity.
  - intros pre item post response saved e -> Hpre He.
    rewrite saveHeadersLoop_app, Hpre. cbn [saveHeadersLoop]. now rewrite He.
  - intros data response saved -> H. now rewrite H.
  - intros assessmentId e ->. reflexivity.
  - intros assessmentId colHeaders saveResponse saved -> ->. reflexivity.
Qed.

(** ** Subtests added at the end *)

(** X16. The columns of the subtests of a list are not changed by the
    subtests that come after them: when the loop succeeds on [pre ++ post]
    it succeeds on [pre], and the columns for [pre ++ post] are those for
    [pre] followed by further columns. So is the output of the builder,
    up to its last column [end_time]. *)
Theorem later_subtests_only_append dbUrl pre post a a' c' :
  visitSubtests dbUrl (pre ++ post) (a, initialCounts) = Ok (a', c') ->
  exists a1 c1 more,
    visitSubtests dbUrl pre (a, initialCounts) = Ok (a1, c1)
    /\ a' = a1 ++ more
    /\ visitSubtests dbUrl post ([], c1) = Ok (more, c')
    /\ forall docId count,
         processSubtests docId count dbUrl a (pre ++ post)
           = Ok (a1 ++ more ++ [endTimeColumn docId count])
         /\ processSubtests docId count dbUrl a pre
            = Ok (a1 ++ [endTimeColumn docId count]).
Proof.
  intros H. pose proof H as H0. rewrite visitSubtests_app in H.
  destruct (visitSubtests dbUrl pre (a, initialCounts)) as [[a1 c1]|e] eqn:V;
    cbn [bind] in H; [|discriminate].
  rewrite <- (app_nil_r a1) in H. rewrite visitSubtests_prepend in H.
  destruct (visitSubtests dbUrl post ([], c1)) as [[more c2]|e] eqn:W;
    cbn in H; [|discriminate].
  injection H as <- <-.
  exists a1, c1, more.
  split; [reflexivity|]. split; [reflexivity|]. split; [exact W|].
  intros docId count. unfold processSubtests. cbn zeta. rewrite H0, V. cbn.
  split; [now rewrite <- app_assoc | reflexivity].
Qed.

End Model.

(** ** The scenarios

    The documents of the scenarios hold ASCII strings only; the
    properties above are applied to them with the methods of
    [asciiBuiltins]. *)

#[local] Existing Instance asciiBuiltins.

Lemma gps_scenario_count_0_witness :
  createColumnHeaders "a1" 0 (scenarioStore (JStr "a1")) =
    Ok [ {| header := "assessment_id"; key := "a1.assessmentId" |};
         {| header := "assessment_name"; key := "a1.assessmentName" |};
         {| header := "enumerator"; key := "a1.enumerator" |};
         {| header := "start_time"; key := "a1.start_time" |};
         {| header := "order_map"; key := "a1.order_map" |};
         {| header := "latitude"; key := "s1.latitude" |};
         {| header := "longitude"; key := "s1.longitude" |};
         {| header := "accuracy"; key := "s1.accuracy" |};
         {| header := "altitude"; key := "s1.altitude" |};
         {| header := "altitudeAccuracy"; key := "s1.altitudeAccuracy" |};
         {| header := "heading"; key := "s1.heading" |};
         {| header := "speed"; key := "s1.speed" |};
         {| header := "timestamp_0"; key := "s1.timestamp_0" |};
         {| header := "end_time"; key := "a1.end_time" |} ].
Proof.
  apply (gps_scenario_count_0 (scenarioStore (JStr "a1")) gpsSubtest);
    reflexivity.
Defined.

(** C3, as stated, fails: with count 2 the seven gps columns of the
    scenario carry no [_2]. The suffix of a subtest's columns comes from
    the subtest counter ([gpsCount], here 0), not from [count]. *)
Lemma gps_scenario_count_2_not_all_suffixed :
  exists cols,
    createColumnHeaders "a1" 2 (scenarioStore (JStr "a1")) = Ok cols
    /\ ~ Forall (fun c => c = timestampColumn "s1" 0
                          \/ carriesSuffix "_2" c = true) cols.
Proof.
  eexists. split; [vm_compute; reflexivity|].
  intros F. rewrite Forall_forall in F.
  destruct (F {| header := "latitude"; key := "s1.latitude" |}) as [E|E].
  - apply list_elem_of_In. do 5 right. left. reflexivity.
  - discriminate E.
  - vm_compute in E. discriminate E.
Qed.

Lemma gps_scenario_count_2_witness :
  createColumnHeaders "a1" 2 (scenarioStore (JStr "a1")) =
    Ok [ {| header := "assessment_id_2"; key := "a1.assessmentId_2" |};
         {| header := "assessment_name_2"; key := "a1.assessmentName_2" |};
         {| header := "enumerator_2"; key := "a1.enumerator_2" |};
         {| header := "start_time_2"; key := "a1.start_time_2" |};
         {| header := "order_map_2"; key := "a1.order_map_2" |};
         {| header := "latitude"; key := "s1.latitude" |};
         {| header := "longitude"; key := "s1.longitude" |};
         {| header := "accuracy"; key := "s1.accuracy" |};
         {| header := "altitude"; key := "s1.altitude" |};
         {| header := "altitudeAccuracy"; key := "s1.altitudeAccuracy" |};
         {| header := "heading"; key := "s1.heading" |};
         {| header := "speed"; key := "s1.speed" |};
         {| header := "timestamp_0"; key := "s1.timestamp_0" |};
         {| header := "end_time_2"; key := "a1.end_time_2" |} ].
Proof.
  apply (gps_scenario_count_2 (scenarioStore (JStr "a1")) gpsSubtest);
    reflexivity.
Defined.

(** C7, as stated, fails: a document whose [assessmentId] is the empty
    string has the property, and gets no leading block. *)
Lemma empty_assessmentId_no_leading_block :
  retrieveDoc (scenarioStore (JStr "")) "a1"
    = Ok {| Assessment.assessmentId := JStr "" |}
  /\ hasAssessmentId {| Assessment.assessmentId := JStr "" |}
  /\ ~ leadingBlockPresent "a1" 0 (scenarioStore (JStr ""))
         {| Assessment.assessmentId := JStr "" |}.
Proof.
  split; [reflexivity|]. split; [discriminate|].
  intros (rest & Hrest & Hall).
  vm_compute in Hrest. injection Hrest as <-.
  vm_compute in Hall. discriminate Hall.
Qed.

Lemma leading_block_iff_truthy_witness :
  createColumnHeaders "a1" 2 (scenarioStore (JStr "a1")) =
    (rest <- subtestColumns "a1" 2 (scenarioStore (JStr "a1")) ;;
     Ok ((if truthy (JStr "a1") then assessmentColumns (JStr "a1") 2 else [])
           ++ rest))
  /\ (forall cols,
        createColumnHeaders "a1" 2 (scenarioStore (JStr "a1")) = Ok cols ->
        (leadingBlockPresent "a1" 2 (scenarioStore (JStr "a1"))
           {| Assessment.assessmentId := JStr "a1" |}
         <-> truthy (JStr "a1") = true)).
Proof.
  apply (leading_block_iff_truthy "a1" 2 (scenarioStore (JStr "a1"))
           {| Assessment.assessmentId := JStr "a1" |}).
  reflexivity.
Defined.

Lemma falsy_assessmentId_as_absent_witness :
  createColumnHeaders "a1" 0 (scenarioStore (JStr ""))
    = subtestColumns "a1" 0 (scenarioStore (JStr ""))
  /\ createColumnHeaders "a1" 0 (scenarioStore (JStr ""))
     = createColumnHeaders "a1" 0 (withoutAssessmentId (scenarioStore (JStr ""))).
Proof.
  apply (falsy_assessmentId_as_absent "a1" 0 (scenarioStore (JStr ""))
           {| Assessment.assessmentId := JStr "" |}); reflexivity.
Defined.

Lemma timestamp_columns_numbered_witness :
  exists item subtestData per,
    retrieveDoc gridStore "a2" = Ok item
    /\ getSubtests gridStore "a2" = Ok subtestData
    /\ length per = length subtestData
    /\ gridStoreHeaders
       = leadingColumns item 0
         ++ numberedGroups 0 (concat per) ++ [endTimeColumn "a2" 0]
    /\ (forall k data, subtestData !! k = Some data ->
          exists counts groups,
            visitSubtests gridStore (take k subtestData)
              (leadingColumns item 0, initialCounts)
            = Ok (leadingColumns item 0
                    ++ numberedGroups 0 (concat (take k per)), counts)
            /\ timestampCount counts = length (concat (take k per))
            /\ per !! k = Some groups
            /\ subtestGroups gridStore counts data groups)
    /\ (exists counts,
          visitSubtests gridStore subtestData (leadingColumns item 0, initialCounts)
          = Ok (leadingColumns item 0 ++ numberedGroups 0 (concat per), counts)
          /\ timestampCount counts = length (concat per))
    /\ Forall (fun t => In t gridStoreHeaders) (timestampColumns 0 (concat per))
    /\ map header (timestampColumns 0 (concat per))
       = map (fun i => header (timestampColumn "" i))
             (seq 0 (length (concat per)))
    /\ NoDup (map header (timestampColumns 0 (concat per))).
Proof.
  apply (timestamp_columns_numbered "a2" 0 gridStore).
  reflexivity.
Defined.

Lemma only_first_grid_generates_witness :
  visitSubtests gridStore ([gridSubtest "g1"] ++ gridSubtest "g2" :: [gpsSubtest])
    ([], initialCounts)
  = visitSubtests gridStore ([gridSubtest "g1"] ++ [gpsSubtest]) ([], initialCounts).
Proof.
  destruct (only_first_grid_generates gridStore [gridSubtest "g1"]
              (gridSubtest "g2") [gpsSubtest] [] eq_refl) as [_ H].
  apply H. constructor. reflexivity.
Defined.

Lemma store_failure_propagates_witness :
  createColumnHeaders "a1" 0 (failingStore notFound) = Err notFound
  /\ createColumnHeaders "a2" 0 (withFailingLookups notFound gridStore)
     = Err notFound
  /\ createColumnHeaders "a3" 0 (withFailingLookups notFound (surveyStore "s1"))
     = Err notFound.
Proof.
  split; [|split].
  - apply (store_failure_propagates "a1" 0 (failingStore notFound) notFound).
    reflexivity.
  - eapply (store_failure_propagates "a2" 0
              (withFailingLookups notFound gridStore) notFound)
      with (pre := []) (data := gridSubtest "g1");
      [reflexivity | reflexivity | reflexivity |].
    right. repeat split.
  - eapply (store_failure_propagates "a3" 0
              (withFailingLookups notFound (surveyStore "s1")) notFound)
      with (pre := []) (data := surveySubtest "s1");
      [reflexivity | reflexivity | reflexivity |].
    left. repeat split.
Defined.


(** C5, as stated, fails: the entry [lettersEntry] has a [variable_name],
    the empty string, and its columns are named after its name all the
    same. Besides, the item column of the second entry is [words_cat_1],
    occurrence suffix included, and not [words_cat]. *)
Lemma present_empty_variable_name_not_used :
  Entry.data lettersEntry = Some lettersData
  /\ GridData.variable_name lettersData = JStr ""
  /\ gridVariableNameAsStated lettersEntry lettersData = Ok ""
  /\ gridVariableName lettersEntry lettersData = Ok "letter_sound"
  /\ exists out,
       createGrid (gridSubtest "g1") initialCounts gridStore = Ok out
       /\ head (GridResult.gridHeader (fst out))
          = Some {| header := "letter_sound_auto_stop";
                    key := "g1.letter_sound_auto_stop" |}
       /\ GridResult.gridHeader (fst out)
          <> numberedGroups 0
               (gridGroups 0 (collectGridData gridResults)
                  [("", ["a"; "b"]); ("words", ["cat"])])
       /\ In {| header := "words_cat_1"; key := "g2.words_cat_1" |}
             (GridResult.gridHeader (fst out))
       /\ ~ In {| header := "words_cat"; key := "g2.words_cat" |}
               (GridResult.gridHeader (fst out)).
Proof.
  repeat split; try reflexivity.
  eexists. split; [vm_compute; reflexivity|].
  split; [reflexivity|].
  split; [vm_compute; discriminate|].
  split.
  - vm_compute. do 15 right. left. reflexivity.
  - vm_compute. intros H.
    repeat (destruct H as [H|H]; [discriminate H|]). exact H.
Qed.

Lemma createGrid_columns_witness :
  createGrid (gridSubtest "g1") initialCounts gridStore =
    Ok ({| GridResult.gridHeader :=
             [ {| header := "letter_sound_auto_stop";
                  key := "g1.letter_sound_auto_stop" |};
               {| header := "letter_sound_time_remain";
                  key := "g1.letter_sound_time_remain" |};
               {| header := "letter_sound_capture_item_at_time";
                  key := "g1.letter_sound_capture_item_at_time" |};
               {| header := "letter_sound_attempted";
                  key := "g1.letter_sound_attempted" |};
               {| header := "letter_sound_time_intermediate_captured";
                  key := "g1.letter_sound_time_intermediate_captured" |};
               {| header := "letter_sound_time_allowed";
                  key := "g1.letter_sound_time_allowed" |};
               {| header := "letter_sound_a"; key := "g1.letter_sound_a" |};
               {| header := "letter_sound_b"; key := "g1.letter_sound_b" |};
               {| header := "timestamp_0"; key := "g1.timestamp_0" |};
               {| header := "words_auto_stop_1"; key := "g2.words_auto_stop_1" |};
               {| header := "words_time_remain_1";
                  key := "g2.words_time_remain_1" |};
               {| header := "words_capture_item_at_time_1";
                  key := "g2.words_capture_item_at_time_1" |};
               {| header := "words_attempted_1"; key := "g2.words_attempted_1" |};
               {| header := "words_time_intermediate_captured_1";
                  key := "g2.words_time_intermediate_captured_1" |};
               {| header := "words_time_allowed_1";
                  key := "g2.words_time_allowed_1" |};
               {| header := "words_cat_1"; key := "g2.words_cat_1" |};
               {| header := "timestamp_1"; key := "g2.timestamp_1" |} ];
           GridResult.timestampCount := 2 |},
        setTimestampCount 2 initialCounts).
Proof.
  apply (createGrid_columns (gridSubtest "g1") initialCounts gridStore
           gridResults [("letter_sound", ["a"; "b"]); ("words", ["cat"])] eq_refl).
  constructor; [|constructor; [|constructor]].
  - exists lettersData, [ {| GridItem.itemLabel := JStr "a" |};
                          {| GridItem.itemLabel := JStr "b" |} ].
    split; [reflexivity|]. split; [reflexivity|]. split; [reflexivity|].
    right. split; [reflexivity|]. exists "Letter Sound". split; reflexivity.
  - exists {| GridData.variable_name := JStr "words";
              GridData.items :=
                Some [ Some {| GridItem.itemLabel := JStr "cat" |} ] |},
           [ {| GridItem.itemLabel := JStr "cat" |} ].
    split; [reflexivity|]. split; [reflexivity|]. split; [reflexivity|].
    left. split; reflexivity.
Defined.

Lemma counters_count_occurrences_witness :
  exists a' c',
    visitSubtests gridStore
      [gpsSubtest; gridSubtest "g1"; gpsSubtest; gridSubtest "g2";
       otherSubtest JNull "u1"; surveySubtest "s2"] ([], initialCounts)
    = Ok (a', c')
    /\ locationCount c' = 0 /\ datetimeCount c' = 0 /\ consentCount c' = 0
    /\ idCount c' = 0 /\ surveyCount c' = 1 /\ gpsCount c' = 2
    /\ cameraCount c' = 0 /\ gridCount c' = 1.
Proof.
  eexists _, _. split; [vm_compute; reflexivity|].
  eapply (counters_count_occurrences gridStore
           [gpsSubtest; gridSubtest "g1"; gpsSubtest; gridSubtest "g2";
            otherSubtest JNull "u1"; surveySubtest "s2"] []).
  vm_compute. reflexivity.
Defined.

Lemma repeated_subtest_suffix_witness :
  exists c2,
    visitSubtest gridStore gpsSubtest
      ([ {| header := "latitude"; key := "s1.latitude" |};
         {| header := "longitude"; key := "s1.longitude" |};
         {| header := "accuracy"; key := "s1.accuracy" |};
         {| header := "altitude"; key := "s1.altitude" |};
         {| header := "altitudeAccuracy"; key := "s1.altitudeAccuracy" |};
         {| header := "heading"; key := "s1.heading" |};
         {| header := "speed"; key := "s1.speed" |};
         {| header := "timestamp_0"; key := "s1.timestamp_0" |} ],
       incrTimestamp (setGpsCount 1 initialCounts))
    = Ok ([ {| header := "latitude"; key := "s1.latitude" |};
            {| header := "longitude"; key := "s1.longitude" |};
            {| header := "accuracy"; key := "s1.accuracy" |};
            {| header := "altitude"; key := "s1.altitude" |};
            {| header := "altitudeAccuracy"; key := "s1.altitudeAccuracy" |};
            {| header := "heading"; key := "s1.heading" |};
            {| header := "speed"; key := "s1.speed" |};
            {| header := "timestamp_0"; key := "s1.timestamp_0" |} ]
          ++ [ {| header := "latitude_1"; key := "s1.latitude_1" |};
               {| header := "longitude_1"; key := "s1.longitude_1" |};
               {| header := "accuracy_1"; key := "s1.accuracy_1" |};
               {| header := "altitude_1"; key := "s1.altitude_1" |};
               {| header := "altitudeAccuracy_1"; key := "s1.altitudeAccuracy_1" |};
               {| header := "heading_1"; key := "s1.heading_1" |};
               {| header := "speed_1"; key := "s1.speed_1" |};
               {| header := "timestamp_1"; key := "s1.timestamp_1" |} ], c2)
      /\ timestampCount c2 = 2.
Proof.
  pose proof (repeated_subtest_suffix gridStore
                [gpsSubtest; otherSubtest (JStr "note") "n1"] gpsSubtest
                [] _ _ eq_refl) as H.
  destruct H as (_ & _ & _ & H & _). exact (H eq_refl).
Defined.

Lemma unrecognised_subtests_skipped_witness :
  visitSubtest gridStore (otherSubtest JUndefined "u1") ([], initialCounts)
    = Ok ([], initialCounts)
  /\ processSubtests "a1" 0 gridStore []
       [otherSubtest (JStr "Grid") "u2"; gpsSubtest; otherSubtest JUndefined "u1"]
     = processSubtests "a1" 0 gridStore [] [gpsSubtest].
Proof.
  pose proof (unrecognised_subtests_skipped gridStore
                [otherSubtest (JStr "Grid") "u2"; gpsSubtest;
                 otherSubtest JUndefined "u1"]) as (U & S & _ & P).
  split.
  - apply S. apply U. reflexivity.
  - apply (P "a1" 0 []).
Defined.

Lemma count_reaches_only_assessment_columns_witness :
  createColumnHeaders "a1" 3 (scenarioStore (JStr "a1")) =
    Ok (leadingColumns {| Assessment.assessmentId := JStr "a1" |} 3
        ++ [ {| header := "latitude"; key := "s1.latitude" |};
             {| header := "longitude"; key := "s1.longitude" |};
             {| header := "accuracy"; key := "s1.accuracy" |};
             {| header := "altitude"; key := "s1.altitude" |};
             {| header := "altitudeAccuracy"; key := "s1.altitudeAccuracy" |};
             {| header := "heading"; key := "s1.heading" |};
             {| header := "speed"; key := "s1.speed" |};
             {| header := "timestamp_0"; key := "s1.timestamp_0" |} ]
        ++ [ {| header := "end_time_3"; key := "a1.end_time_3" |} ]).
Proof.
  apply (count_reaches_only_assessment_columns "a1" (scenarioStore (JStr "a1"))
           {| Assessment.assessmentId := JStr "a1" |} [gpsSubtest]
           eq_refl eq_refl 3).
Defined.

Lemma timestampCount_is_total_witness :
  exists a' c',
    visitSubtests gridStore
      [gpsSubtest; gridSubtest "g1"; gpsSubtest; gridSubtest "g2"]
      ([], initialCounts) = Ok (a', c')
    /\ timestampCount c' = singleGroupTotal c' + 2.
Proof.
  eexists _, _. split; [vm_compute; reflexivity|].
  eapply (proj2 (timestampCount_is_total gridStore
            [gpsSubtest; gridSubtest "g1"; gpsSubtest; gridSubtest "g2"]
            [] _ _ eq_refl) [gpsSubtest] (gridSubtest "g1")
            [gpsSubtest; gridSubtest "g2"] gridResults eq_refl).
  - repeat constructor. discriminate.
  - reflexivity.
  - reflexivity.
Defined.

Lemma grid_without_entries_witness :
  visitSubtest (scenarioStore (JStr "a1")) (gridSubtest "g1") ([], initialCounts)
    = Ok ([], setGridCount 1 initialCounts)
  /\ forall g' a', Subtest.prototype g' = JStr "grid" ->
       visitSubtest (scenarioStore (JStr "a1")) g' (a', setGridCount 1 initialCounts)
       = Ok (a', setGridCount 1 initialCounts).
Proof.
  apply (grid_without_entries (scenarioStore (JStr "a1")) (gridSubtest "g1")
           [] initialCounts []); try reflexivity. constructor.
Defined.

Lemma createLocation_columns_witness :
  createLocation (locationSubtest "l1" [JStr "County"; JStr "School Name"])
    (setLocationCount 1 initialCounts)
  = Ok [ {| header := "County_1"; key := "l1.county_1" |};
         {| header := "School Name_1"; key := "l1.school name_1" |};
         {| header := "timestamp_0"; key := "l1.timestamp_0" |} ]
  /\ exists msg,
       createLocation (locationSubtest "l1" [JStr "County"; JNum 3]) initialCounts
       = Err (TypeError msg).
Proof.
  split.
  - exact (proj1 (createLocation_columns
                    (locationSubtest "l1" [JStr "County"; JStr "School Name"])
                    (setLocationCount 1 initialCounts))
                 ["County"; "School Name"] eq_refl).
  - destruct (proj2 (createLocation_columns
                       (locationSubtest "l1" [JStr "County"; JNum 3])
                       initialCounts)) as (msg & E & _).
    { apply Exists_cons_tl. apply Exists_cons_hd. reflexivity. }
    exists msg. exact E.
Defined.

Lemma createGrid_defective_entry_throws_witness :
  (exists msg,
     createGrid (gridSubtest "g1")
       (incrTimestamp (setGpsCount 1 initialCounts)) namelessStore
       = Err (TypeError msg)
     /\ createColumnHeaders "a2" 0 namelessStore = Err (TypeError msg))
  /\ exists msg,
       createGrid (gridSubtest "g1") initialCounts itemlessStore
       = Err (TypeError msg).
Proof.
  split.
  - destruct (createGrid_defective_entry_throws (gridSubtest "g1")
                (incrTimestamp (setGpsCount 1 initialCounts))
                namelessStore namelessResults eq_refl) as (msg & E & B).
    { apply Exists_cons_tl. apply Exists_cons_hd. right.
      eexists. split; [reflexivity|]. left. split; reflexivity. }
    exists msg. split; [exact E|].
    eapply (B "a2" 0 {| Assessment.assessmentId := JStr "a2" |}
              [gpsSubtest] []); reflexivity.
  - destruct (createGrid_defective_entry_throws (gridSubtest "g1") initialCounts
                itemlessStore
                [ {| ResultRow.doc :=
                       {| ResultDoc.subtestData := [itemlessEntry] |} |} ]
                eq_refl) as (msg & E & _).
    { apply Exists_cons_hd. right.
      eexists. split; [reflexivity|]. right. left. reflexivity. }
    exists msg. exact E.
Defined.

Lemma derived_variable_name_sanitised_witness :
  exists var,
    gridVariableName lettersEntry lettersData = Ok var
    /\ String.length var = 12
    /\ Forall (fun ch => isWhitespace ch = false /\ isUpper ch = false)
              (stringChars var).
Proof.
  apply (derived_variable_name_sanitised lettersEntry lettersData "Letter Sound");
    reflexivity.
Defined.

Lemma createSurvey_same_columns_witness :
  exists cols,
    createSurvey "name" initialCounts (surveyStore "name")
      = Ok (cols ++ [timestampColumn "name" 0])
    /\ Permutation cols
         (flat_map (questionColumns "name" (occurrenceSuffix 0))
                   [question "b" 1 2; question "a" 2 3])
    /\ length cols = 4.
Proof.
  destruct (createSurvey_same_columns (surveyStore "name") "name" initialCounts
              [question "b" 1 2; question "a" 2 3] eq_refl)
    as (cols & E & P & L & _).
  exists cols. split; [exact E|]. split; [exact P | exact L].
Defined.

Lemma survey_single_column_witness :
  exists before after,
    Permutation (before ++ question "b" 1 2 :: after)
                [question "b" 1 2; question "a" 2 3]
    /\ createSurvey "s1" (setSurveyCount 1 initialCounts) (surveyStore "s1")
       = Ok (flat_map (questionColumns "s1" (occurrenceSuffix 1)) before
             ++ [ {| header := "b_1"; key := "s1.b_1" |} ]
             ++ flat_map (questionColumns "s1" (occurrenceSuffix 1)) after
             ++ [timestampColumn "s1" 0]).
Proof.
  destruct (survey_single_column (surveyStore "s1") "s1"
              (setSurveyCount 1 initialCounts)
              [question "b" 1 2; question "a" 2 3] eq_refl) as [H _].
  apply (H (question "b" 1 2)).
  - cbn. tauto.
  - cbn. lia.
Defined.

Lemma createSurvey_sorted_by_order_witness :
  exists sortedDoc,
    createSurvey "s1" initialCounts tiedStore
    = Ok (flat_map (questionColumns "s1" (occurrenceSuffix 0)) sortedDoc
          ++ [timestampColumn "s1" 0])
    /\ Permutation sortedDoc tiedQuestions
    /\ StronglySorted (fun a b => (orderNumber a <= orderNumber b)%Z) sortedDoc
    /\ forall z,
         filter (fun q => orderNumber q = z) sortedDoc
         = filter (fun q => orderNumber q = z) tiedQuestions.
Proof.
  apply (createSurvey_sorted_by_order tiedStore "s1" initialCounts
           tiedQuestions eq_refl eq_refl).
  repeat constructor; eexists; reflexivity.
Defined.

Lemma generateAssessmentHeaders_stops_at_first_failure_witness :
  generateAssessmentHeaders logSave (scenarioStore (JStr "a1"))
    ([row "a1"] ++ row "zz" :: [row "a1"]) []
  = (Err notFound,
     [("a1",
       [ {| header := "assessment_id"; key := "a1.assessmentId" |};
         {| header := "assessment_name"; key := "a1.assessmentName" |};
         {| header := "enumerator"; key := "a1.enumerator" |};
         {| header := "start_time"; key := "a1.start_time" |};
         {| header := "order_map"; key := "a1.order_map" |};
         {| header := "latitude"; key := "s1.latitude" |};
         {| header := "longitude"; key := "s1.longitude" |};
         {| header := "accuracy"; key := "s1.accuracy" |};
         {| header := "altitude"; key := "s1.altitude" |};
         {| header := "altitudeAccuracy"; key := "s1.altitudeAccuracy" |};
         {| header := "heading"; key := "s1.heading" |};
         {| header := "speed"; key := "s1.speed" |};
         {| header := "timestamp_0"; key := "s1.timestamp_0" |};
         {| header := "end_time"; key := "a1.end_time" |} ])]).
Proof.
  eapply (proj1 (generateAssessmentHeaders_stops_at_first_failure logSave
                   (scenarioStore (JStr "a1")) [row "a1"] (row "zz") [row "a1"]
                   [] _ _ eq_refl)).
  reflexivity.
Defined.

Lemma generateAssessmentHeaders_saves_each_witness :
  exists response,
    generateAssessmentHeaders logSave (storeOf []) [row "a1"; row "a2"] []
    = (Ok response,
       [ ("a1", [ {| header := "assessment_id"; key := "a1.assessmentId" |};
                  {| header := "assessment_name"; key := "a1.assessmentName" |};
                  {| header := "enumerator"; key := "a1.enumerator" |};
                  {| header := "start_time"; key := "a1.start_time" |};
                  {| header := "order_map"; key := "a1.order_map" |};
                  {| header := "end_time"; key := "a1.end_time" |} ]);
         ("a2", [ {| header := "assessment_id"; key := "a2.assessmentId" |};
                  {| header := "assessment_name"; key := "a2.assessmentName" |};
                  {| header := "enumerator"; key := "a2.enumerator" |};
                  {| header := "start_time"; key := "a2.start_time" |};
                  {| header := "order_map"; key := "a2.order_map" |};
                  {| header := "end_time"; key := "a2.end_time" |} ]) ])
    /\ response = JStr "a2".
Proof.
  destruct (generateAssessmentHeaders_saves_each logSave (storeOf [])
              [row "a1"; row "a2"] []
              [ [ {| header := "assessment_id"; key := "a1.assessmentId" |};
                  {| header := "assessment_name"; key := "a1.assessmentName" |};
                  {| header := "enumerator"; key := "a1.enumerator" |};
                  {| header := "start_time"; key := "a1.start_time" |};
                  {| header := "order_map"; key := "a1.order_map" |};
                  {| header := "end_time"; key := "a1.end_time" |} ];
                [ {| header := "assessment_id"; key := "a2.assessmentId" |};
                  {| header := "assessment_name"; key := "a2.assessmentName" |};
                  {| header := "enumerator"; key := "a2.enumerator" |};
                  {| header := "start_time"; key := "a2.start_time" |};
                  {| header := "order_map"; key := "a2.order_map" |};
                  {| header := "end_time"; key := "a2.end_time" |} ] ])
    as (response & E & _ & L).
  - intros h id db. eexists. reflexivity.
  - repeat constructor.
  - exists response. split; [exact E|].
    specialize (L [(row "a1", _)] (row "a2") _ eq_refl).
    cbn in L. now injection L.
Defined.

Lemma handlers_answer_with_the_failure_witness :
  generateAll (Err notFound) logSave (storeOf []) [] = (SendError notFound, [])
  /\ generateAll (Ok ([row "a1"] ++ row "zz" :: [row "a1"])) logSave
       (scenarioStore (JStr "a1")) []
     = (SendError notFound,
        snd (generateAssessmentHeaders logSave (scenarioStore (JStr "a1"))
               [row "a1"] []))
  /\ generateHeader logSave "zz" (scenarioStore (JStr "a1")) []
     = (SendError notFound, []).
Proof.
  split; [|split].
  - apply (proj1 (handlers_answer_with_the_failure (Err notFound) logSave
                    (storeOf []) [])). reflexivity.
  - eapply (proj1 (proj2 (handlers_answer_with_the_failure
                    (Ok ([row "a1"] ++ row "zz" :: [row "a1"])) logSave
                    (scenarioStore (JStr "a1")) []))); reflexivity.
  - apply (handlers_answer_with_the_failure (Ok []) logSave
             (scenarioStore (JStr "a1")) []). reflexivity.
Defined.

Lemma later_subtests_only_append_witness :
  exists a1 c1 more,
    visitSubtests gridStore [gpsSubtest] ([], initialCounts) = Ok (a1, c1)
    /\ [ {| header := "latitude"; key := "s1.latitude" |};
         {| header := "longitude"; key := "s1.longitude" |};
         {| header := "accuracy"; key := "s1.accuracy" |};
         {| header := "altitude"; key := "s1.altitude" |};
         {| header := "altitudeAccuracy"; key := "s1.altitudeAccuracy" |};
         {| header := "heading"; key := "s1.heading" |};
         {| header := "speed"; key := "s1.speed" |};
         {| header := "timestamp_0"; key := "s1.timestamp_0" |};
         {| header := "latitude_1"; key := "s1.latitude_1" |};
         {| header := "longitude_1"; key := "s1.longitude_1" |};
         {| header := "accuracy_1"; key := "s1.accuracy_1" |};
         {| header := "altitude_1"; key := "s1.altitude_1" |};
         {| header := "altitudeAccuracy_1"; key := "s1.altitudeAccuracy_1" |};
         {| header := "heading_1"; key := "s1.heading_1" |};
         {| header := "speed_1"; key := "s1.speed_1" |};
         {| header := "timestamp_1"; key := "s1.timestamp_1" |} ]
       = a1 ++ more.
Proof.
  destruct (later_subtests_only_append gridStore [gpsSubtest] [gpsSubtest] []
              _ _ eq_refl) as (a1 & c1 & more & V & E & _).
  exists a1, c1, more. split; [exact V | exact E].
Defined.
